(** * Criticality score: a shallow embedding of [criticalityscore] (Go)

    The development follows the Go package [criticalityscore]:
    [utils.go] (link-header parsing, additional parameters, organisation
    names), the metric providers of [GitHubRepository], the constants and
    [score.go] ([ParamScore], [RepositoryStats]).

    Conventions of the embedding.
    - A Go [string] is a [string] of 8-bit characters.  On ASCII text (HTTP
      headers, URLs, the organisation names used below) bytes, runes and
      characters coincide; the model does not decode UTF-8.
    - A Go [int] is a [Z]; arithmetic that can leave the 64-bit range is
      wrapped explicitly ([wrap64]).
    - A Go [float64] is a binary64 number: Rocq's primitive floats, with
      the rounding of IEEE 754.
    - A run-time panic is the outcome [Panic]; a Go [error] result is an
      [option error].
    - Functions of Go's standard library are modelled from their
      documentation, under a module that carries the package's name. *)

From stdpp Require Import gmap strings list.
From Stdlib Require Import ZArith Ascii String Bool Floats.

Local Open Scope string_scope.
Local Open Scope Z_scope.

(** ** Outcomes: a value, a panic or a loop that goes on *)

(** [OutOfFuel] is the outcome of a loop that has not ended within the
    number of iterations it was given. *)
Inductive outcome (A : Type) : Type :=
| Ret (a : A)
| Panic
| OutOfFuel.
Arguments Ret {A} a.
Arguments Panic {A}.
Arguments OutOfFuel {A}.

(** [outcome] is a monad in stdpp's sense: [x ← m; k] runs [k] on the value
    of [m] and stops at the first panic. *)
#[global] Instance outcome_ret : MRet outcome := fun A a => Ret a.
#[global] Instance outcome_bind : MBind outcome := fun A B f m =>
  match m with
  | Ret a => f a
  | Panic => Panic
  | OutOfFuel => OutOfFuel
  end.

(** ** Package [strings] *)

Module Strings.

Definition is_upper (c : ascii) : bool :=
  let n := N_of_ascii c in (65 <=? n)%N && (n <=? 90)%N.

Definition lower_char (c : ascii) : ascii :=
  if is_upper c then ascii_of_N (N_of_ascii c + 32) else c.

(** [strings.ToLower] on ASCII text: 'A'..'Z' go to 'a'..'z'. *)
Fixpoint ToLower (s : string) : string :=
  match s with
  | EmptyString => EmptyString
  | String c s' => String (lower_char c) (ToLower s')
  end.

Fixpoint contains_char (cutset : string) (c : ascii) : bool :=
  match cutset with
  | EmptyString => false
  | String d r => Ascii.eqb c d || contains_char r c
  end.

(** [strings.TrimRight s cutset]: [s] without its trailing characters that
    belong to [cutset]. *)
Fixpoint TrimRight (s cutset : string) : string :=
  match s with
  | EmptyString => EmptyString
  | String c s' =>
      let t := TrimRight s' cutset in
      if String.eqb t EmptyString && contains_char cutset c
      then EmptyString else String c t
  end.

Definition is_space (c : ascii) : bool :=
  let n := N_of_ascii c in ((9 <=? n) && (n <=? 13) || (n =? 32))%N.

Fixpoint TrimLeftSpace (s : string) : string :=
  match s with
  | EmptyString => EmptyString
  | String c s' => if is_space c then TrimLeftSpace s' else s
  end.

Fixpoint TrimRightSpace (s : string) : string :=
  match s with
  | EmptyString => EmptyString
  | String c s' =>
      let t := TrimRightSpace s' in
      if String.eqb t EmptyString && is_space c
      then EmptyString else String c t
  end.

(** [TrimSpace] on ASCII text (also [bytes.TrimSpace]). *)
Definition TrimSpace (s : string) : string :=
  TrimRightSpace (TrimLeftSpace s).

(** [strings.Split s sep] for a non-empty separator.  [skip] counts the
    characters of a separator that was matched and is still being
    consumed; [cur] is the piece under construction. *)
Fixpoint split_from (sep : string) (skip : nat) (cur s : string)
  : list string :=
  match s with
  | EmptyString => [cur]
  | String c s' =>
      match skip with
      | S k => split_from sep k cur s'
      | O =>
          if String.prefix sep s
          then cur :: split_from sep (String.length sep - 1) EmptyString s'
          else split_from sep O (cur ++ String c EmptyString) s'
      end
  end.

Definition Split (s sep : string) : list string :=
  split_from sep O EmptyString s.

(** [strings.Cut s sep] for a one-character separator: the text before
    and after the first occurrence, and whether there is one. *)
Fixpoint Cut (s : string) (sep : ascii) : string * string * bool :=
  match s with
  | EmptyString => (EmptyString, EmptyString, false)
  | String c s' =>
      if Ascii.eqb c sep then (EmptyString, s', true)
      else let '(b, a, f) := Cut s' sep in (String c b, a, f)
  end.

(** [strings.NewReplacer(old1, new1, ...).Replace].  The generic
    replacer scans the target left to right; at each position the first
    pair, in argument order, whose old string is a prefix of what remains
    is applied, and matches do not overlap.  Pairs with an empty old
    string (which Go matches between characters) are not modelled: they
    are skipped. *)
Fixpoint lookup_pair (oldnew : list (string * string)) (s : string)
  : option (string * nat) :=
  match oldnew with
  | [] => None
  | (old, new) :: rest =>
      if negb (String.eqb old EmptyString) && String.prefix old s
      then Some (new, String.length old)
      else lookup_pair rest s
  end.

Fixpoint replace_from (oldnew : list (string * string)) (skip : nat)
         (s : string) : string :=
  match s with
  | EmptyString => EmptyString
  | String c s' =>
      match skip with
      | S k => replace_from oldnew k s'
      | O =>
          match lookup_pair oldnew s with
          | Some (new, keylen) =>
              new ++ replace_from oldnew (keylen - 1) s'
          | None => String c (replace_from oldnew O s')
          end
      end
  end.

Definition Replace (oldnew : list (string * string)) (s : string) : string :=
  replace_from oldnew O s.

End Strings.

(** ** [utils.go]: organisation names *)

Definition filterOrgName (orgName : string) : string :=
  let name := Strings.ToLower orgName in
  let replacer := [("inc.", ""); ("llc", ""); ("@", ""); (" ", "")] in
  let name := Strings.Replace replacer name in
  let name := Strings.TrimRight name "," in
  name.

(** ** float64

    A [float64] is a binary64 number of IEEE 754, a primitive float of
    Rocq: addition, multiplication, division and the comparisons are the
    primitive operations, which round to nearest, ties to even, as those
    of Go do.  The conversions and the functions of package [math] are
    written over the sign, mantissa and exponent that [Prim2SF] gives. *)

Module Float64.

Definition float64 : Type := PrimFloat.float.

Definition zero : float64 := 0%float.
Definition NaN : float64 := PrimFloat.nan.

Definition min_int64 : Z := - 2 ^ 63.
Definition max_int64 : Z := 2 ^ 63 - 1.

(** Conversion [float64(v)] of an [int]: the nearest float, ties to
    even. *)
Definition of_int (v : Z) : float64 :=
  SF2Prim (binary_normalize prec emax v 0 false).

(** Conversion [int(x)]: truncation toward zero.  The Go specification
    leaves the result to the implementation when the value does not fit;
    amd64 yields the smallest [int64]. *)
Definition to_int (x : float64) : Z :=
  match Prim2SF x with
  | S754_zero _ => 0
  | S754_finite s m e =>
      let magnitude :=
        if 0 <=? e then Z.pos m * 2 ^ e else Z.pos m / 2 ^ (- e) in
      let z := if s then - magnitude else magnitude in
      if ((min_int64 <=? z) && (z <=? max_int64))%Z then z else min_int64
  | _ => min_int64
  end.

End Float64.
Export Float64.
Bind Scope float_scope with float64.

(** ** Package [math] *)

Module Math.

(** [math.Max]: [+Inf] wins over everything, then [NaN]; of the two
    zeros the positive one is the greater. *)
Definition Max (x y : float64) : float64 :=
  if (x =? infinity)%float || (y =? infinity)%float then infinity
  else if is_nan x || is_nan y then nan
  else if (x =? 0)%float && (x =? y)%float then (if get_sign x then y else x)
  else if (y <? x)%float then x else y.

(** [math.Round]: the nearest integer, halves away from zero, with the
    sign of the argument; a float whose exponent is not negative is an
    integer already, and infinities and [NaN] are returned as they are.
    For the mantissa [m] and the exponent [e < 0], the integer is the
    integral part of [m * 2^e + 1/2]. *)
Definition Round (x : float64) : float64 :=
  match Prim2SF x with
  | S754_finite s m e =>
      if 0 <=? e then x
      else
        let n := (2 * Z.pos m + 2 ^ (- e)) / 2 ^ (- e + 1) in
        SF2Prim (binary_normalize prec emax (if s then - n else n) 0 s)
  | _ => x
  end.

End Math.

(** ** The Go platform

    What the package takes from libraries whose behaviour is not spelled
    out here:
    - [url_rejects s]: [net/url.Parse] returns an error on [s] (control
      characters, a malformed scheme, authority or escape);
    - [ParseFloat s]: [strconv.ParseFloat(s, 64)], [None] on an error;
    - [DependentsRegex_FindSubmatch]: the matches of [DependentsRegex]
      (the whole match, then its group), empty when there is none;
    - [growslice_cap old n]: the capacity [append] gives a slice of
      pointers of capacity [old] that has to grow to [n] elements;
    - [Format_UnixDate t]: the instant [t] in UTC, in the layout
      [time.UnixDate];
    - [Log x]: [math.Log(x)].  Its last bit depends on the architecture
      (assembly on some, fused operations on others); the theorems state
      what they assume of it. *)

Class Platform : Type := {
  url_rejects : string -> bool;
  ParseFloat : string -> option float64;
  DependentsRegex_FindSubmatch : string -> list string;
  growslice_cap : nat -> nat -> nat;
  Format_UnixDate : Z -> string;
  Log : float64 -> float64
}.

(** ** Package [strconv] *)

Module Strconv.

Definition is_digit (c : ascii) : bool :=
  let n := N_of_ascii c in (48 <=? n)%N && (n <=? 57)%N.

Definition digit_val (c : ascii) : Z := Z.of_N (N_of_ascii c) - 48.

Fixpoint all_digits (s : string) : bool :=
  match s with
  | EmptyString => true
  | String c r => is_digit c && all_digits r
  end.

Fixpoint digits_value (acc : Z) (s : string) : Z :=
  match s with
  | EmptyString => acc
  | String c r => digits_value (10 * acc + digit_val c) r
  end.

(** [strconv.Atoi] on a 64-bit platform: an optional sign and decimal
    digits.  The result is the value and whether there was no error; a
    syntax error gives 0, a value out of range the nearest bound. *)
Definition Atoi (s : string) : Z * bool :=
  let '(negative, ds) :=
    match s with
    | String "+" r => (false, r)
    | String "-" r => (true, r)
    | _ => (false, s)
    end in
  if String.eqb ds EmptyString || negb (all_digits ds) then (0, false)
  else
    let v := digits_value 0 ds in
    let v := if negative then - v else v in
    if v <? min_int64 then (min_int64, false)
    else if max_int64 <? v then (max_int64, false)
    else (v, true).

End Strconv.

(** ** Package [net/url] *)

Module Url.

(** The one field of [url.URL] that [totalCount] reads. *)
Record URL : Type := { RawQuery : string }.

(** [url.Parse]: the fragment is cut off at the first '#', then the query
    is what follows the first '?'. *)
Definition Parse `{Platform} (rawURL : string) : option URL :=
  if url_rejects rawURL then None
  else
    let '(u, _, _) := Strings.Cut rawURL "#" in
    let '(_, query, _) := Strings.Cut u "?" in
    Some {| RawQuery := query |}.

Definition is_hex (c : ascii) : bool :=
  let n := N_of_ascii c in
  ((48 <=? n) && (n <=? 57) || (97 <=? n) && (n <=? 102)
   || (65 <=? n) && (n <=? 70))%N.

Definition unhex (c : ascii) : N :=
  let n := N_of_ascii c in
  (if n <=? 57 then n - 48 else if 97 <=? n then n - 97 + 10 else n - 65 + 10)%N.

(** [url.QueryUnescape]: "%XY" becomes the byte XY and '+' a space; a '%'
    that is not followed by two hexadecimal digits is an error. *)
Fixpoint QueryUnescape (s : string) : option string :=
  match s with
  | EmptyString => Some EmptyString
  | String "%" (String a (String b rest)) =>
      if is_hex a && is_hex b
      then String (ascii_of_N (16 * unhex a + unhex b)) <$> QueryUnescape rest
      else None
  | String "%" _ => None
  | String "+" rest => String " " <$> QueryUnescape rest
  | String c rest => String c <$> QueryUnescape rest
  end.

(** [url.Values]: the values of each key, in the order they were met. *)
Abbreviation Values := (gmap string (list string)).

Definition add_pair (m : Values) (setting : string) : Values :=
  if Strings.contains_char setting ";" then m
  else if String.eqb setting EmptyString then m
  else
    let '(key, value, _) := Strings.Cut setting "=" in
    match QueryUnescape key, QueryUnescape value with
    | Some key, Some value => <[key := (default [] (m !! key) ++ [value])%list]> m
    | _, _ => m
    end.

(** [url.ParseQuery] (Go 1.17 and later): the settings are separated by
    '&'; a setting that holds a ';' or a bad escape is dropped.  The error
    that reports dropped settings is left out: the caller discards it. *)
Definition ParseQuery (query : string) : Values :=
  fold_left add_pair (Strings.Split query "&") ∅.

(** [Values.Get]: the first value of the key, or the empty string. *)
Definition Get (m : Values) (key : string) : string :=
  match m !! key with
  | Some (v :: _) => v
  | _ => EmptyString
  end.

End Url.

(** ** [net/http] headers and the answers of the GitHub client *)

Definition error : Type := string.

Abbreviation Header := (gmap string (list string)).

Definition upper_char (c : ascii) : ascii :=
  let n := N_of_ascii c in
  if ((97 <=? n) && (n <=? 122))%N then ascii_of_N (n - 32) else c.

(** [textproto.CanonicalMIMEHeaderKey] on a key of letters, digits and
    hyphens: the first letter and each letter after a hyphen in upper
    case, the others in lower case. *)
Fixpoint canonical_key (up : bool) (s : string) : string :=
  match s with
  | EmptyString => EmptyString
  | String c r =>
      String (if up then upper_char c else Strings.lower_char c)
             (canonical_key (Ascii.eqb c "-") r)
  end.

(** [http.Header.Get]: the first value of the canonical key, or "". *)
Definition Header_Get (h : Header) (key : string) : string :=
  match h !! canonical_key true key with
  | Some (v :: _) => v
  | _ => EmptyString
  end.

(** [github.Response]: the status, the number of the next page (0 when
    there is none) and the headers. *)
Record Response : Type := {
  StatusCode : Z;
  NextPage : Z;
  Header_ : Header
}.

(** A call of the client returns its data and the response, or an error;
    with an error the response is [nil] when no response was received. *)
Inductive api_result (A : Type) : Type :=
| ApiOK (a : A) (resp : Response)
| ApiErr (resp : option Response) (err : error).
Arguments ApiOK {A} a resp.
Arguments ApiErr {A} resp err.

(** ** [utils.go]: link headers and page counts *)

(** [asRunes[start:end]], where [asRunes] is the list of the characters
    of the string: the runes of the source when the input is ASCII. *)
Definition slice_string (s : string) (start end_ : Z) : outcome string :=
  if (0 <=? start) && (start <=? end_) && (end_ <=? Z.of_nat (String.length s))
  then Ret (String.substring (Z.to_nat start) (Z.to_nat (end_ - start)) s)
  else Panic.

Definition substr (input : string) (start end_ : Z) : outcome string :=
  let n := Z.of_nat (String.length input) in
  if n <=? start then Ret EmptyString
  else
    let end_ := if n <? end_ then n - 1 else end_ in
    let end_ := if end_ <=? 0 then n + end_ else end_ in
    slice_string input start end_.

Fixpoint parseLinkHeader_loop (linkHeaders : list string)
         (links : gmap string string) : outcome (gmap string string) :=
  match linkHeaders with
  | [] => Ret links
  | linkHeader :: rest =>
      match Strings.Split linkHeader "; " with
      | lh0 :: lh1 :: _ =>
          u ← substr lh0 1 (-1);
          r ← substr lh1 5 (-1);
          parseLinkHeader_loop rest (<[r := u]> links)
      | _ => parseLinkHeader_loop rest links
      end
  end.

Definition parseLinkHeader (header : Header) : outcome (gmap string string) :=
  let linkHeaders := Strings.Split (Header_Get header "link") ", " in
  parseLinkHeader_loop linkHeaders ∅.

Definition totalCount `{Platform} (resp : Response) : outcome Z :=
  links ← parseLinkHeader (Header_ resp);
  match links !! "last" with
  | None => Ret 0
  | Some lastURL =>
      match Url.Parse lastURL with
      | None => Ret 0
      | Some u =>
          let m := Url.ParseQuery (Url.RawQuery u) in
          match Strconv.Atoi (Url.Get m "page") with
          | (_, false) => Ret 0
          | (pageCount, true) => Ret pageCount
          end
      end
  end.

(** ** [utils.go]: additional parameters *)

Record AdditionalParam : Type := {
  Value : float64;
  Weight : float64;
  MaxThreshold : float64
}.

Fixpoint parseAdditionalParams_loop `{Platform} (params : list string)
         (additionalParams : list AdditionalParam)
  : list AdditionalParam * option error :=
  match params with
  | [] => (additionalParams, None)
  | p :: rest =>
      match Strings.Split p ":" with
      | [ps0; ps1; ps2] =>
          match ParseFloat ps0 with
          | None => ([], Some "param value should be type float64")
          | Some v =>
              match ParseFloat ps1 with
              | None => ([], Some "param weight should be type float64")
              | Some w =>
                  match ParseFloat ps2 with
                  | None =>
                      ([], Some "param max_threshold should be type float64")
                  | Some mt =>
                      let param :=
                        {| Value := v; Weight := w; MaxThreshold := mt |} in
                      parseAdditionalParams_loop rest
                        (additionalParams ++ [param])%list
                  end
              end
          end
      | _ =>
          ([], Some "param string should have 3 values (value:weight:threshold)")
      end
  end.

Definition parseAdditionalParams `{Platform} (params : list string)
  : list AdditionalParam * option error :=
  match params with
  | [] => ([], None)
  | _ => parseAdditionalParams_loop params []
  end.

(** The shape [value:weight:max_threshold]: what a parameter string
    stands for when it has exactly three fields between colons and each
    of them reads as a [float64]. *)
Definition param_shape `{Platform} (p : string) : option AdditionalParam :=
  match Strings.Split p ":" with
  | [value; weight; max_threshold] =>
      match ParseFloat value, ParseFloat weight, ParseFloat max_threshold with
      | Some v, Some w, Some mt =>
          Some {| Value := v; Weight := w; MaxThreshold := mt |}
      | _, _, _ => None
      end
  | _ => None
  end.

(** ** Constants used in the score *)

Definition CreatedSinceWeight : float64 := 1%float.
Definition UpdatedSinceWeight : float64 := (-1)%float.
Definition ContributorCountWeight : float64 := 2%float.
Definition OrgCountWeight : float64 := 1%float.
Definition CommitFrequencyWeight : float64 := 1%float.
Definition RecentReleasesWeight : float64 := 0.5%float.
Definition ClosedIssuesWeight : float64 := 0.5%float.
Definition UpdatedIssuesWeight : float64 := 0.5%float.
Definition CommentFrequencyWeight : float64 := 1%float.
Definition DependentsCountWeight : float64 := 2%float.

Definition CreatedSinceThreshold : float64 := 120%float.
Definition UpdatedSinceThreshold : float64 := 120%float.
Definition ContributorCountThreshold : float64 := 5000%float.
Definition OrgCountThreshold : float64 := 10%float.
Definition CommitFrequencyThreshold : float64 := 1000%float.
Definition RecentReleasesThreshold : float64 := 26%float.
Definition ClosedIssuesThreshold : float64 := 5000%float.
Definition UpdatedIssuesThreshold : float64 := 5000%float.
Definition CommentFrequencyThreshold : float64 := 15%float.
Definition DependentsCountThreshold : float64 := 500000%float.

Definition TopContributorCount : nat := 15.
Definition IssueLookbackDays : Z := 90.
Definition ReleaseLookbackDays : Z := 365.

(** ** Package [time]

    An instant is a number of nanoseconds on some fixed time line, a
    [Duration] a signed 64-bit number of nanoseconds. *)

Module Time.

Definition Second : Z := 1000000000.
Definition Hour : Z := 3600 * Second.

(** Subtraction of instants saturates at the bounds of [Duration]. *)
Definition Sub (t u : Z) : Z :=
  let d := t - u in
  if d <? min_int64 then min_int64
  else if max_int64 <? d then max_int64
  else d.

(** [time.Since(t)] when the clock reads [now]. *)
Definition Since (now t : Z) : Z := Sub now t.

(** [Duration.Hours]: the whole hours and the rest of the duration are
    converted one by one, [float64(d / Hour) + float64(d % Hour) /
    (60 * 60 * 1e9)]. *)
Definition Hours (d : Z) : float64 :=
  (of_int (Z.quot d Hour) + of_int (Z.rem d Hour) / 3600000000000)%float.

End Time.

(** Wrap-around of 64-bit [int] arithmetic. *)
Definition wrap64 (z : Z) : Z := (z + 2 ^ 63) mod 2 ^ 64 - 2 ^ 63.

(** ** The repository and what GitHub answers about it *)

(** [github.Repository], as [LoadRepository] hands it over: the pointer
    is not [nil] and the creation time is set. *)
Record Repository : Type := {
  Name_ : string;
  HTMLURL : string;
  Language_ : string;
  CreatedAt : Z
}.

(** [github.RepositoryCommit], by the date of its author. *)
Record RepositoryCommit : Type := { AuthorDate : Z }.

(** [github.Contributor]; a [nil] pointer is [None] and has [GetID() = 0]. *)
Record Contributor : Type := { ID : Z }.

Definition GetID (c : option Contributor) : Z :=
  match c with
  | Some c => ID c
  | None => 0
  end.

Record User : Type := { Company : string }.
Record WeeklyCommitActivity : Type := { Total : Z }.
Record RepositoryRelease : Type := { ReleaseCreatedAt : Z }.

(** An answer to [http.Get]: an error, or a status and a body with the
    bytes that [ioutil.ReadAll] delivers and whether it fails. *)
Inductive http_result : Type :=
| HttpErr
| HttpResp (status : Z) (content : string) (readFails : bool).

(** The remote side during one run: the clock and, for each request the
    package can send about the repository, the answer to it.  Listings
    depend on the options of the request. *)
Record GitHub : Type := {
  Now : Z;
  ListCommits : api_result (list RepositoryCommit);
  ListContributors :
    string -> Z -> Z -> api_result (list (option Contributor));
  GetByID : Z -> api_result User;
  ListCommitActivity : api_result (list WeeklyCommitActivity);
  ListReleases : Z -> Z -> api_result (list RepositoryRelease);
  ListTags : Z -> api_result unit;
  ListByRepo : string -> Z -> Z -> api_result unit;
  ListComments : Z -> Z -> api_result unit;
  http_Get : nat -> http_result
}.

(** The requests, as they are logged. *)
Inductive call : Type :=
| CallListCommits
| CallListContributors (anon : string) (perPage page : Z)
| CallGetByID (id : Z)
| CallListCommitActivity
| CallListReleases (perPage page : Z)
| CallListTags (perPage : Z)
| CallListByRepo (state : string) (since perPage : Z)
| CallListComments (since perPage : Z)
| CallHttpGet (attempt : nat).

(** ** Computations that talk to GitHub

    [M A] is the log of the requests sent and the outcome. *)

Definition M (A : Type) : Type := list call * outcome A.

#[global] Instance M_ret : MRet M := fun A a => ([], Ret a).
#[global] Instance M_bind : MBind M := fun A B f m =>
  match m with
  | (l, Ret a) => let '(l', r) := f a in ((l ++ l')%list, r)
  | (l, Panic) => (l, Panic)
  | (l, OutOfFuel) => (l, OutOfFuel)
  end.

Definition lift {A} (o : outcome A) : M A := ([], o).
Definition request {A} (c : call) (answer : A) : M A := ([c], Ret answer).
Definition panic {A} : M A := ([], Panic).
Definition out_of_fuel {A} : M A := ([], OutOfFuel).

(** [GitHubRepository]; the context and the client are the [GitHub] above.
    The field [R] is [R_] here. *)
Record GitHubRepository : Type := {
  R_ : Repository;
  Error : option error
}.

Definition set_Error (ghr : GitHubRepository) (err : error) : GitHubRepository :=
  {| R_ := R_ ghr; Error := Some err |}.

Definition ErrCommitFrequencyBeingCalculated : error :=
  "commit frequency is being calculated by github, please try again".
Definition ErrInvalidParamFormat : error := "invalid param format".

(** ** Slices with their capacity

    Go checks the upper bound of a slice expression on a slice against its
    capacity, not its length; the elements between the two are the zero
    values the allocation left there. *)

Record slice (A : Type) : Type := { elems : list A; cap : nat }.
Arguments elems {A} s.
Arguments cap {A} s.

Definition nil_slice {A} : slice A := {| elems := []; cap := 0 |}.
Definition len {A} (s : slice A) : nat := List.length (elems s).

(** [append(s, xs...)] on a slice of pointers: in place when the capacity
    suffices, on a new array of the capacity the run-time system chooses
    otherwise. *)
Definition append `{Platform} {A} (s : slice A) (xs : list A) : slice A :=
  let n := (len s + List.length xs)%nat in
  {| elems := (elems s ++ xs)%list;
     cap := if (n <=? cap s)%nat then cap s else growslice_cap (cap s) n |}.

(** [s[:high]] for a slice whose spare capacity holds [zero_value]s. *)
Definition reslice {A} (zero_value : A) (s : slice A) (high : nat)
  : outcome (list A) :=
  if (high <=? cap s)%nat
  then Ret (take high (elems s ++ replicate (cap s - len s) zero_value)%list)
  else Panic.

(** ** The metric providers

    Every provider is a method with a value receiver: it works on its own
    copy of the [GitHubRepository].  A provider returns that copy, as it
    is when the method ends, next to its result. *)

Section Providers.
Context `{Platform}.
Variable gh : GitHub.

Definition months_since (t : Z) : Z :=
  let difference := Time.Since (Now gh) t in
  to_int (Math.Round (Time.Hours difference / 24 / 30)%float).

(** The number of months since the repository was created. *)
Definition CreatedSince (ghr : GitHubRepository) : M (GitHubRepository * Z) :=
  mret (ghr, months_since (CreatedAt (R_ ghr))).

(** The number of months since the last commit. *)
Definition UpdatedSince (ghr : GitHubRepository) : M (GitHubRepository * Z) :=
  r ← request CallListCommits (ListCommits gh);
  match r with
  | ApiErr _ err => mret (set_Error ghr err, 0)
  | ApiOK commits _ =>
      match commits with
      | [] => panic
      | lastCommit :: _ => mret (ghr, months_since (AuthorDate lastCommit))
      end
  end.

(** The number of all contributors. *)
Definition Contributors (ghr : GitHubRepository) : M (GitHubRepository * Z) :=
  r ← request (CallListContributors "true" 1 0)
              (ListContributors gh "true" 1 0);
  match r with
  | ApiErr _ err => mret (set_Error ghr err, 0)
  | ApiOK _ resp => n ← lift (totalCount resp); mret (ghr, n)
  end.

Fixpoint ContributorOrgs_fetch (fuel : nat) (page : Z)
         (allContributors : slice (option Contributor))
  : M (error + slice (option Contributor)) :=
  match fuel with
  | O => out_of_fuel
  | S fuel =>
      r ← request (CallListContributors "false" 25 page)
                  (ListContributors gh "false" 25 page);
      match r with
      | ApiErr _ err => mret (inl err)
      | ApiOK contributors resp =>
          let allContributors := append allContributors contributors in
          if NextPage resp =? 0 then mret (inr allContributors)
          else if (TopContributorCount <? len allContributors)%nat
               then mret (inr allContributors)
               else ContributorOrgs_fetch fuel (NextPage resp) allContributors
      end
  end.

Fixpoint ContributorOrgs_users (contributors : list (option Contributor))
         (orgs : gset string) : M (gset string) :=
  match contributors with
  | [] => mret orgs
  | contributor :: rest =>
      r ← request (CallGetByID (GetID contributor))
                  (GetByID gh (GetID contributor));
      match r with
      | ApiErr _ _ => ContributorOrgs_users rest orgs
      | ApiOK user _ =>
          let company := Company user in
          if String.eqb company EmptyString
          then ContributorOrgs_users rest orgs
          else ContributorOrgs_users rest ({[filterOrgName company]} ∪ orgs)
      end
  end.

(** [string(i)] for [0 <= i < 10]: the one-character string of code [i]. *)
Definition placeholder_orgs : gset string :=
  list_to_set
    (map (fun i => String (ascii_of_nat i) EmptyString) (seq 0 10)).

(** The companies of the top contributors.  The Go map has the value
    [true] at each of its keys; it is the set of its keys. *)
Definition ContributorOrgs (fuel : nat) (ghr : GitHubRepository)
  : M (GitHubRepository * gset string) :=
  fetched ← ContributorOrgs_fetch fuel 0 nil_slice;
  match fetched with
  | inl err => mret (set_Error ghr err, ∅)
  | inr allContributors =>
      if (5000 <? len allContributors)%nat then mret (ghr, placeholder_orgs)
      else
        top ← lift (reslice None allContributors TopContributorCount);
        orgs ← ContributorOrgs_users top ∅;
        mret (ghr, orgs)
  end.

(** The weekly average number of commits. *)
Definition CommitFrequency (ghr : GitHubRepository)
  : M (GitHubRepository * float64) :=
  r ← request CallListCommitActivity (ListCommitActivity gh);
  match r with
  | ApiErr None _ => panic
  | ApiErr (Some resp) err =>
      if StatusCode resp =? 202
      then mret (set_Error ghr ErrCommitFrequencyBeingCalculated, zero)
      else mret (set_Error ghr err, zero)
  | ApiOK weekStats _ =>
      let total :=
        fold_left (fun total weekStat => wrap64 (total + Total weekStat))
                  weekStats 0 in
      mret (ghr, (Math.Round (of_int total / 52 * 10) / 10)%float)
  end.

Fixpoint RecentReleases_fetch (fuel : nat) (page : Z)
         (allReleases : list RepositoryRelease)
  : M (error + list RepositoryRelease) :=
  match fuel with
  | O => out_of_fuel
  | S fuel =>
      r ← request (CallListReleases 100 page) (ListReleases gh 100 page);
      match r with
      | ApiErr _ err => mret (inl err)
      | ApiOK releases resp =>
          let allReleases := (allReleases ++ releases)%list in
          if NextPage resp =? 0 then mret (inr allReleases)
          else RecentReleases_fetch fuel (NextPage resp) allReleases
      end
  end.

Definition release_too_old (release : RepositoryRelease) : bool :=
  (of_int ReleaseLookbackDays
   <? Time.Hours (Time.Since (Now gh) (ReleaseCreatedAt release)) / 24)%float.

Definition count_recent (allReleases : list RepositoryRelease) : Z :=
  fold_left
    (fun total release =>
       if release_too_old release then total else wrap64 (total + 1))
    allReleases 0.

(** The number of recent releases.  If none is found within
    [ReleaseLookbackDays], an estimate is calculated as
    [totalTags / daysSinceCreation * ReleaseLookbackDays]. *)
Definition RecentReleases (fuel : nat) (ghr : GitHubRepository)
  : M (GitHubRepository * Z) :=
  fetched ← RecentReleases_fetch fuel 0 [];
  match fetched with
  | inl err => mret (set_Error ghr err, 0)
  | inr allReleases =>
      let total := count_recent allReleases in
      if total =? 0 then
        let daysSinceCreation :=
          Z.quot (Time.Since (Now gh) (CreatedAt (R_ ghr))) 24 in
        if daysSinceCreation =? 0 then mret (ghr, 0)
        else
          r ← request (CallListTags 1) (ListTags gh 1);
          match r with
          | ApiErr _ err => mret (set_Error ghr err, 0)
          | ApiOK _ resp2 =>
              totalTags ← lift (totalCount resp2);
              mret (ghr,
                    wrap64 (wrap64 (Z.quot totalTags daysSinceCreation)
                            * ReleaseLookbackDays))
          end
      else mret (ghr, total)
  end.

Definition issuesSinceTime : Z :=
  Now gh + wrap64 (- IssueLookbackDays * 24 * Time.Hour).

Definition count_issues (state : string) (ghr : GitHubRepository)
  : M (GitHubRepository * Z) :=
  r ← request (CallListByRepo state issuesSinceTime 1)
              (ListByRepo gh state issuesSinceTime 1);
  match r with
  | ApiErr _ err => mret (set_Error ghr err, 0)
  | ApiOK _ resp => n ← lift (totalCount resp); mret (ghr, n)
  end.

(** The number of all repository issues updated in the look-back window. *)
Definition UpdatedIssues : GitHubRepository -> M (GitHubRepository * Z) :=
  count_issues "all".

(** The number of closed repository issues. *)
Definition ClosedIssues : GitHubRepository -> M (GitHubRepository * Z) :=
  count_issues "closed".

(** The ratio of comments to issues. *)
Definition CommentFrequency (ghr : GitHubRepository) (issueCount : Z)
  : M (GitHubRepository * float64) :=
  if issueCount =? 0 then mret (ghr, zero)
  else
    r ← request (CallListComments issuesSinceTime 1)
                (ListComments gh issuesSinceTime 1);
    match r with
    | ApiErr _ err => mret (set_Error ghr err, zero)
    | ApiOK _ resp =>
        commentCount ← lift (totalCount resp);
        mret (ghr,
              (Math.Round (of_int commentCount / of_int issueCount * 10)
               / 10)%float)
    end.

Fixpoint Dependents_fetch (attempts : list nat) (content : string)
  : M string :=
  match attempts with
  | [] => mret content
  | i :: rest =>
      r ← request (CallHttpGet i) (http_Get gh i);
      match r with
      | HttpErr => Dependents_fetch rest content
      | HttpResp status body readFails =>
          if status =? 200
          then if readFails then Dependents_fetch rest body else mret body
          else Dependents_fetch rest content
      end
  end.

(** The number of search results that name the repository in a commit. *)
Definition Dependents (ghr : GitHubRepository) : M (GitHubRepository * Z) :=
  content ← Dependents_fetch [1; 2; 3]%nat EmptyString;
  match DependentsRegex_FindSubmatch content with
  | [] => mret (ghr, 0)
  | [_] => panic
  | _ :: group :: _ =>
      let b := Strings.Replace [(",", "")] group in
      let b := Strings.TrimSpace b in
      mret (ghr, fst (Strconv.Atoi b))
  end.

End Providers.

(** ** [score.go] *)

Module Score.

Record Score : Type := {
  Name : string;
  URL : string;
  Language : string;
  CreatedSince : Z;
  UpdatedSince : Z;
  ContributorCount : Z;
  OrgCount : Z;
  CommitFrequency : float64;
  RecentReleasesCount : Z;
  ClosedIssuesCount : Z;
  UpdatedIssuesCount : Z;
  CommentFrequency : float64;
  DependentsCount : Z;
  CriticalityScore : float64;
  ScoredOn : string
}.

(** The zero value [Score{}]. *)
Definition empty : Score :=
  {| Name := ""; URL := ""; Language := "";
     CreatedSince := 0; UpdatedSince := 0; ContributorCount := 0;
     OrgCount := 0; CommitFrequency := zero; RecentReleasesCount := 0;
     ClosedIssuesCount := 0; UpdatedIssuesCount := 0;
     CommentFrequency := zero; DependentsCount := 0;
     CriticalityScore := zero; ScoredOn := "" |}.

End Score.

(** The dynamic type of the [param interface{}] argument of [ParamScore]. *)
Inductive param : Type :=
| ParamFloat (v : float64)
| ParamInt (v : Z)
| ParamOther.

Definition ParamScore `{Platform} (param : param) (maxValue weight : float64)
  : float64 :=
  let p :=
    match param with
    | ParamFloat v => v
    | ParamInt v => of_int v
    | ParamOther => zero
    end in
  (Log (1 + p) / Log (1 + Math.Max p maxValue) * weight)%float.

(** The loop of [RepositoryStats] over the additional parameters: the
    total weight and the total score, from their values so far. *)
Definition additional_totals `{Platform}
           (additionalParams : list AdditionalParam) : float64 * float64 :=
  fold_left
    (fun '(additionalParamsTotalWeight, additionalParamsScore) param =>
       ((additionalParamsTotalWeight + Weight param)%float,
        (additionalParamsScore
         + ParamScore (ParamFloat (Value param)) (MaxThreshold param)
                      (Weight param))%float))
    additionalParams (zero, zero).

(** [RepositoryStats].  The nine goroutines write distinct fields of
    [score] and read [ghr] only, and each method call copies [ghr] (value
    receivers): what a provider does to its receiver stays in the copy,
    which is dropped here.  The providers share no state, so the score of
    a run in which all of them return does not depend on the schedule.
    The model runs them one after the other, in the order in which they
    are started: the log lists the requests provider by provider, and
    their interleaving is not modelled.  A panic in a goroutine ends the
    process; the outcome is then [Panic], and the log that comes with it
    belongs to this one order (the development states nothing about
    it). *)
Definition RepositoryStats `{Platform} (fuel : nat) (gh : GitHub)
           (ghr : GitHubRepository) (params : list string)
  : M (Score.Score * option error) :=
  match parseAdditionalParams params with
  | (_, Some err) =>
      mret (Score.empty, Some (ErrInvalidParamFormat ++ " : " ++ err))
  | (additionalParams, None) =>
      let '(additionalParamsTotalWeight, additionalParamsScore) :=
        additional_totals additionalParams in
      '(_, createdSince) ← CreatedSince gh ghr;
      '(_, updatedSince) ← UpdatedSince gh ghr;
      '(_, contributorCount) ← Contributors gh ghr;
      '(_, orgs) ← ContributorOrgs gh fuel ghr;
      let orgCount := Z.of_nat (size orgs) in
      '(_, commitFrequency) ← CommitFrequency gh ghr;
      '(_, recentReleasesCount) ← RecentReleases gh fuel ghr;
      '(_, closedIssuesCount) ← ClosedIssues gh ghr;
      '(_, updatedIssuesCount) ← UpdatedIssues gh ghr;
      '(_, commentFrequency) ← CommentFrequency gh ghr updatedIssuesCount;
      '(_, dependentsCount) ← Dependents gh ghr;
      match Error ghr with
      | Some err => mret (Score.empty, Some err)
      | None =>
          let totalWeight :=
            (CreatedSinceWeight + UpdatedSinceWeight
             + ContributorCountWeight + OrgCountWeight
             + CommitFrequencyWeight + RecentReleasesWeight
             + ClosedIssuesWeight + UpdatedIssuesWeight
             + CommentFrequencyWeight + DependentsCountWeight
             + additionalParamsTotalWeight)%float in
          let criticalityScore :=
            (Math.Round
               ((ParamScore (ParamInt createdSince) CreatedSinceThreshold CreatedSinceWeight
                 + ParamScore (ParamInt updatedSince) UpdatedSinceThreshold UpdatedSinceWeight
                 + ParamScore (ParamInt contributorCount) ContributorCountThreshold ContributorCountWeight
                 + ParamScore (ParamInt orgCount) OrgCountThreshold OrgCountWeight
                 + ParamScore (ParamFloat commitFrequency) CommitFrequencyThreshold CommitFrequencyWeight
                 + ParamScore (ParamInt recentReleasesCount) RecentReleasesThreshold RecentReleasesWeight
                 + ParamScore (ParamInt closedIssuesCount) ClosedIssuesThreshold ClosedIssuesWeight
                 + ParamScore (ParamInt updatedIssuesCount) UpdatedIssuesThreshold UpdatedIssuesWeight
                 + ParamScore (ParamFloat commentFrequency) CommentFrequencyThreshold CommentFrequencyWeight
                 + ParamScore (ParamInt dependentsCount) DependentsCountThreshold DependentsCountWeight
                 + additionalParamsScore)
                / totalWeight * 100000)
             / 100000)%float in
          mret ({| Score.Name := Name_ (R_ ghr);
                   Score.URL := HTMLURL (R_ ghr);
                   Score.Language := Language_ (R_ ghr);
                   Score.CreatedSince := createdSince;
                   Score.UpdatedSince := updatedSince;
                   Score.ContributorCount := contributorCount;
                   Score.OrgCount := orgCount;
                   Score.CommitFrequency := commitFrequency;
                   Score.RecentReleasesCount := recentReleasesCount;
                   Score.ClosedIssuesCount := closedIssuesCount;
                   Score.UpdatedIssuesCount := updatedIssuesCount;
                   Score.CommentFrequency := commentFrequency;
                   Score.DependentsCount := dependentsCount;
                   Score.CriticalityScore := criticalityScore;
                   Score.ScoredOn := Format_UnixDate (Now gh) |}, None)
      end
  end.

(** ** The score, as stated

    The definitions of this part restate what [RepositoryStats] computes;
    the theorems compare them with the code.  [criticality] is the
    expression of [RepositoryStats] itself, taken out of the run. *)

(** The criticality score, from the metrics of a score record and the totals
    of the additional parameters, as [RepositoryStats] computes it. *)
Definition criticality `{Platform} (s : Score.Score)
           (additionalParamsTotalWeight additionalParamsScore : float64)
  : float64 :=
  (Math.Round
     ((ParamScore (ParamInt (Score.CreatedSince s)) CreatedSinceThreshold CreatedSinceWeight
       + ParamScore (ParamInt (Score.UpdatedSince s)) UpdatedSinceThreshold UpdatedSinceWeight
       + ParamScore (ParamInt (Score.ContributorCount s)) ContributorCountThreshold ContributorCountWeight
       + ParamScore (ParamInt (Score.OrgCount s)) OrgCountThreshold OrgCountWeight
       + ParamScore (ParamFloat (Score.CommitFrequency s)) CommitFrequencyThreshold CommitFrequencyWeight
       + ParamScore (ParamInt (Score.RecentReleasesCount s)) RecentReleasesThreshold RecentReleasesWeight
       + ParamScore (ParamInt (Score.ClosedIssuesCount s)) ClosedIssuesThreshold ClosedIssuesWeight
       + ParamScore (ParamInt (Score.UpdatedIssuesCount s)) UpdatedIssuesThreshold UpdatedIssuesWeight
       + ParamScore (ParamFloat (Score.CommentFrequency s)) CommentFrequencyThreshold CommentFrequencyWeight
       + ParamScore (ParamInt (Score.DependentsCount s)) DependentsCountThreshold DependentsCountWeight
       + additionalParamsScore)
      / (CreatedSinceWeight + UpdatedSinceWeight
         + ContributorCountWeight + OrgCountWeight
         + CommitFrequencyWeight + RecentReleasesWeight
         + ClosedIssuesWeight + UpdatedIssuesWeight
         + CommentFrequencyWeight + DependentsCountWeight
         + additionalParamsTotalWeight)
      * 100000)
   / 100000)%float.

(** The sum of a list of floats as a loop accumulates it: from 0 and in
    the order of the list. *)
Definition fsum (l : list float64) : float64 := fold_left PrimFloat.add l zero.

(** The sum of the terms of an expression [x1 + x2 + ... + xn]: from the
    first term, left to right.  Float addition is not associative, so the
    order is part of the result. *)
Definition sum_left (l : list float64) : float64 :=
  match l with
  | [] => zero
  | x :: rest => fold_left PrimFloat.add rest x
  end.

(** The normalised scores of the metrics of a score record. *)
Definition metric_scores `{Platform} (s : Score.Score) : list float64 :=
  [ ParamScore (ParamInt (Score.CreatedSince s)) CreatedSinceThreshold CreatedSinceWeight;
    ParamScore (ParamInt (Score.UpdatedSince s)) UpdatedSinceThreshold UpdatedSinceWeight;
    ParamScore (ParamInt (Score.ContributorCount s)) ContributorCountThreshold ContributorCountWeight;
    ParamScore (ParamInt (Score.OrgCount s)) OrgCountThreshold OrgCountWeight;
    ParamScore (ParamFloat (Score.CommitFrequency s)) CommitFrequencyThreshold CommitFrequencyWeight;
    ParamScore (ParamInt (Score.RecentReleasesCount s)) RecentReleasesThreshold RecentReleasesWeight;
    ParamScore (ParamInt (Score.ClosedIssuesCount s)) ClosedIssuesThreshold ClosedIssuesWeight;
    ParamScore (ParamInt (Score.UpdatedIssuesCount s)) UpdatedIssuesThreshold UpdatedIssuesWeight;
    ParamScore (ParamFloat (Score.CommentFrequency s)) CommentFrequencyThreshold CommentFrequencyWeight;
    ParamScore (ParamInt (Score.DependentsCount s)) DependentsCountThreshold DependentsCountWeight ].

(** The fixed weights. *)
Definition fixed_weights : list float64 :=
  [ CreatedSinceWeight; UpdatedSinceWeight; ContributorCountWeight;
    OrgCountWeight; CommitFrequencyWeight; RecentReleasesWeight;
    ClosedIssuesWeight; UpdatedIssuesWeight; CommentFrequencyWeight;
    DependentsCountWeight ].

(** The normalised score of an additional parameter. *)
Definition additional_score `{Platform} (param : AdditionalParam) : float64 :=
  ParamScore (ParamFloat (Value param)) (MaxThreshold param) (Weight param).

(** Rounding to 5 decimal places as [RepositoryStats] does it: the
    product with 100000, itself a float, is rounded to the nearest
    integer, halves away from zero, and divided by 100000. *)
Definition round_to_5_places (x : float64) : float64 :=
  (Math.Round (x * 100000) / 100000)%float.

(** The sum of the normalised scores over the sum of the weights: the
    scores of the ten metrics and then the total of those of the
    additional parameters, over the ten fixed weights and then the total
    of the additional weights. *)
Definition weighted_ratio `{Platform} (s : Score.Score)
           (aps : list AdditionalParam) : float64 :=
  (sum_left (metric_scores s ++ [fsum (map additional_score aps)])
   / sum_left (fixed_weights ++ [fsum (map Weight aps)]))%float.

(** The aggregation as the specification words it: the ratio, multiplied
    by 100, rounded to 5 decimal places. *)
Definition stated_criticality `{Platform} (s : Score.Score)
           (aps : list AdditionalParam) : float64 :=
  round_to_5_places (weighted_ratio s aps * 100)%float.

(** The number of whole days in a duration. *)
Definition whole_days (d : Z) : Z := Z.quot d (24 * Time.Hour).

(** The estimate of the recent releases that the comment of
    [RecentReleases] announces. *)
Definition stated_estimate (totalTags daysSinceCreation : Z) : Z :=
  Z.quot totalTags daysSinceCreation * ReleaseLookbackDays.

(** ** Sample data

    A platform and answers of GitHub on which the definitions can be run. *)

(** The double quote. *)
Definition dquote : string := String "034"%char EmptyString.

Definition has_ctl_byte (s : string) : bool :=
  existsb (fun c => let n := N_of_ascii c in ((n <? 32) || (n =? 127))%N)
          (list_ascii_of_string s).

(** The logarithm as Go's [math/log.go] computes it (the algorithm of
    FreeBSD's [e_log.c]), every operation rounded on its own. *)
Definition portable_Log (x : float64) : float64 :=
  if is_nan x || (x =? infinity)%float then x
  else if (x <? 0)%float then nan
  else if (x =? 0)%float then neg_infinity
  else
    let '(f1, ki) := Z.frexp x in
    let '(f1, ki) :=
      if (f1 <? 0x1.6a09e667f3bcdp-1)%float then ((f1 * 2)%float, ki - 1)
      else (f1, ki) in
    let f := (f1 - 1)%float in
    let k := of_int ki in
    let s := (f / (2 + f))%float in
    let s2 := (s * s)%float in
    let s4 := (s2 * s2)%float in
    let t1 := (s2 * (0x1.5555555555593p-1
                     + s4 * (0x1.2492494229359p-2
                             + s4 * (0x1.7466496cb03dep-3
                                     + s4 * 0x1.2f112df3e5244p-3))))%float in
    let t2 := (s4 * (0x1.999999997fa04p-2
                     + s4 * (0x1.c71c51d8e78afp-3
                             + s4 * 0x1.39a09d078c69fp-3)))%float in
    let R := (t1 + t2)%float in
    let hfsq := (0.5 * f * f)%float in
    (k * 0x1.62e42fee00000p-1
     - ((hfsq - (s * (hfsq + R) + k * 0x1.a39ef35793c76p-33)) - f))%float.

(** The float nearest to [n / 10^k], for [n >= 0], with the given
    sign. *)
Definition decimal_float (negative : bool) (n : Z) (k : nat) : float64 :=
  if n =? 0 then (if negative then (-0)%float else 0%float)
  else
    let d := 10 ^ Z.of_nat k in
    let shift := Z.max 0 (64 + Z.log2 d - Z.log2 n) in
    let '(q, r) := Z.div_eucl (Z.shiftl n shift) d in
    SF2Prim (binary_round_aux prec emax negative q (- shift) (new_location d r)).

(** The reading of a decimal numeral without an exponent: an optional
    sign, digits, and optionally a point and more digits. *)
Definition parse_decimal (s : string) : option float64 :=
  let '(negative, ds) :=
    match s with
    | String "+" r => (false, r)
    | String "-" r => (true, r)
    | _ => (false, s)
    end in
  let '(whole, fraction, _) := Strings.Cut ds "." in
  if String.eqb (whole ++ fraction) EmptyString
     || negb (Strconv.all_digits whole && Strconv.all_digits fraction)
  then None
  else Some (decimal_float negative
               (Strconv.digits_value 0 (whole ++ fraction))
               (String.length fraction)).

(** A platform that rejects the URLs that hold a control character, reads
    decimal numerals without an exponent, never finds a dependents count,
    grows slices to the exact length asked for and computes logarithms by
    the portable algorithm. *)
Definition sample_platform : Platform :=
  {| url_rejects := has_ctl_byte;
     ParseFloat := parse_decimal;
     DependentsRegex_FindSubmatch := fun _ => [];
     growslice_cap := fun _ n => n;
     Format_UnixDate := fun _ => EmptyString;
     Log := portable_Log |}.

(** A response that carries the given [Link] header. *)
Definition link_response (link : string) : Response :=
  {| StatusCode := 200; NextPage := 0; Header_ := {[ "Link" := [link] ]} |}.

(** A response without headers. *)
Definition plain_response : Response :=
  {| StatusCode := 200; NextPage := 0; Header_ := ∅ |}.

(** The URL of the page numbered [page] of a listing with one item a page. *)
Definition link_url (page : string) : string :=
  "https://api.github.com/repositories/1/contributors?per_page=1&page=" ++ page.

Definition rel_last : string := "rel=" ++ dquote ++ "last" ++ dquote.

(** The [Link] header of a listing whose last page is numbered [page]. *)
Definition last_link (page : string) : string :=
  "<" ++ link_url page ++ ">; " ++ rel_last.

(** A repository created at instant 0. *)
Definition sample_repository : Repository :=
  {| Name_ := "criticalityscore";
     HTMLURL := "https://github.com/engelsjk/criticalityscore";
     Language_ := "Go";
     CreatedAt := 0 |}.

Definition sample_ghr : GitHubRepository :=
  {| R_ := sample_repository; Error := None |}.

(** 120 months of 30 days, in nanoseconds. *)
Definition ten_years : Z := 120 * 30 * 24 * Time.Hour.

(** Ten days, in nanoseconds. *)
Definition ten_days : Z := 10 * 24 * Time.Hour.

Definition fifteen_contributors : list (option Contributor) :=
  replicate 15 (Some {| ID := 1 |}).

(** GitHub when the clock reads [now], with the given answers about the
    commits, the listed contributors, the commit activity and the tags:
    no release, no issue, no company, no search result. *)
Definition github_at (now : Z)
           (commits : api_result (list RepositoryCommit))
           (contributors : list (option Contributor))
           (activity : api_result (list WeeklyCommitActivity))
           (tags : Response) : GitHub :=
  {| Now := now;
     ListCommits := commits;
     ListContributors := fun anon _ _ =>
       if String.eqb anon "true" then ApiOK [] plain_response
       else ApiOK contributors plain_response;
     GetByID := fun _ => ApiErr None "404 Not Found";
     ListCommitActivity := activity;
     ListReleases := fun _ _ => ApiOK [] plain_response;
     ListTags := fun _ => ApiOK () tags;
     ListByRepo := fun _ _ _ => ApiOK () plain_response;
     ListComments := fun _ _ => ApiOK () plain_response;
     http_Get := fun _ => HttpErr |}.

(** A repository that is ten years old, with a commit made just now and
    fifteen contributors. *)
Definition sample_github : GitHub :=
  github_at ten_years (ApiOK [{| AuthorDate := ten_years |}] plain_response)
            fifteen_contributors (ApiOK [] plain_response) plain_response.

(** The same, while GitHub is still computing the commit activity: the
    request is answered with status 202 and an error. *)
Definition accepted_response : Response :=
  {| StatusCode := 202; NextPage := 0; Header_ := ∅ |}.

Definition pending_github : GitHub :=
  github_at ten_years (ApiOK [{| AuthorDate := ten_years |}] plain_response)
            fifteen_contributors
            (ApiErr (Some accepted_response)
                    "job scheduled on GitHub side; try again later")
            plain_response.

(** The same as [sample_github] with an empty list of commits. *)
Definition no_commit_github : GitHub :=
  github_at ten_years (ApiOK [] plain_response)
            fifteen_contributors (ApiOK [] plain_response) plain_response.

(** The same as [sample_github] with three contributors only. *)
Definition few_contributors_github : GitHub :=
  github_at ten_years (ApiOK [{| AuthorDate := ten_years |}] plain_response)
            (replicate 3 (Some {| ID := 1 |}))
            (ApiOK [] plain_response) plain_response.

(** The same as [sample_github] with the contributors 1, 2 and 3 and
    twelve more entries for the first: the first works at a company, the
    second names none and the look-up of the third fails. *)
Definition employed_github : GitHub :=
  {| Now := ten_years;
     ListCommits := ApiOK [{| AuthorDate := ten_years |}] plain_response;
     ListContributors := fun anon _ _ =>
       if String.eqb anon "true" then ApiOK [] plain_response
       else ApiOK (map (fun id => Some {| ID := id |})
                       ([1; 2; 3] ++ replicate 12 1))
                  plain_response;
     GetByID := fun id =>
       if id =? 1 then ApiOK {| Company := "@Initech, Inc." |} plain_response
       else if id =? 2 then ApiOK {| Company := EmptyString |} plain_response
       else ApiErr None "404 Not Found";
     ListCommitActivity := ApiOK [] plain_response;
     ListReleases := fun _ _ => ApiOK [] plain_response;
     ListTags := fun _ => ApiOK () plain_response;
     ListByRepo := fun _ _ _ => ApiOK () plain_response;
     ListComments := fun _ _ => ApiOK () plain_response;
     http_Get := fun _ => HttpErr |}.

(** A repository created ten days ago that has twenty tags and no
    release. *)
Definition tagged_github : GitHub :=
  github_at ten_days (ApiOK [{| AuthorDate := ten_days |}] plain_response)
            fifteen_contributors (ApiOK [] plain_response)
            (link_response (last_link "20")).

(** ** Further sample data and statements *)

(** One entry of a [Link] header: the URL between angle brackets, then
    the relation between double quotes. *)
Definition link_entry (rel url : string) : string :=
  "<" ++ url ++ ">; " ++ "rel=" ++ dquote ++ rel ++ dquote.

(** The value of a [Link] header with the given entries (relation and
    URL), separated by a comma and a space. *)
Definition link_header (entries : list (string * string)) : string :=
  String.concat ", " (map (fun '(rel, url) => link_entry rel url) entries).

(** A text without comma and without semicolon. *)
Definition plain_text (s : string) : bool :=
  negb (Strings.contains_char s ",") && negb (Strings.contains_char s ";").

(** A number of days, in nanoseconds. *)
Definition days (n : Z) : Z := n * 24 * Time.Hour.

(** The sum of the commits of the weeks. *)
Definition commits_of (weekStats : list WeeklyCommitActivity) : Z :=
  foldr Z.add 0 (map Total weekStats).

(** GitHub with a commit activity of [n] commits in each of the listed
    weeks. *)
Definition steady_github (weeks : nat) (n : Z) : GitHub :=
  github_at ten_years (ApiOK [{| AuthorDate := ten_years |}] plain_response)
            fifteen_contributors
            (ApiOK (replicate weeks {| Total := n |}) plain_response)
            plain_response.

(** GitHub as in [sample_github] when the clock reads [now]. *)
Definition github_when (now : Z) : GitHub :=
  github_at now (ApiOK [{| AuthorDate := 0 |}] plain_response)
            fifteen_contributors (ApiOK [] plain_response) plain_response.

(** GitHub as in [sample_github], with sixty comments in the window. *)
Definition commented_github : GitHub :=
  {| Now := ten_years;
     ListCommits := ApiOK [{| AuthorDate := ten_years |}] plain_response;
     ListContributors := fun _ _ _ => ApiOK fifteen_contributors plain_response;
     GetByID := fun _ => ApiErr None "404 Not Found";
     ListCommitActivity := ApiOK [] plain_response;
     ListReleases := fun _ _ => ApiOK [] plain_response;
     ListTags := fun _ => ApiOK () plain_response;
     ListByRepo := fun _ _ _ => ApiOK () (link_response (last_link "30"));
     ListComments := fun _ _ => ApiOK () (link_response (last_link "60"));
     http_Get := fun _ => HttpErr |}.

(** The same as [sample_github] when the request for the commit activity
    fails before any response arrives. *)
Definition offline_github : GitHub :=
  github_at ten_years (ApiOK [{| AuthorDate := ten_years |}] plain_response)
            fifteen_contributors
            (ApiErr None "dial tcp: connection refused")
            plain_response.

(** The pages of the listing of the releases, as GitHub serves them from
    the page numbered [page] on: each page with its response, each
    response but the last naming the next page. *)
Fixpoint release_pages (gh : GitHub) (page : Z)
         (pages : list (list RepositoryRelease * Response)) : Prop :=
  match pages with
  | [] => False
  | (releases, resp) :: rest =>
      ListReleases gh 100 page = ApiOK releases resp /\
      match rest with
      | [] => NextPage resp = 0
      | _ => NextPage resp <> 0 /\ release_pages gh (NextPage resp) rest
      end
  end.

(** The requests for these pages. *)
Fixpoint page_requests (page : Z)
         (pages : list (list RepositoryRelease * Response)) : list call :=
  match pages with
  | [] => []
  | (_, resp) :: rest =>
      CallListReleases 100 page :: page_requests (NextPage resp) rest
  end.

(** GitHub as in [sample_github], with one release made just now on each of
    two pages. *)
Definition fresh_release : RepositoryRelease := {| ReleaseCreatedAt := ten_years |}.

Definition next_page_response : Response :=
  {| StatusCode := 200; NextPage := 2; Header_ := ∅ |}.

Definition released_github : GitHub :=
  {| Now := ten_years;
     ListCommits := ApiOK [{| AuthorDate := ten_years |}] plain_response;
     ListContributors := fun _ _ _ => ApiOK fifteen_contributors plain_response;
     GetByID := fun _ => ApiErr None "404 Not Found";
     ListCommitActivity := ApiOK [] plain_response;
     ListReleases := fun _ page =>
       if page =? 0 then ApiOK [fresh_release] next_page_response
       else ApiOK [fresh_release] plain_response;
     ListTags := fun _ => ApiOK () plain_response;
     ListByRepo := fun _ _ _ => ApiOK () plain_response;
     ListComments := fun _ _ => ApiOK () plain_response;
     http_Get := fun _ => HttpErr |}.

(** A page of search results, and what [DependentsRegex],
    [.*[^0-9,]([0-9,]+).*commit results], finds in it: the first [.*]
    goes as far as the last character other than a digit or a comma that
    digits follow, here the [>] of the tag. *)
Definition search_page : string := "<h3>407,344 commit results</h3>".

(** A platform as [sample_platform] whose regular expression is known on
    that page and finds nothing elsewhere. *)
Definition search_platform : Platform :=
  {| url_rejects := has_ctl_byte;
     ParseFloat := parse_decimal;
     DependentsRegex_FindSubmatch := fun content =>
       if String.eqb content search_page
       then ["<h3>407,344 commit results"; "407,344"]
       else [];
     growslice_cap := fun _ n => n;
     Format_UnixDate := fun _ => EmptyString;
     Log := portable_Log |}.

(** GitHub as in [sample_github], with a search page that is served at the
    second attempt. *)
Definition searched_github : GitHub :=
  {| Now := ten_years;
     ListCommits := ApiOK [{| AuthorDate := ten_years |}] plain_response;
     ListContributors := fun _ _ _ => ApiOK fifteen_contributors plain_response;
     GetByID := fun _ => ApiErr None "404 Not Found";
     ListCommitActivity := ApiOK [] plain_response;
     ListReleases := fun _ _ => ApiOK [] plain_response;
     ListTags := fun _ => ApiOK () plain_response;
     ListByRepo := fun _ _ _ => ApiOK () plain_response;
     ListComments := fun _ _ => ApiOK () plain_response;
     http_Get := fun attempt =>
       match attempt with
       | 1%nat => HttpResp 429 "Too Many Requests" false
       | _ => HttpResp 200 search_page false
       end |}.

(** ** [utils.go]: the URL of the repository *)

(** [strings.Contains]. *)
Fixpoint Contains (s substr : string) : bool :=
  String.prefix substr s
  || match s with
     | EmptyString => false
     | String _ s' => Contains s' substr
     end.

(** What [url.Parse] gives as the host and as the path of a URL that it
    accepts. *)
Class UrlParser : Type := {
  url_Host : string -> string;
  url_Path : string -> string
}.

Definition parseRepoURL `{Platform} `{UrlParser} (s : string) : string * string :=
  let s := if Contains s "://" then s else "https://" ++ s in
  if url_rejects s then (EmptyString, EmptyString)
  else if negb (String.eqb (url_Host s) "github.com")
       then (EmptyString, EmptyString)
       else
         match Strings.Split (url_Path s) "/" with
         | _ :: p1 :: p2 :: _ => (p1, p2)
         | _ => (EmptyString, EmptyString)
         end.

(** A parser for URLs of the shape scheme://host/path: the host is what
    lies between "://" and the next '/', the path what follows, up to a
    '?' or a '#'. *)
Fixpoint after_scheme (s : string) : string :=
  match s with
  | EmptyString => EmptyString
  | String c s' => if String.prefix "://" s then String.substring 3 (String.length s) s
                   else after_scheme s'
  end.

Fixpoint host_of (s : string) : string :=
  match s with
  | EmptyString => EmptyString
  | String c s' => if Ascii.eqb c "/" then EmptyString else String c (host_of s')
  end.

Fixpoint path_of (s : string) : string :=
  match s with
  | EmptyString => EmptyString
  | String c s' =>
      if Ascii.eqb c "/" then (Strings.Cut (Strings.Cut s "#").1.1 "?").1.1
      else path_of s'
  end.

Definition sample_url_parser : UrlParser :=
  {| url_Host := fun s => host_of (after_scheme s);
     url_Path := fun s => path_of (after_scheme s) |}.

(** ** [utils.go]: the rate limit and the loading of a repository *)

(** [github.Rate]: the requests that remain and the instant of the reset. *)
Record Rate : Type := { Remaining : Z; Reset : Z }.

(** The GitHub client as [LoadRepository] uses it: the clock, the answer
    about the core rate limit and the answer about a repository, given
    its owner and its name. *)
Record Client : Type := {
  client_Now : Z;
  RateLimits : api_result Rate;
  Repositories_Get : string -> string -> api_result Repository
}.

(** What [LoadRepository] does that can be seen from outside. *)
Inductive load_event : Type :=
| Printed (line : string)
| AskedRateLimits
| LoggedRateLimit (waitTime : Z)
| Slept (d : Z)
| AskedRepository (owner name : string).

Definition ErrRepoNotProvided : error := "please provided a repo url".
Definition ErrInvalidGitHubURL : error := "invalid github url".
Definition ErrRepoNotFound : error := "repo not found".

(** [pauseIfGitHubRateLimitExceeded]; the log line is kept by the duration
    it reports. *)
Definition pauseIfGitHubRateLimitExceeded (client : Client)
  : list load_event * outcome unit :=
  match RateLimits client with
  | ApiErr _ _ => ([AskedRateLimits], Panic)
  | ApiOK rateLimits _ =>
      if Remaining rateLimits <? 50 then
        let waitTime := Time.Sub (Reset rateLimits) (client_Now client) in
        ([AskedRateLimits; LoggedRateLimit waitTime;
          Slept (wrap64 (waitTime * Time.Second))], Ret tt)
      else ([AskedRateLimits], Ret tt)
  end.

(** [LoadRepository]: the events, then the repository and the error,
    where [None] is the zero value [GitHubRepository{}]. *)
Definition LoadRepository `{Platform} `{UrlParser} (client : Client)
           (repoURL token : string)
  : list load_event * outcome (option GitHubRepository * option error) :=
  let printed :=
    if String.eqb repoURL EmptyString then [Printed ErrRepoNotProvided] else [] in
  match pauseIfGitHubRateLimitExceeded client with
  | (events, Ret _) =>
      let '(owner, name) := parseRepoURL repoURL in
      if String.eqb owner EmptyString || String.eqb name EmptyString
      then ((printed ++ events)%list, Ret (None, Some ErrInvalidGitHubURL))
      else
        match Repositories_Get client owner name with
        | ApiErr _ _ =>
            ((printed ++ events ++ [AskedRepository owner name])%list,
             Ret (None, Some ErrRepoNotFound))
        | ApiOK r _ =>
            ((printed ++ events ++ [AskedRepository owner name])%list,
             Ret (Some {| R_ := r; Error := None |}, None))
        end
  | (events, Panic) => ((printed ++ events)%list, Panic)
  | (events, OutOfFuel) => ((printed ++ events)%list, OutOfFuel)
  end.

(** A client with 10 requests left until a reset that is one second
    ahead. *)
Definition throttled_client : Client :=
  {| client_Now := 0;
     RateLimits := ApiOK {| Remaining := 10; Reset := Time.Second |} plain_response;
     Repositories_Get := fun _ _ => ApiOK sample_repository plain_response |}.

(** The same until a reset that is ten seconds ahead. *)
Definition long_throttled_client : Client :=
  {| client_Now := 0;
     RateLimits :=
       ApiOK {| Remaining := 10; Reset := 10 * Time.Second |} plain_response;
     Repositories_Get := fun _ _ => ApiOK sample_repository plain_response |}.

(** A client with requests to spare. *)
Definition sample_client : Client :=
  {| client_Now := 0;
     RateLimits := ApiOK {| Remaining := 5000; Reset := 0 |} plain_response;
     Repositories_Get := fun _ _ => ApiOK sample_repository plain_response |}.

(** ** [score.go]: [PrintScore] *)

Definition ErrUnknownOutputFormat : error := "unknown output format".

(** A field of [Score] as reflection gives it: its dynamic type and its
    value. *)
Inductive field : Type :=
| FieldString (s : string)
| FieldInt (n : Z)
| FieldFloat (x : float64).

(** The fields of [Score] in the order of the struct, each with its
    [json] tag. *)
Definition fields (score : Score.Score) : list (string * field) :=
  [("name", FieldString (Score.Name score));
   ("url", FieldString (Score.URL score));
   ("language", FieldString (Score.Language score));
   ("created_since", FieldInt (Score.CreatedSince score));
   ("updated_since", FieldInt (Score.UpdatedSince score));
   ("contributor_count", FieldInt (Score.ContributorCount score));
   ("org_count", FieldInt (Score.OrgCount score));
   ("commit_frequency", FieldFloat (Score.CommitFrequency score));
   ("recent_releases_count", FieldInt (Score.RecentReleasesCount score));
   ("closed_issues_count", FieldInt (Score.ClosedIssuesCount score));
   ("updated_issues_count", FieldInt (Score.UpdatedIssuesCount score));
   ("comment_frequency", FieldFloat (Score.CommentFrequency score));
   ("dependents_count", FieldInt (Score.DependentsCount score));
   ("criticality_score", FieldFloat (Score.CriticalityScore score));
   ("scored_on", FieldString (Score.ScoredOn score))].

(** How the second column of a CSV record is made: the string itself,
    [strconv.Itoa], or [fmt.Sprintf] with the verb [%0.<places>f]. *)
Inductive cell : Type :=
| Verbatim (s : string)
| Itoa (n : Z)
| Fixed (places : nat) (x : float64).

(** What [PrintScore] writes: a line ["%s: %v\n"] of a tag and a value, a
    record handed to the CSV writer, or a line of text. *)
Inductive output : Type :=
| PrintedField (tag : string) (v : field)
| CsvRecord (c1 : string) (c2 : cell)
| PrintedLine (s : string).

(** [json.MarshalIndent] of a [Score]; [None] is its error. *)
Class Encoder : Type := {
  MarshalIndent : Score.Score -> option string
}.

(** The type switch in the loop of the [csv] format. *)
Definition csv_cell (c1 : string) (v : field) : cell :=
  match v with
  | FieldString vv => Verbatim vv
  | FieldInt vv => Itoa vv
  | FieldFloat vv =>
      if String.eqb c1 "CriticalityScore" then Fixed 5 vv else Fixed 1 vv
  end.

Definition PrintScore `{Encoder} (score : Score.Score) (format : string)
  : list output * outcome unit :=
  if String.eqb format "default" then
    (map (fun f => PrintedField f.1 f.2) (fields score), Ret tt)
  else if String.eqb format "csv" then
    (map (fun f => CsvRecord f.1 (csv_cell f.1 f.2)) (fields score), Ret tt)
  else if String.eqb format "json" then
    match MarshalIndent score with
    | None => ([], Panic)
    | Some b => ([PrintedLine b], Ret tt)
    end
  else ([PrintedLine ErrUnknownOutputFormat], Ret tt).

(** An encoder that refuses a score with a float that is not finite, as
    [encoding/json] does, and stands for the text by the name. *)
Definition sample_encoder : Encoder :=
  {| MarshalIndent := fun score =>
       if PrimFloat.is_finite (Score.CommitFrequency score)
          && PrimFloat.is_finite (Score.CommentFrequency score)
          && PrimFloat.is_finite (Score.CriticalityScore score)
       then Some (Score.Name score) else None |}.

(** A score whose criticality is not a number. *)
Definition undefined_score : Score.Score :=
  {| Score.Name := "criticalityscore"; Score.URL := ""; Score.Language := "Go";
     Score.CreatedSince := 0; Score.UpdatedSince := 0;
     Score.ContributorCount := 0; Score.OrgCount := 0;
     Score.CommitFrequency := zero; Score.RecentReleasesCount := 0;
     Score.ClosedIssuesCount := 0; Score.UpdatedIssuesCount := 0;
     Score.CommentFrequency := zero; Score.DependentsCount := 0;
     Score.CriticalityScore := NaN; Score.ScoredOn := "" |}.

(** ** The organisation of a contributor *)

(** What the look-up of a contributor adds to the organisations: the
    normalised company of the user, if the look-up succeeds and the
    company is not empty. *)
Definition company_of (gh : GitHub) (contributor : option Contributor)
  : option string :=
  match GetByID gh (GetID contributor) with
  | ApiOK user _ =>
      if String.eqb (Company user) EmptyString then None
      else Some (filterOrgName (Company user))
  | ApiErr _ _ => None
  end.

(** ** The attempts of [Dependents] *)

(** The page of an attempt that ends the loop of [Dependents]: the answer
    has status 200 and its body is read without an error. *)
Definition served (gh : GitHub) (i : nat) : option string :=
  match http_Get gh i with
  | HttpResp status body false => if status =? 200 then Some body else None
  | _ => None
  end.

(** ** Text for which the model is the source *)

(** The characters of a string are bytes.  On a string of ASCII
    characters they are also the runes that [[]rune(input)] gives. *)
Definition ascii_only (s : string) : bool :=
  forallb (fun c => (N_of_ascii c <? 128)%N) (list_ascii_of_string s).

(** * Theorems *)

(** C7. [filterOrgName] sends "Acme Inc.", "ACME, LLC", "@Acme" and "Acme "
    to the one canonical name "acme". *)
Theorem filterOrgName_acme :
  filterOrgName "Acme Inc." = "acme" /\
  filterOrgName "ACME, LLC" = "acme" /\
  filterOrgName "@Acme" = "acme" /\
  filterOrgName "Acme " = "acme".
Proof. repeat split; vm_compute; reflexivity. Qed.

(** ** Link headers and page counts *)

(** [substr input start (-1)] drops [start] characters at the front and one
    at the end; it does not panic. *)
Lemma substr_minus_1 (s : string) (start : Z) :
  0 <= start ->
  substr s start (-1) =
  Ret (if Z.of_nat (String.length s) <=? start then EmptyString
       else String.substring (Z.to_nat start)
              (Z.to_nat (Z.of_nat (String.length s) - 1 - start)) s).
Proof.
  intros Hstart. unfold substr, slice_string.
  set (n := Z.of_nat (String.length s)).
  destruct (Z.leb_spec n start) as [Hle|Hlt]; [reflexivity|].
  replace (n <? -1) with false by (symmetry; apply Z.ltb_ge; lia).
  change (-1 <=? 0) with true. cbv iota.
  rewrite !(proj2 (Z.leb_le _ _)) by lia. simpl andb. cbv iota.
  reflexivity.
Qed.

Lemma substr_1_Ret (s : string) : exists r, substr s 1 (-1) = Ret r.
Proof. rewrite substr_minus_1 by lia. eauto. Qed.

Lemma substr_5_Ret (s : string) : exists r, substr s 5 (-1) = Ret r.
Proof. rewrite substr_minus_1 by lia. eauto. Qed.

Lemma parseLinkHeader_loop_Ret (l : list string) (links : gmap string string) :
  exists m, parseLinkHeader_loop l links = Ret m.
Proof.
  revert links. induction l as [|linkHeader rest IH]; intros links; simpl.
  - eauto.
  - destruct (Strings.Split linkHeader "; ") as [|lh0 [|lh1 more]]; auto.
    destruct (substr_1_Ret lh0) as [u ->].
    destruct (substr_5_Ret lh1) as [r ->].
    simpl. apply IH.
Qed.

Lemma parseLinkHeader_Ret (h : Header) : exists m, parseLinkHeader h = Ret m.
Proof. apply parseLinkHeader_loop_Ret. Qed.

(** *** Facts on strings and on [strings.Split] *)

Lemma string_app_cons (x : ascii) (a b : string) :
  String x a ++ b = String x (a ++ b).
Proof. reflexivity. Qed.

Lemma string_app_nil (b : string) : EmptyString ++ b = b.
Proof. reflexivity. Qed.

Lemma string_app_assoc (a b c : string) : (a ++ b) ++ c = a ++ (b ++ c).
Proof.
  induction a as [|x a IH]; [reflexivity|].
  rewrite !string_app_cons. now rewrite IH.
Qed.

Lemma string_app_empty_r (a : string) : a ++ "" = a.
Proof.
  induction a as [|x a IH]; [reflexivity|].
  rewrite string_app_cons. now rewrite IH.
Qed.

Lemma contains_char_app (a b : string) (c : ascii) :
  Strings.contains_char (a ++ b) c
  = Strings.contains_char a c || Strings.contains_char b c.
Proof.
  induction a as [|x a IH]; [reflexivity|].
  rewrite string_app_cons. cbn [Strings.contains_char].
  rewrite IH. now rewrite orb_assoc.
Qed.

Lemma prefix_head_ne (c0 c : ascii) (sep s : string) :
  Ascii.eqb c c0 = false -> String.prefix (String c0 sep) (String c s) = false.
Proof.
  intros Hne. simpl. destruct (ascii_dec c0 c) as [->|]; [|reflexivity].
  now rewrite Ascii.eqb_refl in Hne.
Qed.

Lemma prefix_app (sep rest : string) : String.prefix sep (sep ++ rest) = true.
Proof.
  induction sep as [|x sep IH]; simpl.
  - now destruct rest.
  - destruct (ascii_dec x x); [exact IH|congruence].
Qed.

Lemma split_from_skip (sep x rest cur : string) :
  Strings.split_from sep (String.length x) cur (x ++ rest)
  = match rest with
    | EmptyString => [cur]
    | _ => Strings.split_from sep 0 cur rest
    end.
Proof.
  induction x as [|c x IH]; simpl.
  - now destruct rest.
  - exact IH.
Qed.

(** A piece that does not hold the first character of the separator is
    taken whole. *)
Lemma split_from_avoid (c0 : ascii) (sep a rest cur : string) :
  Strings.contains_char a c0 = false ->
  Strings.split_from (String c0 sep) 0 cur (a ++ rest)
  = Strings.split_from (String c0 sep) 0 (cur ++ a) rest.
Proof.
  revert cur. induction a as [|c a IH]; intros cur Ha.
  - simpl. now rewrite string_app_empty_r.
  - simpl in Ha. apply orb_false_elim in Ha as [Hc Ha].
    change (String c a ++ rest) with (String c (a ++ rest)).
    cbn [Strings.split_from].
    rewrite Ascii.eqb_sym in Hc.
    rewrite (prefix_head_ne c0 c sep (a ++ rest) Hc).
    rewrite IH by assumption.
    now rewrite string_app_assoc.
Qed.

Lemma split_from_sep (c0 : ascii) (sep rest cur : string) :
  Strings.split_from (String c0 sep) 0 cur (String c0 sep ++ rest)
  = cur :: match rest with
           | EmptyString => [EmptyString]
           | _ => Strings.split_from (String c0 sep) 0 EmptyString rest
           end.
Proof.
  change (String c0 sep ++ rest) with (String c0 (sep ++ rest)).
  cbn [Strings.split_from].
  change (String c0 (sep ++ rest)) with (String c0 sep ++ rest).
  rewrite prefix_app. f_equal.
  replace (String.length (String c0 sep) - 1)%nat with (String.length sep)
    by (simpl; lia).
  apply split_from_skip.
Qed.

Lemma Split_avoid (c0 : ascii) (sep a : string) :
  Strings.contains_char a c0 = false ->
  Strings.Split a (String c0 sep) = [a].
Proof.
  intros Ha. unfold Strings.Split.
  rewrite <- (string_app_empty_r a) at 1.
  now rewrite split_from_avoid by assumption.
Qed.

Lemma Split_two (c0 : ascii) (sep a b : string) :
  Strings.contains_char a c0 = false ->
  Strings.contains_char b c0 = false ->
  Strings.Split (a ++ String c0 sep ++ b) (String c0 sep) = [a; b].
Proof.
  intros Ha Hb. unfold Strings.Split.
  rewrite split_from_avoid by assumption.
  rewrite split_from_sep. simpl (EmptyString ++ a). f_equal.
  destruct b as [|c b]; [reflexivity|].
  exact (Split_avoid c0 sep (String c b) Hb).
Qed.

Lemma string_length_app (a b : string) :
  String.length (a ++ b) = (String.length a + String.length b)%nat.
Proof.
  induction a as [|x a IH]; [reflexivity|].
  rewrite string_app_cons. simpl. now rewrite IH.
Qed.

Lemma substring_app_l (a b : string) :
  String.substring 0 (String.length a) (a ++ b) = a.
Proof.
  induction a as [|x a IH].
  - now destruct b.
  - rewrite string_app_cons. simpl. now rewrite IH.
Qed.

(** [substr s 1 (-1)] takes the first and the last character off. *)
Lemma substr_strip (c d : ascii) (x : string) :
  substr (String c (x ++ String d EmptyString)) 1 (-1) = Ret x.
Proof.
  rewrite substr_minus_1 by lia.
  cbn [String.length]. rewrite string_length_app. cbn [String.length].
  destruct (Z.leb_spec (Z.of_nat (S (String.length x + 1))) 1); [lia|].
  replace (Z.to_nat (Z.of_nat (S (String.length x + 1)) - 1 - 1))
    with (String.length x) by lia.
  change (Z.to_nat 1) with 1%nat. cbn [String.substring].
  destruct (String.length x) eqn:E.
  - destruct x; [reflexivity|discriminate].
  - rewrite <- E. now rewrite substring_app_l.
Qed.

(** *** Decimal numerals *)

Lemma digits_avoid (ds : string) (c : ascii) :
  Strconv.all_digits ds = true -> Strconv.is_digit c = false ->
  Strings.contains_char ds c = false.
Proof.
  intros Hds Hc. induction ds as [|d ds IH]; [reflexivity|].
  cbn [Strconv.all_digits] in Hds. apply andb_prop in Hds as [Hd Hds].
  cbn [Strings.contains_char]. rewrite (IH Hds), orb_false_r.
  destruct (Ascii.eqb_spec c d) as [->|]; [congruence|reflexivity].
Qed.

Lemma digit_cases (d : ascii) :
  Strconv.is_digit d = true ->
  d = "0"%char \/ d = "1"%char \/ d = "2"%char \/ d = "3"%char \/ d = "4"%char \/
  d = "5"%char \/ d = "6"%char \/ d = "7"%char \/ d = "8"%char \/ d = "9"%char.
Proof.
  destruct d as [[] [] [] [] [] [] [] []]; vm_compute; intros Hd;
    first [discriminate Hd | tauto].
Qed.

Lemma QueryUnescape_digits (ds : string) :
  Strconv.all_digits ds = true -> Url.QueryUnescape ds = Some ds.
Proof.
  induction ds as [|d ds IH]; [reflexivity|].
  cbn [Strconv.all_digits]. intros Hds. apply andb_prop in Hds as [Hd Hds].
  specialize (IH Hds).
  destruct (digit_cases d Hd) as [->|[->|[->|[->|[->|[->|[->|[->|[->| ->]]]]]]]]];
    cbn [Url.QueryUnescape]; rewrite IH; reflexivity.
Qed.

Lemma digits_value_ge (ds : string) (acc : Z) :
  Strconv.all_digits ds = true -> 0 <= acc -> 0 <= Strconv.digits_value acc ds.
Proof.
  revert acc. induction ds as [|d ds IH]; intros acc Hds Hacc; [exact Hacc|].
  cbn [Strconv.all_digits] in Hds. apply andb_prop in Hds as [Hd Hds].
  cbn [Strconv.digits_value]. apply IH; [assumption|].
  destruct (digit_cases d Hd) as [->|[->|[->|[->|[->|[->|[->|[->|[->| ->]]]]]]]]];
    vm_compute Strconv.digit_val; lia.
Qed.

(** [Atoi] reads a numeral of decimal digits that fits an [int]. *)
Lemma Atoi_digits (ds : string) :
  ds <> EmptyString -> Strconv.all_digits ds = true ->
  Strconv.digits_value 0 ds <= max_int64 ->
  Strconv.Atoi ds = (Strconv.digits_value 0 ds, true).
Proof.
  intros Hne Hds Hmax. pose proof (digits_value_ge ds 0 Hds ltac:(lia)) as Hge.
  destruct ds as [|d ds]; [congruence|].
  assert (Hd : Strconv.is_digit d = true).
  { cbn [Strconv.all_digits] in Hds. now apply andb_prop in Hds as [Hd _]. }
  unfold Strconv.Atoi.
  assert (Hsign :
    match String d ds with
    | String "+" r => (false, r)
    | String "-" r => (true, r)
    | _ => (false, String d ds)
    end = (false, String d ds)).
  { destruct (digit_cases d Hd) as [->|[->|[->|[->|[->|[->|[->|[->|[->| ->]]]]]]]]];
      reflexivity. }
  rewrite Hsign. rewrite Hds. cbn [String.eqb negb orb].
  destruct (Z.ltb_spec (Strconv.digits_value 0 (String d ds)) min_int64) as [Hlt|_].
  { unfold min_int64 in Hlt. lia. }
  destruct (Z.ltb_spec max_int64 (Strconv.digits_value 0 (String d ds))); [lia|].
  reflexivity.
Qed.

(** *** The header of a listing whose last page is a decimal numeral *)

Lemma last_link_shape (page : string) :
  last_link page
  = String "<" (link_url page ++ String ">" EmptyString) ++ "; " ++ rel_last.
Proof.
  unfold last_link.
  change (String "<" (link_url page ++ String ">" EmptyString ++ "; " ++ rel_last)
          = String "<" ((link_url page ++ String ">" EmptyString)
                        ++ "; " ++ rel_last)).
  f_equal. symmetry. apply string_app_assoc.
Qed.

Lemma link_url_avoid (ds : string) (c : ascii) :
  Strconv.all_digits ds = true -> Strconv.is_digit c = false ->
  Strings.contains_char (link_url EmptyString) c = false ->
  Strings.contains_char (link_url ds) c = false.
Proof.
  intros Hds Hc Hurl. unfold link_url in *.
  rewrite contains_char_app, (digits_avoid ds c Hds Hc), orb_false_r.
  rewrite string_app_empty_r in Hurl. exact Hurl.
Qed.

Lemma Split_last_link_comma (ds : string) :
  Strconv.all_digits ds = true ->
  Strings.Split (last_link ds) ", " = [last_link ds].
Proof.
  intros Hds. apply Split_avoid. rewrite last_link_shape.
  rewrite contains_char_app. cbn [Strings.contains_char].
  rewrite contains_char_app.
  rewrite (link_url_avoid ds "," Hds) by reflexivity. reflexivity.
Qed.

Lemma Split_last_link_semicolon (ds : string) :
  Strconv.all_digits ds = true ->
  Strings.Split (last_link ds) "; "
  = [String "<" (link_url ds ++ String ">" EmptyString); rel_last].
Proof.
  intros Hds. rewrite last_link_shape. apply Split_two; [|reflexivity].
  cbn [Strings.contains_char]. rewrite contains_char_app.
  rewrite (link_url_avoid ds ";" Hds) by reflexivity. reflexivity.
Qed.

Lemma parseLinkHeader_last_link (ds : string) :
  Strconv.all_digits ds = true ->
  parseLinkHeader (Header_ (link_response (last_link ds)))
  = Ret {[ "last" := link_url ds ]}.
Proof.
  intros Hds. unfold parseLinkHeader, Header_Get, link_response, Header_.
  change (canonical_key true "link") with "Link".
  rewrite lookup_singleton_eq.
  rewrite (Split_last_link_comma ds Hds).
  cbn [parseLinkHeader_loop].
  rewrite (Split_last_link_semicolon ds Hds).
  rewrite substr_strip.
  change (substr rel_last 5 (-1)) with (Ret (A := string) "last").
  reflexivity.
Qed.

Lemma Cut_avoid (a : string) (c : ascii) :
  Strings.contains_char a c = false ->
  Strings.Cut a c = (a, EmptyString, false).
Proof.
  induction a as [|x a IH]; [reflexivity|].
  cbn [Strings.contains_char Strings.Cut]. intros Ha.
  apply orb_false_elim in Ha as [Hx Ha].
  rewrite Ascii.eqb_sym in Hx. rewrite Hx, (IH Ha). reflexivity.
Qed.

Lemma Cut_app (a b : string) (c : ascii) :
  Strings.contains_char a c = false ->
  Strings.Cut (a ++ String c b) c = (a, b, true).
Proof.
  induction a as [|x a IH].
  - intros _. rewrite string_app_nil. cbn [Strings.Cut].
    now rewrite Ascii.eqb_refl.
  - cbn [Strings.contains_char]. intros Ha.
    apply orb_false_elim in Ha as [Hx Ha].
    rewrite string_app_cons. cbn [Strings.Cut].
    rewrite Ascii.eqb_sym in Hx. rewrite Hx, (IH Ha). reflexivity.
Qed.

Section TotalCount.
Context `{Platform}.

Lemma Url_Parse_link_url (ds : string) :
  Strconv.all_digits ds = true ->
  url_rejects (link_url ds) = false ->
  Url.Parse (link_url ds)
  = Some {| Url.RawQuery := "per_page=1&page=" ++ ds |}.
Proof.
  intros Hds Hok. unfold Url.Parse. rewrite Hok.
  rewrite (Cut_avoid (link_url ds) "#")
    by (apply link_url_avoid; auto).
  change (link_url ds)
    with ("https://api.github.com/repositories/1/contributors"
          ++ String "?" ("per_page=1&page=" ++ ds)).
  rewrite Cut_app by reflexivity. reflexivity.
Qed.

Lemma ParseQuery_page (ds : string) :
  Strconv.all_digits ds = true ->
  Url.Get (Url.ParseQuery ("per_page=1&page=" ++ ds)) "page" = ds.
Proof.
  intros Hds. unfold Url.ParseQuery.
  change ("per_page=1&page=" ++ ds)
    with ("per_page=1" ++ String "&" EmptyString ++ "page=" ++ ds).
  assert (Hamp : Strings.contains_char ("page=" ++ ds) "&" = false).
  { rewrite contains_char_app, (digits_avoid ds "&" Hds) by reflexivity.
    reflexivity. }
  rewrite Split_two by (reflexivity || exact Hamp).
  cbn [fold_left].
  set (m1 := Url.add_pair ∅ "per_page=1").
  assert (Hm1 : m1 !! "page" = None) by (vm_compute; reflexivity).
  unfold Url.add_pair.
  assert (Hsemi : Strings.contains_char ("page=" ++ ds) ";" = false).
  { rewrite contains_char_app, (digits_avoid ds ";" Hds) by reflexivity.
    reflexivity. }
  rewrite Hsemi.
  change (String.eqb ("page=" ++ ds) EmptyString) with false. cbv iota.
  change ("page=" ++ ds) with ("page" ++ String "=" ds).
  rewrite Cut_app by reflexivity.
  change (Url.QueryUnescape "page") with (Some "page").
  rewrite (QueryUnescape_digits ds Hds).
  unfold Url.Get. rewrite lookup_insert_eq, Hm1. reflexivity.
Qed.

(** The count that a listing announces with a last page numbered [ds]. *)
Lemma totalCount_last_link (ds : string) :
  ds <> EmptyString -> Strconv.all_digits ds = true ->
  Strconv.digits_value 0 ds <= max_int64 ->
  url_rejects (link_url ds) = false ->
  totalCount (link_response (last_link ds)) = Ret (Strconv.digits_value 0 ds).
Proof.
  intros Hne Hds Hmax Hok. unfold totalCount.
  rewrite (parseLinkHeader_last_link ds Hds). cbn [mbind outcome_bind].
  rewrite lookup_singleton_eq.
  rewrite (Url_Parse_link_url ds Hds Hok). cbn [Url.RawQuery].
  rewrite (ParseQuery_page ds Hds).
  rewrite (Atoi_digits ds Hne Hds Hmax). reflexivity.
Qed.

Lemma totalCount_Ret (resp : Response) : exists n, totalCount resp = Ret n.
Proof.
  unfold totalCount.
  destruct (parseLinkHeader_Ret (Header_ resp)) as [links ->].
  cbn [mbind outcome_bind].
  destruct (links !! "last") as [lastURL|]; [|eauto].
  destruct (Url.Parse lastURL) as [u|]; [|eauto].
  destruct (Strconv.Atoi _) as [pageCount [|]]; eauto.
Qed.

End TotalCount.

(** C5. [totalCount] returns the page number that the "page" parameter of
    the "last" link carries: whenever the header has a "last" link that
    parses as a URL and whose "page" parameter [Atoi] reads as [n], the
    count is [n]; the link of a listing whose last page is the decimal
    numeral [ds] yields the value of [ds] (42 for "page=42").  It returns
    0, and never fails, when there is no "last" link, when the link does
    not parse as a URL and when the page parameter is not an integer. *)
Theorem totalCount_spec `{Platform} :
  (forall resp, exists n, totalCount resp = Ret n) /\
  (forall resp links lastURL u n,
      parseLinkHeader (Header_ resp) = Ret links ->
      links !! "last" = Some lastURL ->
      Url.Parse lastURL = Some u ->
      Strconv.Atoi (Url.Get (Url.ParseQuery (Url.RawQuery u)) "page") = (n, true) ->
      totalCount resp = Ret n) /\
  (forall ds,
      ds <> EmptyString -> Strconv.all_digits ds = true ->
      Strconv.digits_value 0 ds <= max_int64 ->
      url_rejects (link_url ds) = false ->
      totalCount (link_response (last_link ds)) = Ret (Strconv.digits_value 0 ds)) /\
  (url_rejects (link_url "42") = false ->
   totalCount (link_response (last_link "42")) = Ret 42) /\
  (forall resp links,
      parseLinkHeader (Header_ resp) = Ret links ->
      links !! "last" = None ->
      totalCount resp = Ret 0) /\
  totalCount plain_response = Ret 0 /\
  (forall resp links lastURL,
      parseLinkHeader (Header_ resp) = Ret links ->
      links !! "last" = Some lastURL ->
      Url.Parse lastURL = None ->
      totalCount resp = Ret 0) /\
  (forall resp links lastURL u n,
      parseLinkHeader (Header_ resp) = Ret links ->
      links !! "last" = Some lastURL ->
      Url.Parse lastURL = Some u ->
      Strconv.Atoi (Url.Get (Url.ParseQuery (Url.RawQuery u)) "page") = (n, false) ->
      totalCount resp = Ret 0).
Proof.
  split; [exact totalCount_Ret|].
  split.
  { intros resp links lastURL u n Hl Hlast Hu Hn. unfold totalCount.
    rewrite Hl. cbn [mbind outcome_bind]. now rewrite Hlast, Hu, Hn. }
  split; [exact totalCount_last_link|].
  split.
  { intros Hok. apply (totalCount_last_link "42"); try reflexivity; try assumption.
    - discriminate.
    - vm_compute. discriminate. }
  split.
  { intros resp links Hl Hlast. unfold totalCount.
    rewrite Hl. cbn [mbind outcome_bind]. now rewrite Hlast. }
  split; [reflexivity|].
  split.
  { intros resp links lastURL Hl Hlast Hu. unfold totalCount.
    rewrite Hl. cbn [mbind outcome_bind]. now rewrite Hlast, Hu. }
  intros resp links lastURL u n Hl Hlast Hu Hn. unfold totalCount.
  rewrite Hl. cbn [mbind outcome_bind]. now rewrite Hlast, Hu, Hn.
Qed.

(** On the sample platform the link with "page=42" counts 42 items. *)
Lemma totalCount_spec_witness :
  @totalCount sample_platform (link_response (last_link "42")) = Ret 42.
Proof.
  apply (proj1 (proj2 (proj2 (proj2 (@totalCount_spec sample_platform))))).
  reflexivity.
Defined.

(** ** Facts on float64 *)

Lemma add_NaN_r (x : float64) : (x + NaN)%float = NaN.
Proof.
  apply Prim2SF_inj. rewrite add_spec.
  change (Prim2SF NaN) with S754_nan.
  now destruct (Prim2SF x) as [[]|[]| |[] m e].
Qed.

Lemma div_NaN_l (y : float64) : (NaN / y)%float = NaN.
Proof. apply Prim2SF_inj. now rewrite div_spec. Qed.

Lemma mul_NaN_l (y : float64) : (NaN * y)%float = NaN.
Proof. apply Prim2SF_inj. now rewrite mul_spec. Qed.




Lemma not_positive_form (x : float64) :
  (x <=? 0)%float = true ->
  (exists s, Prim2SF x = S754_zero s) \/ Prim2SF x = S754_infinity true \/
  exists m e, Prim2SF x = S754_finite true m e.
Proof.
  rewrite leb_spec. change (Prim2SF 0) with (S754_zero false).
  destruct (Prim2SF x) as [s|[]| |[] m e]; cbn; try discriminate; eauto.
Qed.

Lemma zero_form (x : float64) :
  (x =? 0)%float = true -> x = 0%float \/ x = (-0)%float.
Proof.
  rewrite eqb_spec. change (Prim2SF 0) with (S754_zero false).
  destruct (Prim2SF x) as [[]|[]| |[] m e] eqn:Hx; cbn; try discriminate; intros _.
  - right. now apply Prim2SF_inj.
  - left. now apply Prim2SF_inj.
Qed.

Lemma SFcompare_finite_refl (s : bool) (m : positive) (e : Z) :
  SFcompare (S754_finite s m e) (S754_finite s m e) = Some Eq.
Proof.
  cbn. rewrite Z.compare_refl.
  change PosDef.Pos.compare_cont with Pos.compare_cont.
  rewrite Pcompare_refl. now destruct s.
Qed.

Lemma is_nan_form (x : float64) :
  is_nan x = match Prim2SF x with S754_nan => true | _ => false end.
Proof.
  unfold is_nan. rewrite eqb_spec. unfold SFeqb.
  destruct (Prim2SF x) as [s|[]| |s m e]; try reflexivity.
  now rewrite SFcompare_finite_refl.
Qed.


(** One plus [math.Max] of a zero and a number that is not positive
    is 1. *)
Lemma one_plus_Max_zero (p maxValue : float64) :
  (p =? 0)%float = true -> (maxValue <=? 0)%float = true ->
  (1 + p)%float = 1%float /\ (1 + Math.Max p maxValue)%float = 1%float.
Proof.
  intros Hp Hm.
  assert (Hone : forall x, (x =? 0)%float = true -> (1 + x)%float = 1%float).
  { intros x Hx. now destruct (zero_form x Hx) as [-> | ->]. }
  split; [now apply Hone|]. apply Hone.
  unfold Math.Max. rewrite !is_nan_form.
  destruct (zero_form p Hp) as [-> | ->];
    rewrite !eqb_spec, ltb_spec;
    change (Prim2SF infinity) with (S754_infinity false);
    change (Prim2SF 0) with (S754_zero false);
    change (Prim2SF (-0)) with (S754_zero true);
    destruct (not_positive_form _ Hm) as [[s Hs]|[Hs|(m & e & Hs)]];
    rewrite Hs; cbn; try reflexivity;
    rewrite Hs; reflexivity.
Qed.

(** ** The normalised score of one parameter *)





Section ParamScoreFacts.
Context `{Platform}.



(** A positive threshold that the sum with 1 absorbs. *)
Lemma ParamScore_tiny_threshold (weight : float64) :
  Log 1 = 0%float -> ParamScore (ParamFloat 0) 0x1p-60 weight = NaN.
Proof.
  intros Hlog. unfold ParamScore.
  change (1 + Math.Max 0 0x1p-60)%float with 1%float.
  change (1 + 0)%float with 1%float. rewrite Hlog.
  change (0 / 0)%float with NaN. apply mul_NaN_l.
Qed.


End ParamScoreFacts.



(** ** Runs of [RepositoryStats] *)

Lemma M_bind_Ret {A B} (m : M A) (f : A -> M B) (log : list call) (b : B) :
  m ≫= f = (log, Ret b) ->
  exists l1 a l2, m = (l1, Ret a) /\ f a = (l2, Ret b) /\ log = (l1 ++ l2)%list.
Proof.
  destruct m as [l1 [a| |]]; cbn [mbind M_bind]; try discriminate.
  destruct (f a) as [l2 r] eqn:Ef. intros [= <- ->].
  exists l1, a, l2. auto.
Qed.

Lemma M_ret_eq {A} (a : A) : (mret a : M A) = ([], Ret a).
Proof. reflexivity. Qed.

Lemma M_bind_eq {A B} (l : list call) (a : A) (f : A -> M B) :
  (l, Ret a) ≫= f = ((l ++ (f a).1)%list, (f a).2).
Proof. cbn [mbind M_bind]. now destruct (f a). Qed.

Lemma M_bind_request {A B} (c : call) (a : A) (f : A -> M B) :
  request c a ≫= f = (c :: (f a).1, (f a).2).
Proof. unfold request. now rewrite M_bind_eq. Qed.

Lemma M_bind_lift_Ret {A B} (a : A) (f : A -> M B) : lift (Ret a) ≫= f = f a.
Proof. unfold lift. rewrite M_bind_eq. now destruct (f a). Qed.

Section Runs.
Context `{Platform}.

(** A run that returns without an error has parsed the parameters, found
    no error in [ghr] and computed the score from the metrics it
    returns. *)
Lemma RepositoryStats_success fuel gh ghr params log score :
  RepositoryStats fuel gh ghr params = (log, Ret (score, None)) ->
  exists additionalParams,
    parseAdditionalParams params = (additionalParams, None) /\
    Error ghr = None /\
    Score.CriticalityScore score
    = criticality score (fst (additional_totals additionalParams))
                  (snd (additional_totals additionalParams)).
Proof.
  unfold RepositoryStats.
  destruct (parseAdditionalParams params) as [additionalParams [err|]];
    [discriminate|].
  destruct (additional_totals additionalParams) as [tw sc] eqn:Etot.
  intros Hrun. exists additionalParams. rewrite Etot. cbn [fst snd].
  split; [reflexivity|].
  repeat (apply M_bind_Ret in Hrun as (? & [? ?] & ? & _ & Hrun & _)).
  destruct (Error ghr) as [err|]; [discriminate|].
  split; [reflexivity|].
  injection Hrun as _ <-. reflexivity.
Qed.

End Runs.

(** ** Additional parameters *)

Section AdditionalParams.
Context `{Platform}.

Lemma parseAdditionalParams_loop_good params aps acc :
  Forall2 (fun p a => param_shape p = Some a) params aps ->
  parseAdditionalParams_loop params acc = ((acc ++ aps)%list, None).
Proof.
  intros Hall. revert acc.
  induction Hall as [|p a params aps Hp _ IH]; intros acc.
  - cbn [parseAdditionalParams_loop]. now rewrite app_nil_r.
  - cbn [parseAdditionalParams_loop]. unfold param_shape in Hp.
    destruct (Strings.Split p ":") as [|ps0 [|ps1 [|ps2 [|]]]];
      try discriminate.
    destruct (ParseFloat ps0) as [v|]; [|discriminate].
    destruct (ParseFloat ps1) as [w|]; [|discriminate].
    destruct (ParseFloat ps2) as [mt|]; [|discriminate].
    injection Hp as <-. rewrite IH. now rewrite <- app_assoc.
Qed.

Lemma parseAdditionalParams_loop_bad params acc :
  Exists (fun p => param_shape p = None) params ->
  exists err, parseAdditionalParams_loop params acc = ([], Some err).
Proof.
  revert acc. induction params as [|p params IH]; intros acc Hex.
  - inversion Hex.
  - cbn [parseAdditionalParams_loop].
    destruct (param_shape p) as [a|] eqn:Hp.
    + assert (Hrest : Exists (fun p => param_shape p = None) params).
      { inversion Hex as [? ? Hp'|]; subst; [congruence|assumption]. }
      unfold param_shape in Hp.
      destruct (Strings.Split p ":") as [|ps0 [|ps1 [|ps2 [|]]]];
        try discriminate.
      destruct (ParseFloat ps0) as [v|]; [|discriminate].
      destruct (ParseFloat ps1) as [w|]; [|discriminate].
      destruct (ParseFloat ps2) as [mt|]; [|discriminate].
      now apply IH.
    + clear IH Hex. unfold param_shape in Hp.
      destruct (Strings.Split p ":") as [|ps0 [|ps1 [|ps2 [|]]]]; eauto.
      destruct (ParseFloat ps0) as [v|]; eauto.
      destruct (ParseFloat ps1) as [w|]; eauto.
      destruct (ParseFloat ps2) as [mt|]; eauto. discriminate.
Qed.

Lemma parseAdditionalParams_good params aps :
  Forall2 (fun p a => param_shape p = Some a) params aps ->
  parseAdditionalParams params = (aps, None).
Proof.
  intros Hall. unfold parseAdditionalParams.
  destruct params as [|p params].
  - now inversion Hall.
  - now rewrite (parseAdditionalParams_loop_good _ aps []).
Qed.

Lemma parseAdditionalParams_bad params :
  Exists (fun p => param_shape p = None) params ->
  exists err, parseAdditionalParams params = ([], Some err).
Proof.
  intros Hex. unfold parseAdditionalParams.
  destruct params as [|p params]; [inversion Hex|].
  now apply parseAdditionalParams_loop_bad.
Qed.

(** C6. Parameter strings are accepted exactly when each of them has
    the shape [value:weight:max_threshold] with three fields that read as
    [float64].  When some string of the list has not, [RepositoryStats]
    returns the empty [Score] and an error that starts with "invalid
    param format", and it has sent no request: parsing comes before the
    providers are started. *)
Theorem RepositoryStats_malformed_param fuel gh ghr params :
  (forall aps,
      Forall2 (fun p a => param_shape p = Some a) params aps ->
      parseAdditionalParams params = (aps, None)) /\
  (Exists (fun p => param_shape p = None) params ->
   (exists err, parseAdditionalParams params = ([], Some err)) /\
   exists err,
     RepositoryStats fuel gh ghr params
     = ([], Ret (Score.empty, Some (ErrInvalidParamFormat ++ " : " ++ err)))).
Proof.
  split; [apply parseAdditionalParams_good|].
  intros Hex. destruct (parseAdditionalParams_bad params Hex) as [err Herr].
  split; [eauto|].
  exists err. unfold RepositoryStats. now rewrite Herr.
Qed.

End AdditionalParams.

(** ** The aggregation *)

Section Aggregation.
Context `{Platform}.

Lemma fold_additional_totals (aps : list AdditionalParam) (tw sc : float64) :
  fold_left
    (fun '(additionalParamsTotalWeight, additionalParamsScore) param =>
       ((additionalParamsTotalWeight + Weight param)%float,
        (additionalParamsScore
         + ParamScore (ParamFloat (Value param)) (MaxThreshold param)
                      (Weight param))%float))
    aps (tw, sc)
  = (fold_left PrimFloat.add (map Weight aps) tw,
     fold_left PrimFloat.add (map additional_score aps) sc).
Proof.
  revert tw sc. induction aps as [|a aps IH]; intros tw sc; [reflexivity|].
  cbn [fold_left map]. now rewrite IH.
Qed.

Lemma additional_totals_fsum (aps : list AdditionalParam) :
  additional_totals aps
  = (fsum (map Weight aps), fsum (map additional_score aps)).
Proof. apply fold_additional_totals. Qed.

Lemma criticality_ratio (s : Score.Score) (aps : list AdditionalParam) :
  criticality s (additional_totals aps).1 (additional_totals aps).2
  = round_to_5_places (weighted_ratio s aps).
Proof. now rewrite additional_totals_fsum. Qed.

(** The ten fixed weights add up to 8.5, every partial sum being exact. *)
Lemma sum_fixed_weights (w : float64) :
  sum_left (fixed_weights ++ [w]) = (8.5 + w)%float.
Proof. reflexivity. Qed.

(** C1, as the code has it.  In every run that returns a score, the
    criticality score is computed from a ratio: the normalised scores of
    the ten metrics and then the total of those of the additional
    parameters, added from left to right, over the fixed weights, which
    add up to 8.5, plus the total of the additional weights.  The ratio
    is multiplied by 100000, not by 100 and then by 100000: the product,
    a [float64], is rounded to the nearest integer, halves away from
    zero, and divided by 100000. *)
Theorem CriticalityScore_aggregation fuel gh ghr params log score :
  RepositoryStats fuel gh ghr params = (log, Ret (score, None)) ->
  exists aps,
    parseAdditionalParams params = (aps, None) /\
    Score.CriticalityScore score
    = (Math.Round
         (sum_left (metric_scores score ++ [fsum (map additional_score aps)])
          / sum_left (fixed_weights ++ [fsum (map Weight aps)])
          * 100000)
       / 100000)%float /\
    sum_left (fixed_weights ++ [fsum (map Weight aps)])
    = (8.5 + fsum (map Weight aps))%float.
Proof.
  intros Hrun.
  destruct (RepositoryStats_success _ _ _ _ _ _ Hrun) as (aps & Hparse & _ & Hscore).
  exists aps. split; [exact Hparse|]. split.
  - rewrite Hscore. apply criticality_ratio.
  - apply sum_fixed_weights.
Qed.

End Aggregation.

(** ** Runs on the sample repository *)

(** The run on the sample repository: created 120 months ago, every other
    metric 0, no additional parameter. *)
Lemma sample_run :
  exists log,
    @RepositoryStats sample_platform 1 sample_github sample_ghr []
    = (log,
       Ret ({| Score.Name := "criticalityscore";
               Score.URL := "https://github.com/engelsjk/criticalityscore";
               Score.Language := "Go";
               Score.CreatedSince := 120; Score.UpdatedSince := 0;
               Score.ContributorCount := 0; Score.OrgCount := 0;
               Score.CommitFrequency := 0; Score.RecentReleasesCount := 0;
               Score.ClosedIssuesCount := 0; Score.UpdatedIssuesCount := 0;
               Score.CommentFrequency := 0; Score.DependentsCount := 0;
               Score.CriticalityScore := (11765 / 100000)%float;
               Score.ScoredOn := "" |}, None)).
Proof. eexists. vm_compute. reflexivity. Qed.

(** C1, as the spec has it, fails.  For the sample repository the run
    returns 0.11765, the ratio 1 / 8.5 rounded to 5 places; the ratio
    multiplied by 100 and rounded would be 11.76471. *)
Lemma CriticalityScore_not_times_100 :
  exists log score,
    @RepositoryStats sample_platform 1 sample_github sample_ghr []
    = (log, Ret (score, None)) /\
    Score.CriticalityScore score = (11765 / 100000)%float /\
    @stated_criticality sample_platform score [] = (1176471 / 100000)%float /\
    (Score.CriticalityScore score
     =? @stated_criticality sample_platform score [])%float = false.
Proof.
  destruct sample_run as [log Hrun].
  eexists. eexists. split; [exact Hrun|].
  repeat split; vm_compute; reflexivity.
Qed.

Lemma CriticalityScore_aggregation_witness :
  exists log score aps,
    @RepositoryStats sample_platform 1 sample_github sample_ghr []
    = (log, Ret (score, None)) /\
    @parseAdditionalParams sample_platform [] = (aps, None) /\
    Score.CriticalityScore score
    = (Math.Round
         (sum_left (@metric_scores sample_platform score
                    ++ [fsum (map (@additional_score sample_platform) aps)])
          / sum_left (fixed_weights ++ [fsum (map Weight aps)])
          * 100000)
       / 100000)%float.
Proof.
  destruct sample_run as [log Hrun].
  destruct (@CriticalityScore_aggregation sample_platform 1 sample_github
              sample_ghr [] _ _ Hrun) as (aps & Hparse & Hscore & _).
  eexists. eexists. exists aps. eauto.
Defined.

(** X22. The arithmetic of the score is that of [float64].  On the sample
    repository with the additional parameter "1:0.003642393491879021:1",
    of weight [w], the ratio [(1 + w) / (8.5 + w)] times 100000 is the
    float 11802.5, which rounds to 11803, so that the score is 0.11803;
    the exact value of the same expression lies below 11802.5 (that is:
    [176395 * w < 642.5]) and would round to 11802. *)
Theorem CriticalityScore_in_float64 :
  exists log score m e,
    @RepositoryStats sample_platform 1 sample_github sample_ghr
                     ["1:0.003642393491879021:1"]
    = (log, Ret (score, None)) /\
    @parseAdditionalParams sample_platform ["1:0.003642393491879021:1"]
    = ([{| Value := 1; Weight := SF2Prim (S754_finite false m e);
           MaxThreshold := 1 |}], None) /\
    ((1 + SF2Prim (S754_finite false m e))
     / (8.5 + SF2Prim (S754_finite false m e)) * 100000)%float
    = 11802.5%float /\
    Score.CriticalityScore score = (11803 / 100000)%float /\
    2 * 176395 * Z.pos m < 1285 * 2 ^ (- e).
Proof.
  eexists _, _, 8398787570054696%positive, (-61).
  split; [vm_compute; reflexivity|].
  split; [vm_compute; reflexivity|].
  split; [vm_compute; reflexivity|].
  split; [vm_compute; reflexivity|].
  vm_compute. reflexivity.
Qed.

(** ** Errors of the providers *)

Section ProviderErrors.
Context `{Platform}.

(** A run that returns an error returns the error of the parameters, with
    nothing requested, or the error that [ghr] held when the run began. *)
Lemma RepositoryStats_error fuel gh ghr params log score err :
  RepositoryStats fuel gh ghr params = (log, Ret (score, Some err)) ->
  (log = [] /\ score = Score.empty /\
   exists e, (parseAdditionalParams params).2 = Some e /\
             err = ErrInvalidParamFormat ++ " : " ++ e) \/
  (Error ghr = Some err /\ score = Score.empty).
Proof.
  unfold RepositoryStats.
  destruct (parseAdditionalParams params) as [additionalParams [e|]].
  - rewrite M_ret_eq. intros [= <- <- <-]. left. eauto.
  - destruct (additional_totals additionalParams) as [tw sc].
    intros Hrun. right.
    repeat (apply M_bind_Ret in Hrun as (? & [? ?] & ? & _ & Hrun & _)).
    destruct (Error ghr) as [err'|]; [|discriminate].
    rewrite M_ret_eq in Hrun. now injection Hrun as _ <- <-.
Qed.

End ProviderErrors.

(** C2 does not hold of the code.  While GitHub is still computing the
    commit activity (status 202), [CommitFrequency] records
    [ErrCommitFrequencyBeingCalculated], but in its own copy of the
    receiver: the run on [pending_github] returns a populated score with a
    commit frequency of 0 and no error.  In general a run that starts
    without an error in [ghr] reports no error of a provider at all. *)
Theorem pending_run_returns_score :
  CommitFrequency pending_github sample_ghr
  = ([CallListCommitActivity],
     Ret (set_Error sample_ghr ErrCommitFrequencyBeingCalculated, zero)) /\
  (exists log score,
      @RepositoryStats sample_platform 1 pending_github sample_ghr []
      = (log, Ret (score, None)) /\
      In CallListCommitActivity log /\
      Score.CreatedSince score = 120 /\
      Score.CommitFrequency score = zero /\
      score <> Score.empty) /\
  (forall (P : Platform) fuel gh ghr params log score err,
      Error ghr = None ->
      @RepositoryStats P fuel gh ghr params = (log, Ret (score, Some err)) ->
      log = [] /\ exists e, err = ErrInvalidParamFormat ++ " : " ++ e).
Proof.
  split; [reflexivity|]. split.
  - eexists. eexists. split; [vm_compute; reflexivity|].
    split; [vm_compute; tauto|].
    split; [reflexivity|]. split; [reflexivity|].
    discriminate.
  - intros P fuel gh ghr params log score err Hnone Hrun.
    destruct (RepositoryStats_error _ _ _ _ _ _ _ Hrun)
      as [(-> & _ & e & _ & ->)|[Herr _]].
    + eauto.
    + congruence.
Qed.

(** ** The unguarded division of [ParamScore] *)

Section UnguardedDivision.
Context `{Platform}.

Lemma ParamScore_0_over_0 (p maxValue weight : float64) :
  Log 1 = 0%float ->
  (p =? 0)%float = true -> (maxValue <=? 0)%float = true ->
  Log (1 + p) = 0%float /\
  Log (1 + Math.Max p maxValue) = 0%float /\
  ParamScore (ParamFloat p) maxValue weight = NaN.
Proof.
  intros Hlog Hp Hm.
  destruct (one_plus_Max_zero p maxValue Hp Hm) as [H1 H2].
  unfold ParamScore. rewrite H1, H2, Hlog.
  split; [reflexivity|]. split; [reflexivity|].
  change (0 / 0)%float with NaN. apply mul_NaN_l.
Qed.

Lemma criticality_NaN (s : Score.Score) (tw : float64) :
  criticality s tw NaN = NaN.
Proof.
  unfold criticality. rewrite add_NaN_r, div_NaN_l, mul_NaN_l. reflexivity.
Qed.

(** C10, as the code has it.  The division of [ParamScore] has no guard.
    With [math.Log 1 = 0]: for [p = 0] and [maxValue <= 0] the
    denominator [Log (1 + max p maxValue)] is 0, as the numerator is, and
    the result is [NaN]; the same happens for the positive threshold
    [2^-60], which the sum with 1 absorbs, so that [max p maxValue > 0] is
    needed for a result that is a number, and is not enough.  The
    additional parameter "0:1:0" is a case of the first kind: every run
    that returns a score with it returns [NaN] as the criticality
    score. *)
Theorem ParamScore_unguarded_division :
  Log 1 = 0%float ->
  (forall p maxValue weight : float64,
      (p =? 0)%float = true -> (maxValue <=? 0)%float = true ->
      Log (1 + p) = 0%float /\
      Log (1 + Math.Max p maxValue) = 0%float /\
      ParamScore (ParamFloat p) maxValue weight = NaN) /\
  (forall weight : float64,
      (0 <? Math.Max 0 0x1p-60)%float = true /\
      Log (1 + Math.Max 0 0x1p-60) = 0%float /\
      ParamScore (ParamFloat 0) 0x1p-60 weight = NaN) /\
  (ParseFloat "0" = Some 0%float -> ParseFloat "1" = Some 1%float ->
   forall fuel gh ghr log score,
     RepositoryStats fuel gh ghr ["0:1:0"] = (log, Ret (score, None)) ->
     Score.CriticalityScore score = NaN).
Proof.
  intros Hlog. split; [|split].
  - intros p maxValue weight. now apply ParamScore_0_over_0.
  - intros weight. split; [reflexivity|]. split.
    + change (1 + Math.Max 0 0x1p-60)%float with 1%float. exact Hlog.
    + now apply ParamScore_tiny_threshold.
  - intros H0 H1 fuel gh ghr log score Hrun.
    destruct (RepositoryStats_success _ _ _ _ _ _ Hrun) as (aps & Hparse & _ & ->).
    assert (Haps : aps = [{| Value := 0; Weight := 1; MaxThreshold := 0 |}]).
    { unfold parseAdditionalParams in Hparse.
      cbn [parseAdditionalParams_loop] in Hparse.
      change (Strings.Split "0:1:0" ":") with ["0"; "1"; "0"] in Hparse.
      cbv iota in Hparse. rewrite H0, H1 in Hparse. now injection Hparse as <-. }
    subst aps. unfold additional_totals.
    cbn [fold_left fst snd Value Weight MaxThreshold].
    destruct (ParamScore_0_over_0 0 0 1 Hlog eq_refl eq_refl) as (_ & _ & ->).
    change (zero + NaN)%float with NaN. apply criticality_NaN.
Qed.

End UnguardedDivision.

(** On the sample platform and repository: the score of 0 against the
    threshold 0 is [NaN], and the run with "0:1:0" returns [NaN] as the
    criticality score. *)
Lemma ParamScore_unguarded_division_witness :
  @ParamScore sample_platform (ParamFloat 0) 0 1 = NaN /\
  exists log score,
    @RepositoryStats sample_platform 1 sample_github sample_ghr ["0:1:0"]
    = (log, Ret (score, None)) /\
    Score.CriticalityScore score = NaN.
Proof.
  destruct (@ParamScore_unguarded_division sample_platform eq_refl)
    as (Hzero & _ & Hrun).
  split; [apply (Hzero 0%float 0%float 1%float); reflexivity|].
  assert (Hreturns : exists log score,
             @RepositoryStats sample_platform 1 sample_github sample_ghr ["0:1:0"]
             = (log, Ret (score, None)))
    by (eexists; eexists; vm_compute; reflexivity).
  destruct Hreturns as (log & score & Hreturns).
  exists log, score. split; [exact Hreturns|].
  exact (Hrun eq_refl eq_refl _ _ _ _ _ Hreturns).
Defined.

(** C10, as the claim has it, fails: [max p maxValue > 0] does not make
    the quotient a number.  For [p = 0] and the threshold [2^-60] the
    maximum is positive and the score is [NaN], on the sample platform and
    on every platform whose logarithm of 1 is 0; the additional parameter
    "0:1:0.000000000000000001" carries [NaN] into the criticality
    score. *)
Lemma ParamScore_positive_threshold_NaN :
  (0 <? Math.Max 0 0x1p-60)%float = true /\
  @ParamScore sample_platform (ParamFloat 0) 0x1p-60 1 = NaN /\
  (forall (P : Platform) (weight : float64),
      @Log P 1 = 0%float ->
      @ParamScore P (ParamFloat 0) 0x1p-60 weight = NaN) /\
  exists log score,
    @RepositoryStats sample_platform 1 sample_github sample_ghr
                     ["0:1:0.000000000000000001"]
    = (log, Ret (score, None)) /\
    Score.CriticalityScore score = NaN.
Proof.
  split; [reflexivity|]. split; [reflexivity|]. split.
  - intros P weight. apply ParamScore_tiny_threshold.
  - eexists. eexists. split; vm_compute; reflexivity.
Qed.


(** ** Indexing the fetched lists *)

(** C9. [UpdatedSince] reads [commits[0]] without a check: when the
    listing succeeds, the method panics exactly when the list of commits
    is empty, after its one request; with a commit in the list it returns
    the months since that commit. *)
Theorem UpdatedSince_empty_commits gh ghr commits resp :
  ListCommits gh = ApiOK commits resp ->
  ((UpdatedSince gh ghr).2 = Panic <-> commits = []) /\
  (forall lastCommit rest,
      commits = lastCommit :: rest ->
      UpdatedSince gh ghr
      = ([CallListCommits], Ret (ghr, months_since gh (AuthorDate lastCommit)))) /\
  (commits = [] -> UpdatedSince gh ghr = ([CallListCommits], Panic)).
Proof.
  intros Hlist.
  assert (Hrun : UpdatedSince gh ghr
                 = match commits with
                   | [] => ([CallListCommits], Panic)
                   | lastCommit :: _ =>
                       ([CallListCommits],
                        Ret (ghr, months_since gh (AuthorDate lastCommit)))
                   end).
  { unfold UpdatedSince. rewrite M_bind_request, Hlist.
    now destruct commits. }
  split; [|split].
  - rewrite Hrun. destruct commits; cbn [snd]; split; intros; congruence.
  - intros lastCommit rest ->. exact Hrun.
  - intros ->. exact Hrun.
Qed.

Lemma UpdatedSince_empty_commits_witness :
  UpdatedSince no_commit_github sample_ghr = ([CallListCommits], Panic).
Proof.
  destruct (UpdatedSince_empty_commits no_commit_github sample_ghr []
              plain_response eq_refl) as (_ & _ & Hempty).
  exact (Hempty eq_refl).
Defined.

Section ContributorOrgsFacts.
Context `{Platform}.
Variable gh : GitHub.

Lemma ContributorOrgs_users_Ret contributors orgs :
  exists log orgs', ContributorOrgs_users gh contributors orgs = (log, Ret orgs').
Proof.
  revert orgs. induction contributors as [|c rest IH]; intros orgs.
  - cbn [ContributorOrgs_users]. rewrite M_ret_eq. eauto.
  - cbn [ContributorOrgs_users]. rewrite M_bind_request.
    destruct (GetByID gh (GetID c)) as [user resp|resp err].
    + destruct (String.eqb (Company user) EmptyString).
      * destruct (IH orgs) as (log & orgs' & ->). cbn [fst snd]. eauto.
      * destruct (IH ({[filterOrgName (Company user)]} ∪ orgs))
          as (log & orgs' & ->). cbn [fst snd]. eauto.
    + destruct (IH orgs) as (log & orgs' & ->). cbn [fst snd]. eauto.
Qed.

(** The listing is over after its first page when that page is the last
    one or a full one. *)
Lemma ContributorOrgs_fetch_first fuel contributors resp :
  ListContributors gh "false" 25 0 = ApiOK contributors resp ->
  (NextPage resp <> 0 -> List.length contributors = 25%nat) ->
  ContributorOrgs_fetch gh (S fuel) 0 nil_slice
  = ([CallListContributors "false" 25 0],
     Ret (inr (append nil_slice contributors))).
Proof.
  intros Hfirst Hfull. cbn [ContributorOrgs_fetch].
  rewrite M_bind_request, Hfirst.
  destruct (Z.eqb_spec (NextPage resp) 0) as [|Hnext]; [reflexivity|].
  assert (Hlen : len (append nil_slice contributors) = 25%nat).
  { unfold len, append. cbn [elems nil_slice app]. now apply Hfull. }
  rewrite Hlen. reflexivity.
Qed.

End ContributorOrgsFacts.

(** C8. [ContributorOrgs] takes [allContributors[:TopContributorCount]]
    without a look at the length.  Let the listing answer its first page,
    a page that is not the last one being full (25 entries), and let
    [append] give a slice of fewer than 15 pointers a capacity below 15,
    and never less than asked: with at least 15 contributors the bound is
    in range and the method returns; with fewer than 15 it panics. *)
Theorem ContributorOrgs_slice_bound `{Platform} gh ghr fuel contributors resp :
  (forall n, n <= growslice_cap 0 n /\ (n < 15 -> growslice_cap 0 n < 15))%nat ->
  ListContributors gh "false" 25 0 = ApiOK contributors resp ->
  (NextPage resp <> 0 -> List.length contributors = 25%nat) ->
  ((List.length contributors < TopContributorCount)%nat ->
   ContributorOrgs gh (S fuel) ghr
   = ([CallListContributors "false" 25 0], Panic)) /\
  ((TopContributorCount <= List.length contributors)%nat ->
   exists log orgs, ContributorOrgs gh (S fuel) ghr = (log, Ret (ghr, orgs))).
Proof.
  intros Hcap Hfirst Hfull.
  pose proof (ContributorOrgs_fetch_first gh fuel contributors resp Hfirst Hfull)
    as Hfetch.
  set (all := append nil_slice contributors) in *.
  assert (Hlen : len all = List.length contributors) by reflexivity.
  assert (Hcapall : cap all
                    = match List.length contributors with
                      | O => O
                      | S n => growslice_cap 0 (S n)
                      end).
  { unfold all, append. cbn [cap nil_slice len elems List.length Nat.add].
    now destruct (List.length contributors). }
  unfold ContributorOrgs, TopContributorCount. rewrite Hfetch, M_bind_eq.
  split.
  - intros Hshort.
    destruct (Nat.ltb_spec 5000 (len all)) as [Hbig|_]; [lia|].
    assert (Hre : reslice None all 15 = Panic).
    { unfold reslice. rewrite Hcapall.
      destruct (List.length contributors) as [|n] eqn:En.
      - reflexivity.
      - destruct (Hcap (S n)) as [_ Hlt].
        destruct (Nat.leb_spec 15 (growslice_cap 0 (S n))); [lia|reflexivity]. }
    rewrite Hre. reflexivity.
  - intros Hlong.
    destruct (Nat.ltb_spec 5000 (len all)) as [Hbig|_].
    + rewrite M_ret_eq. cbn [fst snd]. eauto.
    + assert (Hre : exists top, reslice None all 15 = Ret top).
      { unfold reslice. rewrite Hcapall.
        destruct (List.length contributors) as [|n] eqn:En; [lia|].
        destruct (Hcap (S n)) as [Hge _].
        destruct (Nat.leb_spec 15 (growslice_cap 0 (S n))); [eauto|lia]. }
      destruct Hre as [top ->]. rewrite M_bind_lift_Ret.
      destruct (ContributorOrgs_users_Ret gh top ∅) as (log & orgs & ->).
      rewrite M_bind_eq, M_ret_eq. cbn [fst snd]. eauto.
Qed.

(** Three contributors: the run of [ContributorOrgs] ends in a panic. *)
Lemma ContributorOrgs_slice_bound_witness :
  @ContributorOrgs sample_platform few_contributors_github 1 sample_ghr
  = ([CallListContributors "false" 25 0], Panic).
Proof.
  apply (@ContributorOrgs_slice_bound sample_platform few_contributors_github
           sample_ghr 0 (replicate 3 (Some {| ID := 1 |})) plain_response).
  - intros n. simpl. lia.
  - reflexivity.
  - intros Hnext. now contradiction Hnext.
  - vm_compute. lia.
Defined.

(** The malformed parameter "1:2" ends the run before any request. *)
Lemma RepositoryStats_malformed_param_witness :
  exists err,
    @RepositoryStats sample_platform 1 sample_github sample_ghr ["1:2"]
    = ([], Ret (Score.empty, Some (ErrInvalidParamFormat ++ " : " ++ err))).
Proof.
  apply (@RepositoryStats_malformed_param sample_platform 1 sample_github
           sample_ghr ["1:2"]).
  apply Exists_cons_hd. reflexivity.
Defined.

(** ** The estimate of the recent releases *)

Lemma wrap64_0 : wrap64 0 = 0.
Proof. reflexivity. Qed.

Section ReleaseEstimate.
Context `{Platform}.

(** What [RecentReleases] computes as [daysSinceCreation] is the age in
    nanoseconds over 24.  With no recent release, the estimate is 0 as
    soon as the repository is older than 24 nanoseconds for each of its
    tags and one more. *)
Lemma RecentReleases_fallback gh ghr fuel log releases resp2 totalTags :
  RecentReleases_fetch gh fuel 0 [] = (log, Ret (inr releases)) ->
  count_recent gh releases = 0 ->
  ListTags gh 1 = ApiOK () resp2 ->
  totalCount resp2 = Ret totalTags ->
  0 <= totalTags ->
  24 * (totalTags + 1) <= Time.Since (Now gh) (CreatedAt (R_ ghr)) ->
  RecentReleases gh fuel ghr = ((log ++ [CallListTags 1])%list, Ret (ghr, 0)).
Proof.
  intros Hfetch Hcount Htags Htotal Hpos Hold.
  unfold RecentReleases. rewrite Hfetch, M_bind_eq, Hcount.
  change (0 =? 0) with true. cbv iota.
  set (d := Time.Since (Now gh) (CreatedAt (R_ ghr))) in *.
  assert (Hq : totalTags < Z.quot d 24).
  { rewrite Z.quot_div_nonneg by lia.
    apply Z.lt_le_trans with ((24 * (totalTags + 1)) / 24).
    - rewrite Z.mul_comm, Z.div_mul by lia. lia.
    - apply Z.div_le_mono; lia. }
  destruct (Z.eqb_spec (Z.quot d 24) 0) as [Hz|_]; [lia|].
  rewrite M_bind_request, Htags, Htotal, M_bind_lift_Ret, M_ret_eq.
  cbn [fst snd].
  rewrite Z.quot_small by lia.
  rewrite wrap64_0, Z.mul_0_l, wrap64_0. reflexivity.
Qed.

End ReleaseEstimate.

(** C4 does not hold of the code.  A repository created ten days ago with
    twenty tags and no release: the estimate that the claim and the
    comment of [RecentReleases] announce is 20 / 10 * 365 = 730, and the
    method returns 0, because it divides the age in nanoseconds by 24 where
    the days are meant. *)
Theorem RecentReleases_estimate_is_0 :
  @RecentReleases sample_platform tagged_github 1 sample_ghr
  = ([CallListReleases 100 0; CallListTags 1], Ret (sample_ghr, 0)) /\
  @totalCount sample_platform (link_response (last_link "20")) = Ret 20 /\
  whole_days (Time.Since (Now tagged_github) (CreatedAt (R_ sample_ghr))) = 10 /\
  Z.quot (Time.Since (Now tagged_github) (CreatedAt (R_ sample_ghr))) 24
  = 36000000000000 /\
  stated_estimate 20 10 = 730.
Proof.
  split.
  - apply (@RecentReleases_fallback sample_platform tagged_github sample_ghr 1
             [CallListReleases 100 0] [] (link_response (last_link "20")) 20);
      try reflexivity.
    + discriminate.
    + vm_compute. discriminate.
  - repeat split; reflexivity.
Qed.

(** * Further properties of the package *)

(** ** [substr] *)

(** X1. The windows of [substr], for an ASCII input of [n] characters,
    where characters and runes are the same.  A start at or beyond the end
    gives the empty string.  Otherwise an end in [1..n] is the end of the
    window; an end at or below 0 counts from the end of the input (0 is
    the end itself); an end beyond [n] stands for [n - 1], so that the
    last character is dropped, if there are two characters at least, and
    for the end itself if there is one character only; and the call
    panics when the start is negative or lies beyond the end of the
    window. *)
Theorem substr_windows (input : string) (start end_ : Z) :
  ascii_only input = true ->
  let n := Z.of_nat (String.length input) in
  (n <= start -> substr input start end_ = Ret EmptyString) /\
  (0 <= start < n -> 0 < end_ <= n -> start <= end_ ->
   substr input start end_
   = Ret (String.substring (Z.to_nat start) (Z.to_nat (end_ - start)) input)) /\
  (0 <= start < n -> end_ <= 0 -> start <= n + end_ ->
   substr input start end_
   = Ret (String.substring (Z.to_nat start) (Z.to_nat (n + end_ - start)) input)) /\
  (0 <= start < n -> n < end_ -> 2 <= n ->
   substr input start end_
   = Ret (String.substring (Z.to_nat start) (Z.to_nat (n - 1 - start)) input)) /\
  (0 <= start < n -> n < end_ -> n = 1 ->
   substr input start end_ = Ret input) /\
  (start < n ->
   start < 0 \/ (0 < end_ <= n /\ end_ < start) \/ (end_ <= 0 /\ n + end_ < start) ->
   substr input start end_ = Panic).
Proof.
  intros _ n. unfold substr, slice_string. fold n.
  split; [|split; [|split; [|split; [|split]]]].
  - intros Hs. now rewrite (proj2 (Z.leb_le n start) Hs).
  - intros Hs He Hse.
    rewrite (proj2 (Z.leb_gt n start)) by lia.
    rewrite (proj2 (Z.ltb_ge n end_)) by lia.
    rewrite (proj2 (Z.leb_gt end_ 0)) by lia.
    now rewrite !(proj2 (Z.leb_le _ _)) by lia.
  - intros Hs He Hse.
    rewrite (proj2 (Z.leb_gt n start)) by lia.
    rewrite (proj2 (Z.ltb_ge n end_)) by lia.
    rewrite (proj2 (Z.leb_le end_ 0)) by lia.
    now rewrite !(proj2 (Z.leb_le _ _)) by lia.
  - intros Hs He Hn.
    rewrite (proj2 (Z.leb_gt n start)) by lia.
    rewrite (proj2 (Z.ltb_lt n end_)) by lia.
    rewrite (proj2 (Z.leb_gt (n - 1) 0)) by lia.
    now rewrite !(proj2 (Z.leb_le _ _)) by lia.
  - intros Hs He Hn.
    rewrite (proj2 (Z.leb_gt n start)) by lia.
    rewrite (proj2 (Z.ltb_lt n end_)) by lia.
    rewrite (proj2 (Z.leb_le (n - 1) 0)) by lia.
    rewrite !(proj2 (Z.leb_le _ _)) by lia.
    assert (Hstart : start = 0) by lia. subst start.
    unfold n in Hn. destruct input as [|c [|d rest]]; try discriminate.
    + reflexivity.
    + cbn [String.length] in Hn. lia.
  - intros Hs Hbad.
    rewrite (proj2 (Z.leb_gt n start)) by lia.
    destruct Hbad as [Hneg|[[He Hlt]|[He Hlt]]].
    + now rewrite (proj2 (Z.leb_gt 0 start)) by lia.
    + rewrite (proj2 (Z.ltb_ge n end_)) by lia.
      rewrite (proj2 (Z.leb_gt end_ 0)) by lia.
      destruct (0 <=? start); [|reflexivity].
      now rewrite (proj2 (Z.leb_gt start end_)) by lia.
    + rewrite (proj2 (Z.ltb_ge n end_)) by lia.
      rewrite (proj2 (Z.leb_le end_ 0)) by lia.
      destruct (0 <=? start); [|reflexivity].
      now rewrite (proj2 (Z.leb_gt start (n + end_))) by lia.
Qed.

(** An end beyond the input drops the last character of a longer input
    and none of a single character, and a start beyond the end of the
    window panics. *)
Lemma substr_windows_witness :
  substr "dependents" 2 100 = Ret "pendent" /\
  substr "a" 0 5 = Ret "a" /\
  substr "dependents" 3 2 = Panic.
Proof.
  split; [|split].
  - apply (proj1 (proj2 (proj2 (proj2 (substr_windows "dependents" 2 100 eq_refl)))));
      cbn; lia.
  - apply (proj1 (proj2 (proj2 (proj2 (proj2 (substr_windows "a" 0 5 eq_refl))))));
      cbn; lia.
  - apply (proj2 (proj2 (proj2 (proj2 (proj2 (substr_windows "dependents" 3 2 eq_refl))))));
      cbn; lia.
Defined.

(** ** [filterOrgName] *)

Lemma lower_char_not_upper (c : ascii) :
  Strings.is_upper (Strings.lower_char c) = false.
Proof. destruct c as [[] [] [] [] [] [] [] []]; reflexivity. Qed.

Lemma ToLower_chars (s : string) (c : ascii) :
  Strings.contains_char (Strings.ToLower s) c = true ->
  Strings.is_upper c = false.
Proof.
  induction s as [|x s IH]; cbn [Strings.ToLower Strings.contains_char];
    [discriminate|].
  intros Hc. apply orb_prop in Hc as [Hx|Hs]; [|now apply IH].
  apply Ascii.eqb_eq in Hx as ->. apply lower_char_not_upper.
Qed.

(** The replacer of [filterOrgName]. *)
Lemma org_replacer_keeps (c : ascii) (s : string) :
  Strings.lookup_pair [("inc.", ""); ("llc", ""); ("@", ""); (" ", "")]
                      (String c s) = None ->
  c <> "@"%char /\ c <> " "%char.
Proof.
  intros Hnone. split; intros ->; destruct s; cbn in Hnone; discriminate.
Qed.

Lemma org_replacer_new (s new : string) (keylen : nat) :
  Strings.lookup_pair [("inc.", ""); ("llc", ""); ("@", ""); (" ", "")] s
  = Some (new, keylen) ->
  new = EmptyString.
Proof.
  cbn [Strings.lookup_pair].
  repeat match goal with
         | |- context [if ?b then _ else _] => destruct b
         end; congruence.
Qed.

Lemma org_replacer_chars (skip : nat) (s : string) (c : ascii) :
  Strings.contains_char
    (Strings.replace_from [("inc.", ""); ("llc", ""); ("@", ""); (" ", "")]
                          skip s) c = true ->
  Strings.contains_char s c = true /\ c <> "@"%char /\ c <> " "%char.
Proof.
  revert skip. induction s as [|x s IH]; intros skip;
    cbn [Strings.replace_from]; [discriminate|].
  destruct skip as [|k].
  - destruct (Strings.lookup_pair _ (String x s)) as [[new keylen]|] eqn:Hl.
    + rewrite (org_replacer_new _ _ _ Hl), string_app_nil. intros Hc.
      destruct (IH _ Hc) as (Hs & Hat & Hsp).
      cbn [Strings.contains_char]. rewrite Hs, orb_true_r. auto.
    + cbn [Strings.contains_char]. intros Hc.
      apply orb_prop in Hc as [Hx|Hc].
      * apply Ascii.eqb_eq in Hx as ->. rewrite Ascii.eqb_refl.
        split; [reflexivity|]. exact (org_replacer_keeps x s Hl).
      * destruct (IH _ Hc) as (Hs & Hat & Hsp). rewrite Hs, orb_true_r. auto.
  - intros Hc. destruct (IH _ Hc) as (Hs & Hat & Hsp).
    cbn [Strings.contains_char]. rewrite Hs, orb_true_r. auto.
Qed.

Lemma TrimRight_chars (s cutset : string) (c : ascii) :
  Strings.contains_char (Strings.TrimRight s cutset) c = true ->
  Strings.contains_char s c = true.
Proof.
  induction s as [|x s IH]; cbn [Strings.TrimRight]; [auto|].
  destruct (String.eqb (Strings.TrimRight s cutset) EmptyString
            && Strings.contains_char cutset x); [discriminate|].
  cbn [Strings.contains_char]. intros Hc.
  apply orb_prop in Hc as [->|Hc]; [reflexivity|].
  now rewrite (IH Hc), orb_true_r.
Qed.

Lemma TrimRight_last (s cutset t : string) (c : ascii) :
  Strings.TrimRight s cutset = t ++ String c EmptyString ->
  Strings.contains_char cutset c = false.
Proof.
  revert t. induction s as [|x s IH]; intros t; cbn [Strings.TrimRight].
  - destruct t; discriminate.
  - destruct (String.eqb_spec (Strings.TrimRight s cutset) EmptyString) as [He|Hne].
    + rewrite He. cbn [andb].
      destruct (Strings.contains_char cutset x) eqn:Hx.
      * destruct t; discriminate.
      * destruct t as [|y t]; [now intros [= <-]|].
        rewrite string_app_cons. intros [= _ Ht]. destruct t; discriminate.
    + cbn [andb]. destruct t as [|y t].
      * rewrite string_app_nil. intros [= _ Ht]. congruence.
      * rewrite string_app_cons. intros [= _ Ht]. now apply (IH t).
Qed.

(** X3. What [filterOrgName] guarantees of every name: each character
    of the result comes from the lower-cased input, none is an upper-case
    ASCII letter, a space or an '@', and the result does not end with a
    comma. *)
Theorem filterOrgName_normal (orgName : string) :
  (forall c,
      Strings.contains_char (filterOrgName orgName) c = true ->
      Strings.contains_char (Strings.ToLower orgName) c = true /\
      Strings.is_upper c = false /\ c <> " "%char /\ c <> "@"%char) /\
  (forall t, filterOrgName orgName <> t ++ ",").
Proof.
  unfold filterOrgName, Strings.Replace. split.
  - intros c Hc. apply TrimRight_chars in Hc.
    apply org_replacer_chars in Hc as (Hs & Hat & Hsp).
    split; [exact Hs|]. split; [exact (ToLower_chars _ _ Hs)|]. auto.
  - intros t Ht. apply TrimRight_last in Ht. discriminate.
Qed.

(** ** [parseLinkHeader] *)

Lemma split_from_concat (c0 : ascii) (sep p cur : string) (ps : list string) :
  Forall (fun p => Strings.contains_char p c0 = false) (p :: ps) ->
  Strings.split_from (String c0 sep) 0 cur (String.concat (String c0 sep) (p :: ps))
  = (cur ++ p) :: ps.
Proof.
  revert p cur. induction ps as [|q qs IH]; intros p cur Hall.
  - cbn [String.concat]. rewrite <- (string_app_empty_r p) at 1.
    rewrite split_from_avoid by now inversion Hall. reflexivity.
  - change (String.concat (String c0 sep) (p :: q :: qs))
      with (p ++ String c0 sep ++ String.concat (String c0 sep) (q :: qs)).
    inversion Hall as [|? ? Hp Hrest]; subst.
    rewrite split_from_avoid by assumption.
    rewrite split_from_sep. f_equal.
    specialize (IH q EmptyString Hrest). rewrite string_app_nil in IH.
    destruct (String.concat (String c0 sep) (q :: qs)); exact IH.
Qed.

(** [strings.Split] undoes the joining of pieces that do not hold the
    first character of the separator. *)
Lemma Split_concat (c0 : ascii) (sep p : string) (ps : list string) :
  Forall (fun p => Strings.contains_char p c0 = false) (p :: ps) ->
  Strings.Split (String.concat (String c0 sep) (p :: ps)) (String c0 sep)
  = p :: ps.
Proof. intros Hall. unfold Strings.Split. now rewrite split_from_concat. Qed.

Lemma substr_strip5 (a b c d e f : ascii) (x : string) :
  substr (String a (String b (String c (String d (String e
            (x ++ String f EmptyString)))))) 5 (-1) = Ret x.
Proof.
  rewrite substr_minus_1 by lia.
  cbn [String.length]. rewrite string_length_app. cbn [String.length].
  destruct (Z.leb_spec (Z.of_nat (S (S (S (S (S (String.length x + 1))))))) 5);
    [lia|].
  replace (Z.to_nat (Z.of_nat (S (S (S (S (S (String.length x + 1)))))) - 1 - 5))
    with (String.length x) by lia.
  change (Z.to_nat 5) with 5%nat. cbn [String.substring].
  destruct (String.length x) eqn:E.
  - destruct x; [reflexivity|discriminate].
  - rewrite <- E. now rewrite substring_app_l.
Qed.

Lemma plain_text_avoid (s : string) :
  plain_text s = true ->
  Strings.contains_char s "," = false /\ Strings.contains_char s ";" = false.
Proof.
  unfold plain_text. intros Hs. apply andb_prop in Hs as [H1 H2].
  now apply negb_true_iff in H1, H2.
Qed.

Lemma link_entry_shape (rel url : string) :
  link_entry rel url
  = String "<" (url ++ String ">" EmptyString)
    ++ "; " ++ String "r" (String "e" (String "l" (String "=" (String "034"
         (rel ++ dquote))))).
Proof.
  unfold link_entry.
  change (String "<" (url ++ String ">" EmptyString ++ "; " ++ "rel=" ++ dquote ++ rel ++ dquote)
          = String "<" ((url ++ String ">" EmptyString)
                        ++ "; " ++ "rel=" ++ dquote ++ rel ++ dquote)).
  f_equal. symmetry. apply string_app_assoc.
Qed.

Lemma link_entry_avoid_comma (rel url : string) :
  plain_text rel = true -> plain_text url = true ->
  Strings.contains_char (link_entry rel url) "," = false.
Proof.
  intros Hrel Hurl. apply plain_text_avoid in Hrel as [Hrel _].
  apply plain_text_avoid in Hurl as [Hurl _].
  rewrite link_entry_shape. rewrite !contains_char_app.
  cbn [Strings.contains_char]. rewrite !contains_char_app.
  rewrite Hurl, Hrel. reflexivity.
Qed.

Lemma Split_link_entry (rel url : string) :
  plain_text rel = true -> plain_text url = true ->
  Strings.Split (link_entry rel url) "; "
  = [String "<" (url ++ String ">" EmptyString);
     String "r" (String "e" (String "l" (String "=" (String "034"
        (rel ++ dquote)))))].
Proof.
  intros Hrel Hurl. apply plain_text_avoid in Hrel as [_ Hrel].
  apply plain_text_avoid in Hurl as [_ Hurl].
  rewrite link_entry_shape. apply Split_two.
  - cbn [Strings.contains_char]. rewrite contains_char_app, Hurl. reflexivity.
  - cbn [Strings.contains_char]. rewrite contains_char_app, Hrel. reflexivity.
Qed.

Lemma parseLinkHeader_loop_entries (entries : list (string * string))
      (links : gmap string string) :
  Forall (fun e => plain_text e.1 = true /\ plain_text e.2 = true) entries ->
  parseLinkHeader_loop (map (fun '(rel, url) => link_entry rel url) entries) links
  = Ret (list_to_map (reverse entries) ∪ links).
Proof.
  intros Hall. revert links.
  induction Hall as [|[rel url] entries [Hrel Hurl] _ IH]; intros links.
  - cbn [map parseLinkHeader_loop]. now rewrite reverse_nil, list_to_map_nil, (left_id ∅ _).
  - cbn [map parseLinkHeader_loop fst snd] in *.
    rewrite (Split_link_entry rel url Hrel Hurl).
    rewrite substr_strip. unfold dquote. rewrite substr_strip5.
    cbn [mbind outcome_bind]. rewrite IH. f_equal.
    rewrite reverse_cons, list_to_map_app.
    rewrite <- (assoc_L (∪)). f_equal.
    cbn [list_to_map foldr curry]. rewrite insert_empty.
    now rewrite insert_union_singleton_l.
Qed.

(** X2. Parsing undoes the formatting of a [Link] header.  For entries
    (relation and URL) without comma and semicolon, the header that lists
    them is parsed into the map from each relation to its URL, the last
    entry of a relation winning; no [Link] header gives the empty map. *)
Theorem parseLinkHeader_link_header (h : Header) (entries : list (string * string)) :
  Forall (fun e => plain_text e.1 = true /\ plain_text e.2 = true) entries ->
  Header_Get h "link" = link_header entries ->
  parseLinkHeader h = Ret (list_to_map (reverse entries)).
Proof.
  intros Hall Hget. unfold parseLinkHeader. rewrite Hget. unfold link_header.
  destruct entries as [|[rel url] entries].
  - reflexivity.
  - cbn [map]. rewrite Split_concat.
    + change (link_entry rel url
              :: map (fun '(rel, url) => link_entry rel url) entries)
        with (map (fun '(rel, url) => link_entry rel url) ((rel, url) :: entries)).
      rewrite (parseLinkHeader_loop_entries _ ∅ Hall).
      now rewrite (right_id_L ∅ (∪)).
    + change (Forall (fun p => Strings.contains_char p "," = false)
                (map (fun '(rel, url) => link_entry rel url) ((rel, url) :: entries))).
      apply Forall_map. eapply Forall_impl; [exact Hall|].
      intros [r u] [Hr Hu]. now apply link_entry_avoid_comma.
Qed.

Lemma parseLinkHeader_link_header_witness :
  parseLinkHeader
    (Header_ (link_response
                (link_header [("next", link_url "2"); ("last", link_url "42")])))
  = Ret (list_to_map (reverse [("next", link_url "2"); ("last", link_url "42")])).
Proof.
  apply parseLinkHeader_link_header.
  - repeat constructor.
  - reflexivity.
Defined.

(** ** The providers that count and average *)

Lemma wrap64_id (z : Z) : min_int64 <= z <= max_int64 -> wrap64 z = z.
Proof.
  unfold min_int64, max_int64, wrap64. intros Hz.
  rewrite Z.mod_small by lia. lia.
Qed.

Section CountingProviders.
Context `{Platform}.
Variable gh : GitHub.

Lemma Contributors_returns (ghr : GitHubRepository) :
  exists g n,
    Contributors gh ghr = ([CallListContributors "true" 1 0], Ret (g, n)) /\
    match ListContributors gh "true" 1 0 with
    | ApiOK _ resp => g = ghr /\ totalCount resp = Ret n
    | ApiErr _ err => g = set_Error ghr err /\ n = 0
    end.
Proof.
  unfold Contributors. rewrite M_bind_request.
  destruct (ListContributors gh "true" 1 0) as [cs resp|resp err].
  - destruct (totalCount_Ret resp) as [n Hn]. rewrite Hn, M_bind_lift_Ret.
    exists ghr, n. auto.
  - exists (set_Error ghr err), 0. auto.
Qed.

(** X6. [Contributors], [ClosedIssues] and [UpdatedIssues] always return,
    after exactly one request for one item a page: the count that the
    "last" link of the answer announces, or 0 with the error in the
    method's own copy of the receiver.  The issues are those of the 90
    days before the call. *)
Theorem counting_providers_return (ghr : GitHubRepository) :
  (exists g n,
      Contributors gh ghr = ([CallListContributors "true" 1 0], Ret (g, n)) /\
      match ListContributors gh "true" 1 0 with
      | ApiOK _ resp => g = ghr /\ totalCount resp = Ret n
      | ApiErr _ err => g = set_Error ghr err /\ n = 0
      end) /\
  (forall state,
      exists g n,
        count_issues gh state ghr
        = ([CallListByRepo state (Now gh - days 90) 1], Ret (g, n)) /\
        match ListByRepo gh state (Now gh - days 90) 1 with
        | ApiOK _ resp => g = ghr /\ totalCount resp = Ret n
        | ApiErr _ err => g = set_Error ghr err /\ n = 0
        end) /\
  ClosedIssues gh = count_issues gh "closed" /\
  UpdatedIssues gh = count_issues gh "all".
Proof.
  split; [|split; [|split; reflexivity]].
  - apply Contributors_returns.
  - intros state. unfold count_issues. rewrite M_bind_request.
    change (issuesSinceTime gh) with (Now gh - days 90).
    destruct (ListByRepo gh state (Now gh - days 90) 1) as [cs resp|resp err].
    + destruct (totalCount_Ret resp) as [n Hn]. rewrite Hn, M_bind_lift_Ret.
      exists ghr, n. auto.
    + exists (set_Error ghr err), 0. auto.
Qed.

(** X7. [CommentFrequency] sends no request and returns 0 when there is no
    issue, so that it never divides by zero.  With issues it always
    returns, after exactly one request: 0 with the error in its own copy
    of the receiver when the listing fails, and otherwise the quotient of
    the count of the comments by that of the issues, times 10, rounded
    and divided by 10, each operation in [float64]. *)
Theorem CommentFrequency_ratio (ghr : GitHubRepository) (issueCount : Z) :
  (issueCount = 0 -> CommentFrequency gh ghr issueCount = ([], Ret (ghr, zero))) /\
  (issueCount <> 0 ->
   exists g y,
     CommentFrequency gh ghr issueCount
     = ([CallListComments (Now gh - days 90) 1], Ret (g, y)) /\
     match ListComments gh (Now gh - days 90) 1 with
     | ApiErr _ err => g = set_Error ghr err /\ y = zero
     | ApiOK _ resp =>
         g = ghr /\
         exists commentCount,
           totalCount resp = Ret commentCount /\
           y = (Math.Round (of_int commentCount / of_int issueCount * 10)
                / 10)%float
     end).
Proof.
  split.
  - intros ->. reflexivity.
  - intros Hne. unfold CommentFrequency.
    rewrite (proj2 (Z.eqb_neq issueCount 0) Hne).
    rewrite M_bind_request.
    change (issuesSinceTime gh) with (Now gh - days 90).
    destruct (ListComments gh (Now gh - days 90) 1) as [u resp|resp err].
    + destruct (totalCount_Ret resp) as [n Hn]. rewrite Hn, M_bind_lift_Ret.
      eexists _, _. split; [reflexivity|]. split; [reflexivity|]. eauto.
    + eexists _, _. split; [reflexivity|]. auto.
Qed.

End CountingProviders.

(** Sixty comments on thirty issues: 2 comments an issue. *)
Lemma CommentFrequency_ratio_witness :
  @CommentFrequency sample_platform commented_github sample_ghr 30
  = ([CallListComments (Now commented_github - days 90) 1],
     Ret (sample_ghr, 2%float)).
Proof.
  destruct (proj2 (@CommentFrequency_ratio sample_platform commented_github
                     sample_ghr 30) ltac:(discriminate))
    as (g & y & Hrun & Hcase).
  cbn [ListComments commented_github] in Hcase.
  destruct Hcase as (-> & commentCount & Hcount & ->).
  vm_compute in Hcount. injection Hcount as <-.
  rewrite Hrun. reflexivity.
Defined.

Lemma commits_of_nonneg (weekStats : list WeeklyCommitActivity) :
  Forall (fun w => 0 <= Total w) weekStats -> 0 <= commits_of weekStats.
Proof.
  unfold commits_of. induction 1 as [|w ws Hw _ IH]; cbn [map foldr]; lia.
Qed.

Lemma wrapped_total (weekStats : list WeeklyCommitActivity) (acc : Z) :
  Forall (fun w => 0 <= Total w) weekStats ->
  0 <= acc -> acc + commits_of weekStats <= max_int64 ->
  fold_left (fun total weekStat => wrap64 (total + Total weekStat)) weekStats acc
  = acc + commits_of weekStats.
Proof.
  intros Hall. revert acc.
  induction Hall as [|w ws Hw Hws IH]; intros acc Hacc Hmax.
  - cbn. lia.
  - pose proof (commits_of_nonneg ws Hws) as Hrest.
    unfold commits_of in *. cbn [fold_left map foldr] in *.
    rewrite wrap64_id by (unfold min_int64; lia).
    rewrite IH by lia. lia.
Qed.

(** X8. [CommitFrequency], when the commit activity is listed: with
    non-negative weekly totals whose sum fits an [int], the result is, after
    one request and with the receiver unchanged, the sum as a [float64]
    over 52, times 10, rounded to an integer and divided by 10.  The
    divisor is 52 whatever the number of weeks listed. *)
Theorem CommitFrequency_average gh ghr weekStats resp :
  ListCommitActivity gh = ApiOK weekStats resp ->
  Forall (fun w => 0 <= Total w) weekStats ->
  commits_of weekStats <= max_int64 ->
  CommitFrequency gh ghr
  = ([CallListCommitActivity],
     Ret (ghr,
          (Math.Round (of_int (commits_of weekStats) / 52 * 10) / 10)%float)).
Proof.
  intros Hlist Hall Hmax. unfold CommitFrequency.
  rewrite M_bind_request, Hlist.
  rewrite (wrapped_total weekStats 0 Hall) by lia.
  now rewrite Z.add_0_l.
Qed.

(** Seven commits in each of 52 weeks average to 7 a week; in each of 26
    weeks listed, to 3.5. *)
Lemma CommitFrequency_average_witness :
  CommitFrequency (steady_github 52 7) sample_ghr
  = ([CallListCommitActivity], Ret (sample_ghr, 7%float)) /\
  CommitFrequency (steady_github 26 7) sample_ghr
  = ([CallListCommitActivity], Ret (sample_ghr, 3.5%float)).
Proof.
  split.
  - rewrite (CommitFrequency_average (steady_github 52 7) sample_ghr
               (replicate 52 {| Total := 7 |}) plain_response).
    + vm_compute. reflexivity.
    + reflexivity.
    + apply Forall_replicate. simpl. lia.
    + vm_compute. discriminate.
  - rewrite (CommitFrequency_average (steady_github 26 7) sample_ghr
               (replicate 26 {| Total := 7 |}) plain_response).
    + vm_compute. reflexivity.
    + reflexivity.
    + apply Forall_replicate. simpl. lia.
    + vm_compute. discriminate.
Defined.

(** X9. [CommitFrequency] panics exactly when the request for the commit
    activity fails without a response, a transport failure: the status of
    the response is read before the response is known to exist.  When the
    request fails with a response, the method returns 0 with, in its own
    copy of the receiver, [ErrCommitFrequencyBeingCalculated] for the
    status 202 and the error of the request otherwise. *)
Theorem CommitFrequency_transport_failure gh ghr :
  ((CommitFrequency gh ghr).2 = Panic
   <-> exists err, ListCommitActivity gh = ApiErr None err) /\
  (forall err,
      ListCommitActivity gh = ApiErr None err ->
      CommitFrequency gh ghr = ([CallListCommitActivity], Panic)) /\
  (forall resp err,
      ListCommitActivity gh = ApiErr (Some resp) err ->
      CommitFrequency gh ghr
      = ([CallListCommitActivity],
         Ret (set_Error ghr (if StatusCode resp =? 202
                             then ErrCommitFrequencyBeingCalculated else err),
              zero))).
Proof.
  unfold CommitFrequency. rewrite M_bind_request.
  destruct (ListCommitActivity gh) as [weekStats resp|[resp|] err]; cbn [fst snd].
  - split; [|split]; try discriminate.
    split; [discriminate|]. intros [err Herr]. discriminate.
  - split; [|split]; try discriminate.
    + destruct (StatusCode resp =? 202); cbn [snd];
        (split; [discriminate|]); intros [e He]; discriminate.
    + intros resp' err' [= <- <-]. now destruct (StatusCode resp =? 202).
  - split; [|split]; try discriminate.
    + split; [eauto|reflexivity].
    + reflexivity.
Qed.

Lemma CommitFrequency_transport_failure_witness :
  CommitFrequency offline_github sample_ghr = ([CallListCommitActivity], Panic).
Proof.
  exact (proj1 (proj2 (CommitFrequency_transport_failure offline_github sample_ghr))
           "dial tcp: connection refused" eq_refl).
Defined.

(** ** The months *)

(** X10. [CreatedSince] sends no request and returns the months of 30
    days since the creation, from the age in hours as [Duration.Hours]
    gives it, a [float64], rounded to the nearest month, halves away from
    zero: 14 days are no month and 15 days are one, 194 days are 6 months
    and 195 days are 7.  So are 195 days less one nanosecond, an age below
    six months and a half: [Duration.Hours] rounds it to 4680 hours. *)
Theorem months_of_30_days gh ghr :
  CreatedSince gh ghr = ([], Ret (ghr, months_since gh (CreatedAt (R_ ghr)))) /\
  months_since (github_when (days 14)) 0 = 0 /\
  months_since (github_when (days 15)) 0 = 1 /\
  months_since (github_when (days 194)) 0 = 6 /\
  months_since (github_when (days 195)) 0 = 7 /\
  days 195 - 1 < days 195 /\
  Time.Hours (days 195 - 1) = 4680%float /\
  months_since (github_when (days 195 - 1)) 0 = 7 /\
  CreatedSince (github_when (days 195 - 1)) sample_ghr
  = ([], Ret (sample_ghr, 7)).
Proof.
  split; [reflexivity|].
  repeat split; vm_compute; reflexivity.
Qed.

(** ** The organisations of the contributors *)

Section OrgCount.
Context `{Platform}.
Variable gh : GitHub.

Lemma ContributorOrgs_users_size contributors orgs log orgs' :
  ContributorOrgs_users gh contributors orgs = (log, Ret orgs') ->
  (size orgs' <= size orgs + List.length contributors)%nat /\
  log = map (fun c => CallGetByID (GetID c)) contributors.
Proof.
  revert orgs log.
  induction contributors as [|c rest IH]; intros orgs log.
  - cbn [ContributorOrgs_users]. rewrite M_ret_eq. intros [= <- <-].
    cbn [List.length map]. split; [lia|reflexivity].
  - cbn [ContributorOrgs_users]. rewrite M_bind_request.
    assert (Hadd : forall x : string, (size ({[x]} ∪ orgs) <= S (size orgs))%nat).
    { intros x. rewrite size_union_alt, size_singleton.
      assert (Hsub : orgs ∖ {[x]} ⊆ orgs) by (apply subseteq_difference_l; done).
      apply subseteq_size in Hsub. lia. }
    destruct (GetByID gh (GetID c)) as [user resp|resp err].
    + cbn zeta. destruct (String.eqb (Company user) EmptyString).
      * destruct (ContributorOrgs_users gh rest orgs) as [log' r] eqn:Hrest.
        cbn [fst snd]. intros [= <- ->].
        destruct (IH _ _ Hrest) as [Hsize ->].
        cbn [List.length map]. split; [lia|reflexivity].
      * destruct (ContributorOrgs_users gh rest _) as [log' r] eqn:Hrest.
        cbn [fst snd]. intros [= <- ->].
        destruct (IH _ _ Hrest) as [Hsize ->].
        specialize (Hadd (filterOrgName (Company user))).
        cbn [List.length map]. split; [lia|reflexivity].
    + destruct (ContributorOrgs_users gh rest orgs) as [log' r] eqn:Hrest.
      cbn [fst snd]. intros [= <- ->].
      destruct (IH _ _ Hrest) as [Hsize ->].
      cbn [List.length map]. split; [lia|reflexivity].
Qed.

Lemma size_placeholder_orgs : size placeholder_orgs = 10%nat.
Proof. reflexivity. Qed.

Lemma ContributorOrgs_users_companies contributors : forall orgs,
  ContributorOrgs_users gh contributors orgs
  = (map (fun c => CallGetByID (GetID c)) contributors,
     Ret (list_to_set (omap (company_of gh) contributors) ∪ orgs)).
Proof.
  induction contributors as [|c rest IH]; intros orgs.
  - cbn [ContributorOrgs_users omap map list_to_set]. rewrite M_ret_eq.
    do 2 f_equal. symmetry. apply (left_id_L (∅ : gset string) (∪)).
  - cbn [ContributorOrgs_users map]. rewrite M_bind_request.
    change (omap (company_of gh) (c :: rest))
      with (match company_of gh c with
            | Some y => y :: omap (company_of gh) rest
            | None => omap (company_of gh) rest
            end).
    unfold company_of at 1.
    destruct (GetByID gh (GetID c)) as [user resp|resp err].
    + cbn zeta. destruct (String.eqb (Company user) EmptyString).
      * rewrite IH. reflexivity.
      * rewrite IH. cbn [fst snd list_to_set]. do 2 f_equal.
        rewrite (assoc_L (∪) (list_to_set _) {[_]} orgs). f_equal.
        apply (comm_L (∪)).
    + rewrite IH. reflexivity.
Qed.

(** The outcomes of [ContributorOrgs], from that of the listing. *)
Lemma ContributorOrgs_outcomes fuel ghr log g orgs :
  ContributorOrgs gh fuel ghr = (log, Ret (g, orgs)) ->
  (size orgs <= TopContributorCount)%nat /\
  exists l1 fetched,
    ContributorOrgs_fetch gh fuel 0 nil_slice = (l1, Ret fetched) /\
    match fetched with
    | inl err => g = set_Error ghr err /\ orgs = ∅ /\ log = l1
    | inr all =>
        g = ghr /\
        if (5000 <? len all)%nat
        then orgs = placeholder_orgs /\ size orgs = 10%nat /\ log = l1
        else
          let top :=
            take TopContributorCount
                 (elems all ++ replicate (cap all - len all) None)%list in
          List.length top = TopContributorCount /\
          log = (l1 ++ map (fun c => CallGetByID (GetID c)) top)%list /\
          orgs = list_to_set (omap (company_of gh) top)
    end.
Proof.
  unfold ContributorOrgs. intros Hrun.
  apply M_bind_Ret in Hrun as (l1 & fetched & l2 & Hfetch & Hrest & ->).
  destruct fetched as [err|all].
  - rewrite M_ret_eq in Hrest. injection Hrest as <- <- <-.
    rewrite size_empty. split; [unfold TopContributorCount; lia|].
    exists l1, (inl err). split; [exact Hfetch|].
    now rewrite app_nil_r.
  - destruct (5000 <? len all)%nat eqn:Hbig.
    + rewrite M_ret_eq in Hrest. injection Hrest as <- <- <-.
      rewrite size_placeholder_orgs.
      split; [unfold TopContributorCount; lia|].
      exists l1, (inr all). split; [exact Hfetch|]. rewrite Hbig.
      now rewrite app_nil_r.
    + apply M_bind_Ret in Hrest as (l3 & top & l4 & Htop & Hrest & ->).
      apply M_bind_Ret in Hrest as (l5 & orgs' & l6 & Husers & Hrest & ->).
      rewrite M_ret_eq in Hrest. injection Hrest as <- <- <-.
      unfold lift in Htop. injection Htop as <- Htop.
      unfold reslice in Htop.
      destruct (Nat.leb_spec TopContributorCount (cap all)) as [Hcap|]; [|discriminate].
      injection Htop as <-.
      destruct (ContributorOrgs_users_size _ _ _ _ Husers) as [Hsize _].
      rewrite ContributorOrgs_users_companies in Husers.
      injection Husers as <- <-.
      rewrite size_empty in Hsize.
      assert (Hlen : List.length
                       (take TopContributorCount
                             (elems all ++ replicate (cap all - len all) None)%list)
                     = TopContributorCount).
      { rewrite length_take, length_app, length_replicate. unfold len. lia. }
      rewrite Hlen in Hsize. split; [exact Hsize|].
      exists l1, (inr all). split; [exact Hfetch|]. rewrite Hbig.
      split; [reflexivity|]. split; [exact Hlen|].
      split; [now rewrite app_nil_r|]. apply (right_id_L (∅ : gset string) (∪)).
Qed.

(** X11. [ContributorOrgs] never returns more than 15 organisations.  When
    the listing of the contributors fails, it returns none, the error in
    its own copy of the receiver.  Otherwise the receiver is unchanged:
    for more than 5000 listed contributors the result is the ten place
    holders; else the first 15 entries of the listed slice (its spare
    capacity counting as [nil] entries) are looked up once each, in their
    order and after the requests of the listing, and the result is the
    set of the normalised, non-empty companies of the users found. *)
Theorem ContributorOrgs_at_most_15 fuel ghr log g orgs :
  ContributorOrgs gh fuel ghr = (log, Ret (g, orgs)) ->
  (size orgs <= TopContributorCount)%nat /\
  exists l1 fetched,
    ContributorOrgs_fetch gh fuel 0 nil_slice = (l1, Ret fetched) /\
    match fetched with
    | inl err => g = set_Error ghr err /\ orgs = ∅ /\ log = l1
    | inr all =>
        g = ghr /\
        if (5000 <? len all)%nat
        then orgs = placeholder_orgs /\ size orgs = 10%nat /\ log = l1
        else
          let top :=
            take TopContributorCount
                 (elems all ++ replicate (cap all - len all) None)%list in
          List.length top = TopContributorCount /\
          log = (l1 ++ map (fun c => CallGetByID (GetID c)) top)%list /\
          orgs = list_to_set (omap (company_of gh) top)
    end.
Proof. apply ContributorOrgs_outcomes. Qed.

End OrgCount.

Lemma ContributorOrgs_at_most_15_witness :
  @ContributorOrgs sample_platform employed_github 1 sample_ghr
  = (CallListContributors "false" 25 0
       :: map CallGetByID ([1; 2; 3] ++ replicate 12 1),
     Ret (sample_ghr, {["initech"]})) /\
  (size ({["initech"]} : gset string) <= TopContributorCount)%nat.
Proof.
  split; [vm_compute; reflexivity|].
  apply (@ContributorOrgs_at_most_15 sample_platform employed_github 1
           sample_ghr
           (CallListContributors "false" 25 0
              :: map CallGetByID ([1; 2; 3] ++ replicate 12 1))
           sample_ghr {["initech"]}).
  vm_compute. reflexivity.
Defined.

Section RunInversion.
Context `{Platform}.

(** A run that returns a score: what each provider has returned is the
    metric of the score, and the log is that of the providers in their
    order. *)
Lemma RepositoryStats_providers fuel gh ghr params log score :
  RepositoryStats fuel gh ghr params = (log, Ret (score, None)) ->
  exists l1 g1 l2 g2 l3 g3 l4 g4 orgs l5 g5 l6 g6 l7 g7 l8 g8 l9 g9 l10 g10,
    CreatedSince gh ghr = (l1, Ret (g1, Score.CreatedSince score)) /\
    UpdatedSince gh ghr = (l2, Ret (g2, Score.UpdatedSince score)) /\
    Contributors gh ghr = (l3, Ret (g3, Score.ContributorCount score)) /\
    ContributorOrgs gh fuel ghr = (l4, Ret (g4, orgs)) /\
    Score.OrgCount score = Z.of_nat (size orgs) /\
    CommitFrequency gh ghr = (l5, Ret (g5, Score.CommitFrequency score)) /\
    RecentReleases gh fuel ghr = (l6, Ret (g6, Score.RecentReleasesCount score)) /\
    ClosedIssues gh ghr = (l7, Ret (g7, Score.ClosedIssuesCount score)) /\
    UpdatedIssues gh ghr = (l8, Ret (g8, Score.UpdatedIssuesCount score)) /\
    CommentFrequency gh ghr (Score.UpdatedIssuesCount score)
    = (l9, Ret (g9, Score.CommentFrequency score)) /\
    Dependents gh ghr = (l10, Ret (g10, Score.DependentsCount score)) /\
    log = (l1 ++ l2 ++ l3 ++ l4 ++ l5 ++ l6 ++ l7 ++ l8 ++ l9 ++ l10)%list /\
    Score.Name score = Name_ (R_ ghr) /\
    Score.URL score = HTMLURL (R_ ghr) /\
    Score.Language score = Language_ (R_ ghr) /\
    Score.ScoredOn score = Format_UnixDate (Now gh).
Proof.
  unfold RepositoryStats.
  destruct (parseAdditionalParams params) as [additionalParams [err|]];
    [discriminate|].
  destruct (additional_totals additionalParams) as [tw sc].
  intros Hrun.
  apply M_bind_Ret in Hrun as (l1 & [g1 v1] & r1 & E1 & Hrun & ->).
  apply M_bind_Ret in Hrun as (l2 & [g2 v2] & r2 & E2 & Hrun & ->).
  apply M_bind_Ret in Hrun as (l3 & [g3 v3] & r3 & E3 & Hrun & ->).
  apply M_bind_Ret in Hrun as (l4 & [g4 orgs] & r4 & E4 & Hrun & ->).
  apply M_bind_Ret in Hrun as (l5 & [g5 v5] & r5 & E5 & Hrun & ->).
  apply M_bind_Ret in Hrun as (l6 & [g6 v6] & r6 & E6 & Hrun & ->).
  apply M_bind_Ret in Hrun as (l7 & [g7 v7] & r7 & E7 & Hrun & ->).
  apply M_bind_Ret in Hrun as (l8 & [g8 v8] & r8 & E8 & Hrun & ->).
  apply M_bind_Ret in Hrun as (l9 & [g9 v9] & r9 & E9 & Hrun & ->).
  apply M_bind_Ret in Hrun as (l10 & [g10 v10] & r10 & E10 & Hrun & ->).
  destruct (Error ghr) as [err|]; [discriminate|].
  rewrite M_ret_eq in Hrun. injection Hrun as <- <-.
  exists l1, g1, l2, g2, l3, g3, l4, g4, orgs, l5, g5, l6, g6, l7, g7, l8, g8,
    l9, g9, l10, g10.
  cbn [Score.CreatedSince Score.UpdatedSince Score.ContributorCount
       Score.OrgCount Score.CommitFrequency Score.RecentReleasesCount
       Score.ClosedIssuesCount Score.UpdatedIssuesCount Score.CommentFrequency
       Score.DependentsCount Score.Name Score.URL Score.Language Score.ScoredOn].
  rewrite app_nil_r. repeat split; assumption || reflexivity.
Qed.

(** X12. In every score that [RepositoryStats] returns the organisation
    count lies between 0 and 15, the name, URL and language are those of
    the repository and the date is that of the clock. *)
Theorem returned_score_identity fuel gh ghr params log score :
  RepositoryStats fuel gh ghr params = (log, Ret (score, None)) ->
  0 <= Score.OrgCount score <= 15 /\
  Score.Name score = Name_ (R_ ghr) /\
  Score.URL score = HTMLURL (R_ ghr) /\
  Score.Language score = Language_ (R_ ghr) /\
  Score.ScoredOn score = Format_UnixDate (Now gh).
Proof.
  intros Hrun.
  destruct (RepositoryStats_providers _ _ _ _ _ _ Hrun)
    as (l1 & g1 & l2 & g2 & l3 & g3 & l4 & g4 & orgs & l5 & g5 & l6 & g6 & l7 & g7
        & l8 & g8 & l9 & g9 & l10 & g10 & _ & _ & _ & E4 & Horg & _ & _ & _ & _
        & _ & _ & _ & Hname & Hurl & Hlang & Hdate).
  destruct (ContributorOrgs_outcomes _ _ _ _ _ _ E4) as [Hsize _].
  unfold TopContributorCount in Hsize. rewrite Horg.
  repeat split; try assumption; lia.
Qed.

End RunInversion.

Lemma returned_score_identity_witness :
  exists score,
    0 <= Score.OrgCount score <= 15 /\
    Score.Name score = "criticalityscore" /\
    Score.URL score = "https://github.com/engelsjk/criticalityscore" /\
    Score.Language score = "Go" /\
    Score.ScoredOn score = EmptyString.
Proof.
  destruct sample_run as [log Hrun].
  eexists.
  exact (@returned_score_identity sample_platform 1 sample_github sample_ghr
           [] log _ Hrun).
Defined.

(** ** The releases *)

Section Releases.
Context `{Platform}.
Variable gh : GitHub.

Lemma RecentReleases_fetch_pages pages :
  forall fuel page allReleases,
    release_pages gh page pages ->
    (List.length pages <= fuel)%nat ->
    RecentReleases_fetch gh fuel page allReleases
    = (page_requests page pages,
       Ret (inr (allReleases ++ List.concat (map fst pages))%list)).
Proof.
  induction pages as [|[releases resp] rest IH]; intros fuel page allReleases Hpages Hfuel.
  - destruct Hpages.
  - destruct fuel as [|fuel]; [cbn in Hfuel; lia|].
    destruct Hpages as [Hpage Hrest].
    cbn [RecentReleases_fetch page_requests map List.concat fst].
    rewrite M_bind_request, Hpage.
    destruct rest as [|next rest].
    + rewrite Hrest. change (0 =? 0) with true. cbv iota.
      rewrite M_ret_eq. cbn [fst snd List.concat]. now rewrite app_nil_r.
    + destruct Hrest as [Hnext Hrest].
      rewrite (proj2 (Z.eqb_neq _ _) Hnext).
      rewrite (IH fuel (NextPage resp) (allReleases ++ releases)%list Hrest)
        by (cbn in Hfuel |- *; lia).
      cbn [fst snd]. now rewrite <- app_assoc.
Qed.

Lemma count_recent_from (releases : list RepositoryRelease) (acc : Z) :
  0 <= acc -> acc + Z.of_nat (List.length releases) <= max_int64 ->
  acc
  <= fold_left (fun total release =>
                  if release_too_old gh release then total else wrap64 (total + 1))
               releases acc
  <= acc + Z.of_nat (List.length releases).
Proof.
  revert acc. induction releases as [|r rs IH]; intros acc Hacc Hmax.
  - cbn. lia.
  - cbn [fold_left List.length] in *.
    destruct (release_too_old gh r).
    + specialize (IH acc Hacc ltac:(lia)). lia.
    + rewrite wrap64_id by (unfold min_int64; lia).
      specialize (IH (acc + 1) ltac:(lia) ltac:(lia)). lia.
Qed.

(** X13. [RecentReleases] follows the links to the next page until a
    response names none, with one request a page, and counts over the
    releases of all the pages in their order.  The count lies between 0
    and the number of releases; when it is not 0 it is the result, and
    no request for the tags is sent. *)
Theorem RecentReleases_all_pages ghr fuel pages :
  release_pages gh 0 pages ->
  (List.length pages <= fuel)%nat ->
  Z.of_nat (List.length (List.concat (map fst pages))) <= max_int64 ->
  RecentReleases_fetch gh fuel 0 []
  = (page_requests 0 pages, Ret (inr (List.concat (map fst pages)))) /\
  0 <= count_recent gh (List.concat (map fst pages))
    <= Z.of_nat (List.length (List.concat (map fst pages))) /\
  (count_recent gh (List.concat (map fst pages)) <> 0 ->
   RecentReleases gh fuel ghr
   = (page_requests 0 pages, Ret (ghr, count_recent gh (List.concat (map fst pages))))).
Proof.
  intros Hpages Hfuel Hmax.
  pose proof (RecentReleases_fetch_pages pages fuel 0 [] Hpages Hfuel) as Hfetch.
  rewrite app_nil_l in Hfetch.
  split; [exact Hfetch|]. split.
  - apply (count_recent_from _ 0); lia.
  - intros Hcount. unfold RecentReleases. rewrite Hfetch, M_bind_eq.
    rewrite (proj2 (Z.eqb_neq _ _) Hcount), M_ret_eq. cbn [fst snd].
    now rewrite app_nil_r.
Qed.

End Releases.

Lemma fresh_release_counts : release_too_old released_github fresh_release = false.
Proof. vm_compute. reflexivity. Qed.

Lemma RecentReleases_all_pages_witness :
  @RecentReleases sample_platform released_github 2 sample_ghr
  = ([CallListReleases 100 0; CallListReleases 100 2], Ret (sample_ghr, 2)).
Proof.
  assert (Hcount : count_recent released_github [fresh_release; fresh_release] = 2).
  { unfold count_recent. cbn [fold_left]. now rewrite fresh_release_counts. }
  destruct (@RecentReleases_all_pages sample_platform released_github sample_ghr 2
              [([fresh_release], next_page_response);
               ([fresh_release], plain_response)])
    as (_ & _ & Hrun).
  - cbn. repeat split; discriminate || reflexivity.
  - cbn. lia.
  - vm_compute. discriminate.
  - cbn [map fst List.concat app] in Hrun. rewrite Hcount in Hrun.
    apply Hrun. discriminate.
Defined.

(** ** The dependents *)

Lemma lookup_comma_ne (c : ascii) (s : string) :
  Ascii.eqb c "," = false ->
  Strings.lookup_pair [(",", "")] (String c s) = None.
Proof.
  intros Hc. cbn [Strings.lookup_pair].
  rewrite (prefix_head_ne "," c EmptyString s Hc). reflexivity.
Qed.

Lemma lookup_comma (s : string) :
  Strings.lookup_pair [(",", "")] (String "," s) = Some (EmptyString, 1%nat).
Proof. destruct s; reflexivity. Qed.

Lemma replace_commas_app (a rest : string) :
  Strings.contains_char a "," = false ->
  Strings.replace_from [(",", "")] 0 (a ++ rest)
  = a ++ Strings.replace_from [(",", "")] 0 rest.
Proof.
  induction a as [|c a IH]; [reflexivity|].
  cbn [Strings.contains_char]. intros Ha.
  apply orb_false_elim in Ha as [Hc Ha]. rewrite Ascii.eqb_sym in Hc.
  rewrite !string_app_cons. cbn [Strings.replace_from].
  rewrite (lookup_comma_ne c _ Hc). now rewrite (IH Ha).
Qed.

Lemma replace_commas_comma (rest : string) :
  Strings.replace_from [(",", "")] 0 (String "," rest)
  = Strings.replace_from [(",", "")] 0 rest.
Proof.
  cbn [Strings.replace_from]. rewrite lookup_comma.
  now rewrite string_app_nil.
Qed.

(** Taking the commas off a numeral written in groups of digits. *)
Lemma replace_commas_groups (chunks : list string) :
  Forall (fun chunk => Strconv.all_digits chunk = true) chunks ->
  Strings.Replace [(",", "")] (String.concat "," chunks)
  = String.concat EmptyString chunks.
Proof.
  unfold Strings.Replace. induction 1 as [|chunk rest Hchunk Hrest IH];
    [reflexivity|].
  pose proof (digits_avoid chunk "," Hchunk eq_refl) as Havoid.
  destruct rest as [|next rest].
  - cbn [String.concat]. rewrite <- (string_app_empty_r chunk) at 1.
    rewrite replace_commas_app by assumption.
    cbn [Strings.replace_from]. now rewrite string_app_empty_r.
  - change (String.concat "," (chunk :: next :: rest))
      with (chunk ++ String "," (String.concat "," (next :: rest))).
    change (String.concat "" (chunk :: next :: rest))
      with (chunk ++ "" ++ String.concat "" (next :: rest)).
    rewrite replace_commas_app by assumption.
    rewrite replace_commas_comma, IH. now rewrite string_app_nil.
Qed.

Lemma all_digits_app (a b : string) :
  Strconv.all_digits a = true -> Strconv.all_digits b = true ->
  Strconv.all_digits (a ++ b) = true.
Proof.
  induction a as [|c a IH]; [auto|].
  cbn [Strconv.all_digits]. intros Ha Hb. apply andb_prop in Ha as [Hc Ha].
  rewrite string_app_cons. cbn [Strconv.all_digits]. now rewrite Hc, IH.
Qed.

Lemma all_digits_concat (chunks : list string) :
  Forall (fun chunk => Strconv.all_digits chunk = true) chunks ->
  Strconv.all_digits (String.concat EmptyString chunks) = true.
Proof.
  induction 1 as [|chunk rest Hchunk Hrest IH]; [reflexivity|].
  destruct rest as [|next rest]; [exact Hchunk|].
  change (String.concat "" (chunk :: next :: rest))
    with (chunk ++ "" ++ String.concat "" (next :: rest)).
  rewrite string_app_nil. now apply all_digits_app.
Qed.

Lemma digit_not_space (d : ascii) :
  Strconv.is_digit d = true -> Strings.is_space d = false.
Proof.
  intros Hd.
  destruct (digit_cases d Hd) as [->|[->|[->|[->|[->|[->|[->|[->|[->| ->]]]]]]]]];
    reflexivity.
Qed.

Lemma TrimRightSpace_digits (s : string) :
  Strconv.all_digits s = true -> Strings.TrimRightSpace s = s.
Proof.
  induction s as [|d s IH]; [reflexivity|].
  cbn [Strconv.all_digits Strings.TrimRightSpace]. intros Hs.
  apply andb_prop in Hs as [Hd Hs].
  rewrite (IH Hs), (digit_not_space d Hd), andb_false_r. reflexivity.
Qed.

Lemma TrimSpace_digits (s : string) :
  Strconv.all_digits s = true -> Strings.TrimSpace s = s.
Proof.
  intros Hs. unfold Strings.TrimSpace.
  destruct s as [|d s]; [reflexivity|].
  cbn [Strings.TrimLeftSpace].
  cbn [Strconv.all_digits] in Hs. pose proof Hs as Hs'.
  apply andb_prop in Hs' as [Hd _].
  rewrite (digit_not_space d Hd).
  now apply TrimRightSpace_digits.
Qed.

Lemma Atoi_digits_value (s : string) :
  Strconv.all_digits s = true ->
  Strconv.digits_value 0 s <= max_int64 ->
  (Strconv.Atoi s).1 = Strconv.digits_value 0 s.
Proof.
  intros Hs Hmax. destruct s as [|d s]; [reflexivity|].
  now rewrite Atoi_digits.
Qed.

Section DependentsFacts.
Context `{Platform}.
Variable gh : GitHub.

Lemma Dependents_fetch_Ret attempts content :
  exists log content',
    Dependents_fetch gh attempts content = (log, Ret content') /\
    (List.length log <= List.length attempts)%nat /\
    (attempts <> [] -> (1 <= List.length log)%nat).
Proof.
  revert content. induction attempts as [|i rest IH]; intros content.
  - cbn [Dependents_fetch]. rewrite M_ret_eq.
    exists [], content. cbn. repeat split; [lia|congruence].
  - cbn [Dependents_fetch]. rewrite M_bind_request.
    assert (Hrec : forall c,
               exists log content',
                 (CallHttpGet i :: (Dependents_fetch gh rest c).1,
                  (Dependents_fetch gh rest c).2) = (log, Ret content') /\
                 (List.length log <= List.length (i :: rest))%nat /\
                 (i :: rest <> [] -> (1 <= List.length log)%nat)).
    { intros c. destruct (IH c) as (log & content' & -> & Hlen & _).
      exists (CallHttpGet i :: log), content'. cbn. repeat split; lia. }
    destruct (http_Get gh i) as [|status body readFails]; [apply Hrec|].
    destruct (status =? 200); [|apply Hrec].
    destruct readFails; [apply Hrec|].
    rewrite M_ret_eq. exists [CallHttpGet i], body. cbn.
    repeat split; lia.
Qed.

Lemma Dependents_fetch_unserved attempts : forall content,
  Forall (fun j => served gh j = None) attempts ->
  exists content',
    Dependents_fetch gh attempts content
    = (map CallHttpGet attempts, Ret content').
Proof.
  induction attempts as [|j rest IH]; intros content Hnone.
  - exists content. cbn [Dependents_fetch map]. now rewrite M_ret_eq.
  - apply Forall_cons in Hnone as [Hj Hrest].
    cbn [Dependents_fetch map]. rewrite M_bind_request.
    unfold served in Hj.
    destruct (http_Get gh j) as [|status body readFails].
    + destruct (IH content Hrest) as (content' & ->). now exists content'.
    + destruct (status =? 200).
      * destruct readFails; [|discriminate].
        destruct (IH body Hrest) as (content' & ->). now exists content'.
      * destruct (IH content Hrest) as (content' & ->). now exists content'.
Qed.

Lemma Dependents_fetch_served pre i post body : forall content,
  Forall (fun j => served gh j = None) pre ->
  served gh i = Some body ->
  Dependents_fetch gh (pre ++ i :: post) content
  = (map CallHttpGet (pre ++ [i]), Ret body).
Proof.
  induction pre as [|j pre IH]; intros content Hnone Hi.
  - cbn [app Dependents_fetch map]. rewrite M_bind_request.
    unfold served in Hi.
    destruct (http_Get gh i) as [|status body' readFails]; [discriminate|].
    destruct readFails; [discriminate|].
    destruct (status =? 200); [|discriminate].
    injection Hi as ->. now rewrite M_ret_eq.
  - apply Forall_cons in Hnone as [Hj Hpre].
    cbn [app Dependents_fetch map]. rewrite M_bind_request.
    unfold served in Hj.
    destruct (http_Get gh j) as [|status body' readFails].
    + now rewrite (IH content Hpre Hi).
    + destruct (status =? 200).
      * destruct readFails; [|discriminate]. now rewrite (IH body' Hpre Hi).
      * now rewrite (IH content Hpre Hi).
Qed.

(** X14. [Dependents] is a best effort.  Whenever a match of the regular
    expression carries its group, the method returns without an error,
    after one to three GET requests.  The requests stop at the first
    attempt, whichever of the three it is, whose page is served with
    status 200 and read, and that page is the content searched; when no
    attempt is served so, all three requests are sent.  Without a match
    the count is 0; and a count written in groups of digits between
    commas, as 407,344 is, is the number without the commas. *)
Theorem Dependents_best_effort ghr :
  (forall content, List.length (DependentsRegex_FindSubmatch content) <> 1%nat) ->
  exists log content n,
    Dependents_fetch gh [1; 2; 3]%nat EmptyString = (log, Ret content) /\
    Dependents gh ghr = (log, Ret (ghr, n)) /\
    (1 <= List.length log <= 3)%nat /\
    (forall pre i post body,
        [1; 2; 3]%nat = (pre ++ i :: post)%list ->
        Forall (fun j => served gh j = None) pre ->
        served gh i = Some body ->
        log = map CallHttpGet (pre ++ [i]) /\ content = body) /\
    (Forall (fun j => served gh j = None) [1; 2; 3]%nat ->
     log = [CallHttpGet 1; CallHttpGet 2; CallHttpGet 3]) /\
    (DependentsRegex_FindSubmatch content = [] -> n = 0) /\
    (forall whole chunks more,
        DependentsRegex_FindSubmatch content
        = whole :: String.concat "," chunks :: more ->
        Forall (fun chunk => Strconv.all_digits chunk = true) chunks ->
        Strconv.digits_value 0 (String.concat EmptyString chunks) <= max_int64 ->
        n = Strconv.digits_value 0 (String.concat EmptyString chunks)).
Proof.
  intros Hgroup.
  destruct (Dependents_fetch_Ret [1; 2; 3]%nat EmptyString)
    as (log & content & Hfetch & Hle & Hge).
  assert (Hrun : exists n,
             Dependents gh ghr = (log, Ret (ghr, n)) /\
             match DependentsRegex_FindSubmatch content with
             | [] => n = 0
             | [_] => False
             | _ :: group :: _ =>
                 n = (Strconv.Atoi
                        (Strings.TrimSpace (Strings.Replace [(",", "")] group))).1
             end).
  { unfold Dependents. rewrite Hfetch, M_bind_eq.
    specialize (Hgroup content).
    destruct (DependentsRegex_FindSubmatch content) as [|whole [|group more]].
    - rewrite M_ret_eq. cbn [fst snd]. rewrite app_nil_r. eauto.
    - now contradiction Hgroup.
    - rewrite M_ret_eq. cbn [fst snd]. rewrite app_nil_r. eauto. }
  destruct Hrun as (n & Hrun & Hn).
  exists log, content, n.
  split; [exact Hfetch|]. split; [exact Hrun|].
  split; [split; [apply Hge; discriminate|exact Hle]|].
  split; [|split; [|split]].
  - intros pre i post body Hsplit Hpre Hi.
    rewrite Hsplit, (Dependents_fetch_served pre i post body _ Hpre Hi) in Hfetch.
    now injection Hfetch as <- <-.
  - intros Hnone.
    destruct (Dependents_fetch_unserved _ EmptyString Hnone) as (content' & Hall).
    rewrite Hall in Hfetch. now injection Hfetch as <- _.
  - intros Hnone. now rewrite Hnone in Hn.
  - intros whole chunks more Hmatch Hchunks Hmax. rewrite Hmatch in Hn.
    rewrite Hn, (replace_commas_groups chunks Hchunks).
    pose proof (all_digits_concat chunks Hchunks) as Hdigits.
    rewrite (TrimSpace_digits _ Hdigits).
    now apply Atoi_digits_value.
Qed.

End DependentsFacts.

Lemma Dependents_best_effort_witness :
  served searched_github 1 = None /\
  served searched_github 2 = Some search_page /\
  @Dependents search_platform searched_github sample_ghr
  = ([CallHttpGet 1; CallHttpGet 2], Ret (sample_ghr, 407344)).
Proof.
  split; [reflexivity|]. split; [reflexivity|].
  destruct (@Dependents_best_effort search_platform searched_github sample_ghr)
    as (log & content & n & _ & Hrun & _ & Hserved & _ & _ & Hcount).
  - intros content. cbn.
    destruct (String.eqb content search_page); discriminate.
  - destruct (Hserved [1%nat] 2%nat [3%nat] search_page) as [-> ->].
    + reflexivity.
    + repeat constructor.
    + reflexivity.
    + rewrite Hrun. do 3 f_equal.
      apply (Hcount "<h3>407,344 commit results" ["407"; "344"] []).
      * reflexivity.
      * repeat constructor.
      * vm_compute. discriminate.
Defined.

(** ** [parseRepoURL] *)

Lemma Split_first (c0 : ascii) (sep a rest : string) :
  Strings.contains_char a c0 = false ->
  rest = EmptyString \/ (exists r, rest = String c0 sep ++ r) ->
  exists tail, Strings.split_from (String c0 sep) 0 EmptyString (a ++ rest) = a :: tail.
Proof.
  intros Ha [->|[r ->]].
  - rewrite split_from_avoid by assumption. rewrite string_app_nil. eauto.
  - rewrite split_from_avoid by assumption. rewrite split_from_sep.
    rewrite string_app_nil. eauto.
Qed.

Lemma Split_owner_name (owner name rest : string) :
  Strings.contains_char owner "/" = false ->
  Strings.contains_char name "/" = false ->
  rest = EmptyString \/ (exists r, rest = "/" ++ r) ->
  exists tail,
    Strings.Split ("/" ++ owner ++ "/" ++ name ++ rest) "/"
    = EmptyString :: owner :: name :: tail.
Proof.
  intros Howner Hname Hrest. unfold Strings.Split.
  change ("/" ++ owner ++ "/" ++ name ++ rest)
    with (String "/" EmptyString ++ owner ++ String "/" EmptyString ++ name ++ rest).
  rewrite split_from_sep.
  destruct (Split_first "/" EmptyString name rest Hname Hrest) as [tail Htail].
  assert (Hinner :
    Strings.split_from "/" 0 EmptyString (owner ++ "/" ++ name ++ rest)
    = owner :: name :: tail).
  { rewrite split_from_avoid by assumption. rewrite string_app_nil.
    change ("/" ++ name ++ rest) with (String "/" EmptyString ++ name ++ rest).
    rewrite split_from_sep. f_equal.
    destruct (name ++ rest) eqn:E; [|exact Htail].
    rewrite <- Htail. reflexivity. }
  exists tail. f_equal.
  destruct (owner ++ "/" ++ name ++ rest) eqn:E; [|exact Hinner].
  rewrite <- Hinner. reflexivity.
Qed.

Section RepoURL.
Context `{Platform} `{UrlParser}.

(** X15. [parseRepoURL] reads the owner and the name from the path of a
    URL on the host github.com.  The URL is parsed as it is when it holds
    "://", behind "https://" otherwise.  A URL that does not parse or has
    another host gives two empty strings, as does a path with fewer than
    two segments; the first two segments of a longer path are the owner
    and the name, and what follows them in the path is ignored. *)
Theorem parseRepoURL_owner_name (s : string) :
  let url := if Contains s "://" then s else "https://" ++ s in
  (url_rejects url = true \/ url_Host url <> "github.com" ->
   parseRepoURL s = (EmptyString, EmptyString)) /\
  (url_rejects url = false -> url_Host url = "github.com" ->
   (forall owner name rest,
       Strings.contains_char owner "/" = false ->
       Strings.contains_char name "/" = false ->
       rest = EmptyString \/ (exists r, rest = "/" ++ r) ->
       url_Path url = "/" ++ owner ++ "/" ++ name ++ rest ->
       parseRepoURL s = (owner, name)) /\
   (forall owner,
       Strings.contains_char owner "/" = false ->
       url_Path url = owner \/ url_Path url = "/" ++ owner ->
       parseRepoURL s = (EmptyString, EmptyString))).
Proof.
  intros url. unfold parseRepoURL. fold url. split.
  - intros [Hrej|Hhost]; [now rewrite Hrej|].
    destruct (url_rejects url); [reflexivity|].
    destruct (String.eqb_spec (url_Host url) "github.com"); [contradiction|reflexivity].
  - intros Hok Hhost. rewrite Hok, Hhost. cbn [String.eqb negb].
    change (String.eqb "github.com" "github.com") with true. cbn [negb].
    split.
    + intros owner name rest Howner Hname Hrest Hpath. rewrite Hpath.
      destruct (Split_owner_name owner name rest Howner Hname Hrest) as [tail ->].
      reflexivity.
    + intros owner Howner [Hpath|Hpath]; rewrite Hpath.
      * now rewrite (Split_avoid "/" EmptyString owner Howner).
      * unfold Strings.Split.
        change ("/" ++ owner) with (String "/" EmptyString ++ owner).
        rewrite split_from_sep.
        destruct owner as [|c owner]; [reflexivity|].
        change (Strings.split_from "/" 0 EmptyString (String c owner))
          with (Strings.Split (String c owner) "/").
        now rewrite (Split_avoid "/" EmptyString _ Howner).
Qed.

End RepoURL.

Lemma parseRepoURL_owner_name_witness :
  @parseRepoURL sample_platform sample_url_parser
    "github.com/engelsjk/criticalityscore/tree/master"
  = ("engelsjk", "criticalityscore").
Proof.
  apply (proj1 (proj2 (@parseRepoURL_owner_name sample_platform sample_url_parser
                         "github.com/engelsjk/criticalityscore/tree/master")
                      eq_refl eq_refl)
           "engelsjk" "criticalityscore" "/tree/master").
  - reflexivity.
  - reflexivity.
  - right. now exists "tree/master".
  - reflexivity.
Defined.

(** ** The rate limit and the loading of a repository *)

(** X16. [pauseIfGitHubRateLimitExceeded] panics when the rate limit
    cannot be read and does not sleep while 50 requests or more remain.
    With fewer it logs the time [d] to the reset and sleeps for [d]
    multiplied by [time.Second], a product of 64-bit integers that wraps
    around: it is [d * 10^9] nanoseconds only when that lies in the range
    of a duration, which is so up to some 9.2 seconds.  A reset one
    second ahead gives a sleep of 10^18 nanoseconds, about 31.7 years; a
    reset ten seconds ahead gives a negative duration, with which
    [time.Sleep] returns at once. *)
Theorem pause_multiplies_by_a_second (client : Client) :
  (forall resp err,
      RateLimits client = ApiErr resp err ->
      pauseIfGitHubRateLimitExceeded client = ([AskedRateLimits], Panic)) /\
  (forall rate resp,
      RateLimits client = ApiOK rate resp -> 50 <= Remaining rate ->
      pauseIfGitHubRateLimitExceeded client = ([AskedRateLimits], Ret tt)) /\
  (forall rate resp,
      RateLimits client = ApiOK rate resp -> Remaining rate < 50 ->
      let d := Time.Sub (Reset rate) (client_Now client) in
      pauseIfGitHubRateLimitExceeded client
      = ([AskedRateLimits; LoggedRateLimit d;
          Slept (wrap64 (d * 1000000000))], Ret tt) /\
      (min_int64 <= Reset rate - client_Now client <= max_int64 ->
       d = Reset rate - client_Now client) /\
      (min_int64 <= d * 1000000000 <= max_int64 ->
       wrap64 (d * 1000000000) = d * 1000000000) /\
      (d = 1000000000 -> wrap64 (d * 1000000000) = 1000000000000000000) /\
      (d = 10000000000 -> wrap64 (d * 1000000000) = -8446744073709551616)).
Proof.
  unfold pauseIfGitHubRateLimitExceeded. split; [|split].
  - intros resp err ->. reflexivity.
  - intros rate resp -> Hrem. now rewrite (proj2 (Z.ltb_ge _ _) Hrem).
  - intros rate resp Heq Hrem. rewrite Heq.
    rewrite (proj2 (Z.ltb_lt _ _) Hrem). cbv zeta.
    split; [reflexivity|]. split; [|split; [|split]].
    + intros [Hlo Hhi]. unfold Time.Sub.
      destruct (Z.ltb_spec (Reset rate - client_Now client) min_int64); [lia|].
      destruct (Z.ltb_spec max_int64 (Reset rate - client_Now client)); [lia|].
      reflexivity.
    + intros Hrange. now apply wrap64_id.
    + intros ->. reflexivity.
    + intros ->. reflexivity.
Qed.

Lemma pause_multiplies_by_a_second_witness :
  pauseIfGitHubRateLimitExceeded throttled_client
  = ([AskedRateLimits; LoggedRateLimit 1000000000;
      Slept 1000000000000000000], Ret tt) /\
  pauseIfGitHubRateLimitExceeded long_throttled_client
  = ([AskedRateLimits; LoggedRateLimit 10000000000;
      Slept (-8446744073709551616)], Ret tt).
Proof.
  split.
  - apply (proj2 (proj2 (pause_multiplies_by_a_second throttled_client))
             {| Remaining := 10; Reset := Time.Second |} plain_response).
    + reflexivity.
    + reflexivity.
  - apply (proj2 (proj2 (pause_multiplies_by_a_second long_throttled_client))
             {| Remaining := 10; Reset := 10 * Time.Second |} plain_response).
    + reflexivity.
    + reflexivity.
Defined.

Section Loading.
Context `{Platform} `{UrlParser}.

(** X17. [LoadRepository] asks for the rate limit first, whatever the URL
    is.  When it returns, the result is one of three: the error "invalid
    github url", without any request for a repository, exactly when
    [parseRepoURL] gives an empty owner or name; the error "repo not
    found" for every failure of the request, whatever its cause; or the
    repository that GitHub returned, in a [GitHubRepository] without an
    error. *)
Theorem LoadRepository_results client repoURL token events result :
  LoadRepository client repoURL token = (events, Ret result) ->
  In AskedRateLimits events /\
  let '(owner, name) := parseRepoURL repoURL in
  if String.eqb owner EmptyString || String.eqb name EmptyString
  then result = (None, Some ErrInvalidGitHubURL) /\
       forall o n, ~ In (AskedRepository o n) events
  else
    last events = Some (AskedRepository owner name) /\
    match Repositories_Get client owner name with
    | ApiErr _ _ => result = (None, Some ErrRepoNotFound)
    | ApiOK r _ => result = (Some {| R_ := r; Error := None |}, None)
    end.
Proof.
  unfold LoadRepository.
  assert (Hpause : In AskedRateLimits (pauseIfGitHubRateLimitExceeded client).1 /\
                   forall o n, ~ In (AskedRepository o n)
                                    (pauseIfGitHubRateLimitExceeded client).1).
  { unfold pauseIfGitHubRateLimitExceeded.
    destruct (RateLimits client) as [rate resp|resp err].
    - destruct (Remaining rate <? 50); cbn; (split; [tauto|]);
        intros o n Hin; repeat (destruct Hin as [Hin|Hin]; [discriminate|]);
        exact Hin.
    - cbn. split; [tauto|]. intros o n [Hc|Hc]; [discriminate|tauto]. }
  assert (Hprinted : forall o n,
             ~ In (AskedRepository o n)
                  (if String.eqb repoURL EmptyString
                   then [Printed ErrRepoNotProvided] else [])).
  { intros o n. destruct (String.eqb repoURL EmptyString); cbn; [|tauto].
    intros [Hc|Hc]; [discriminate|tauto]. }
  destruct (pauseIfGitHubRateLimitExceeded client) as [paused [[]| |]];
    try discriminate.
  cbn [fst] in Hpause. destruct Hpause as [Hasked Hnone].
  destruct (parseRepoURL repoURL) as [owner name].
  destruct (String.eqb owner EmptyString || String.eqb name EmptyString).
  - intros [= <- <-]. split; [apply in_or_app; auto|]. split; [reflexivity|].
    intros o n Hin. apply in_app_or in Hin as [Hin|Hin].
    + exact (Hprinted o n Hin).
    + exact (Hnone o n Hin).
  - destruct (Repositories_Get client owner name) as [r resp|resp err];
      intros [= <- <-].
    + split; [apply in_or_app; right; apply in_or_app; auto|].
      split; [|reflexivity].
      rewrite app_assoc. apply last_snoc.
    + split; [apply in_or_app; right; apply in_or_app; auto|].
      split; [|reflexivity].
      rewrite app_assoc. apply last_snoc.
Qed.

(** X18. A repository that [LoadRepository] has returned never makes
    [RepositoryStats] report the failure of a provider: the one error that
    a run on it can return is the error of the additional parameters,
    before any request. *)
Theorem loaded_repository_hides_errors client repoURL token events ghr
        fuel gh params log score err :
  LoadRepository client repoURL token = (events, Ret (Some ghr, None)) ->
  RepositoryStats fuel gh ghr params = (log, Ret (score, Some err)) ->
  log = [] /\ score = Score.empty /\
  exists e, err = ErrInvalidParamFormat ++ " : " ++ e.
Proof.
  intros Hload Hrun.
  assert (Hclean : Error ghr = None).
  { unfold LoadRepository in Hload.
    destruct (pauseIfGitHubRateLimitExceeded client) as [paused [[]| |]];
      try discriminate.
    destruct (parseRepoURL repoURL) as [owner name].
    destruct (String.eqb owner EmptyString || String.eqb name EmptyString);
      [discriminate|].
    destruct (Repositories_Get client owner name); [|discriminate].
    now injection Hload as _ <-. }
  destruct (RepositoryStats_error _ _ _ _ _ _ _ Hrun)
    as [(-> & -> & e & _ & ->)|[Herr _]].
  - eauto.
  - congruence.
Qed.

End Loading.

Lemma LoadRepository_results_witness :
  @LoadRepository sample_platform sample_url_parser sample_client
    "github.com/engelsjk/criticalityscore" EmptyString
  = ([AskedRateLimits; AskedRepository "engelsjk" "criticalityscore"],
     Ret (Some sample_ghr, None)) /\
  In AskedRateLimits [AskedRateLimits; AskedRepository "engelsjk" "criticalityscore"].
Proof.
  assert (Hload :
    @LoadRepository sample_platform sample_url_parser sample_client
      "github.com/engelsjk/criticalityscore" EmptyString
    = ([AskedRateLimits; AskedRepository "engelsjk" "criticalityscore"],
       Ret (Some sample_ghr, None))) by reflexivity.
  split; [exact Hload|].
  exact (proj1 (@LoadRepository_results sample_platform sample_url_parser _ _ _ _ _ Hload)).
Defined.

(** The repository of the sample, loaded and then scored with the
    malformed parameter "1:2". *)
Lemma loaded_repository_hides_errors_witness :
  @RepositoryStats sample_platform 1 sample_github sample_ghr ["1:2"]
  = ([], Ret (Score.empty,
              Some (ErrInvalidParamFormat ++ " : "
                    ++ "param string should have 3 values (value:weight:threshold)"))) /\
  exists e,
    ErrInvalidParamFormat ++ " : "
    ++ "param string should have 3 values (value:weight:threshold)"
    = ErrInvalidParamFormat ++ " : " ++ e.
Proof.
  split; [reflexivity|].
  apply (@loaded_repository_hides_errors sample_platform sample_url_parser
           sample_client "github.com/engelsjk/criticalityscore" EmptyString
           [AskedRateLimits; AskedRepository "engelsjk" "criticalityscore"]
           sample_ghr 1 sample_github ["1:2"] [] Score.empty).
  - reflexivity.
  - reflexivity.
Defined.

(** ** Printing the score *)

Section Printing.
Context `{Encoder}.

(** X19. In the [csv] format [PrintScore] hands 15 records to the writer,
    one for each field of [Score] in the order of the struct, named by the
    [json] tags.  Every float is written with one decimal place: the test
    for five places compares the tag with the name of the Go field, which
    no tag equals, so that the criticality score, rounded to five places
    by [RepositoryStats], is printed with one. *)
Theorem PrintScore_csv_one_decimal (score : Score.Score) :
  exists records,
    PrintScore score "csv"
    = (map (fun r => CsvRecord r.1 r.2) records, Ret tt) /\
    map fst records
    = ["name"; "url"; "language"; "created_since"; "updated_since";
       "contributor_count"; "org_count"; "commit_frequency";
       "recent_releases_count"; "closed_issues_count";
       "updated_issues_count"; "comment_frequency"; "dependents_count";
       "criticality_score"; "scored_on"] /\
    In ("criticality_score", Fixed 1 (Score.CriticalityScore score)) records /\
    forall tag places x, In (tag, Fixed places x) records -> places = 1%nat.
Proof.
  exists (map (fun f => (f.1, csv_cell f.1 f.2)) (fields score)).
  split; [|split; [|split]].
  - unfold PrintScore. cbn [String.eqb Ascii.eqb Bool.eqb].
    now rewrite map_map.
  - reflexivity.
  - cbn. tauto.
  - intros tag places x Hin. cbn in Hin.
    repeat (destruct Hin as [Hin|Hin]; [now inversion Hin|]).
    destruct Hin.
Qed.

(** X20. [PrintScore] panics in one case only: the format is [json] and
    the score cannot be encoded, and then nothing has been printed.  A
    format other than [default], [csv] and [json] is reported on the
    output, by the line "unknown output format" alone, and the call
    returns. *)
Theorem PrintScore_panics_only_for_json (score : Score.Score) (format : string) :
  (forall out, PrintScore score format = (out, Panic) ->
               format = "json" /\ MarshalIndent score = None /\ out = []) /\
  (format <> "default" -> format <> "csv" -> format <> "json" ->
   PrintScore score format = ([PrintedLine "unknown output format"], Ret tt)).
Proof.
  unfold PrintScore. split.
  - intros out.
    destruct (String.eqb format "default"); [discriminate|].
    destruct (String.eqb format "csv"); [discriminate|].
    destruct (String.eqb_spec format "json") as [->|_]; [|discriminate].
    destruct (MarshalIndent score); [discriminate|].
    now intros [= <-].
  - intros Hd Hc Hj.
    rewrite (proj2 (String.eqb_neq _ _) Hd), (proj2 (String.eqb_neq _ _) Hc),
      (proj2 (String.eqb_neq _ _) Hj).
    reflexivity.
Qed.

End Printing.

Lemma PrintScore_panics_only_for_json_witness :
  @PrintScore sample_encoder undefined_score "json" = ([], Panic) /\
  @MarshalIndent sample_encoder undefined_score = None /\
  @PrintScore sample_encoder undefined_score "yaml"
  = ([PrintedLine "unknown output format"], Ret tt).
Proof.
  split; [reflexivity|]. split.
  - exact (proj1 (proj2 (proj1 (@PrintScore_panics_only_for_json sample_encoder
                                  undefined_score "json") [] eq_refl))).
  - apply (proj2 (@PrintScore_panics_only_for_json sample_encoder
                    undefined_score "yaml")); discriminate.
Defined.

(** ** The first malformed parameter *)

Section FirstMalformed.
Context `{Platform}.

Lemma parseAdditionalParams_loop_malformed p rest acc :
  param_shape p = None ->
  parseAdditionalParams_loop (p :: rest) acc = parseAdditionalParams_loop [p] [].
Proof.
  unfold param_shape. cbn [parseAdditionalParams_loop].
  destruct (Strings.Split p ":") as [|a [|b [|c [|d l]]]]; try reflexivity.
  destruct (ParseFloat a); [|reflexivity].
  destruct (ParseFloat b); [|reflexivity].
  destruct (ParseFloat c); [discriminate|reflexivity].
Qed.

Lemma parseAdditionalParams_loop_accepted good : forall rest acc,
  Forall (fun q => param_shape q <> None) good ->
  exists acc',
    parseAdditionalParams_loop (good ++ rest) acc
    = parseAdditionalParams_loop rest acc'.
Proof.
  induction good as [|q good IH]; intros rest acc Hgood.
  - now exists acc.
  - inversion Hgood as [|? ? Hq Hrest]; subst.
    change ((q :: good) ++ rest)%list with (q :: (good ++ rest))%list.
    unfold param_shape in Hq. cbn [parseAdditionalParams_loop].
    destruct (Strings.Split q ":") as [|a [|b [|c [|d l]]]];
      try now contradiction Hq.
    destruct (ParseFloat a); [|now contradiction Hq].
    destruct (ParseFloat b); [|now contradiction Hq].
    destruct (ParseFloat c); [|now contradiction Hq].
    apply IH, Hrest.
Qed.

(** X21. The error of [parseAdditionalParams] is the error of the first
    malformed string: the well-formed strings before it are dropped and
    the strings after it are not read, so that the result is the result
    for that string alone.  The fields are read from left to right: a
    value that is no [float64] is reported whatever the weight and the
    threshold are. *)
Theorem parseAdditionalParams_first_malformed (good : list string) (p : string)
        (rest : list string) :
  Forall (fun q => param_shape q <> None) good ->
  param_shape p = None ->
  parseAdditionalParams (good ++ p :: rest) = parseAdditionalParams [p] /\
  (exists err, parseAdditionalParams [p] = ([], Some err)) /\
  (forall value weight max_threshold,
      Strings.Split p ":" = [value; weight; max_threshold] ->
      ParseFloat value = None ->
      parseAdditionalParams (good ++ p :: rest)
      = ([], Some "param value should be type float64")).
Proof.
  intros Hgood Hp.
  assert (Hfirst : parseAdditionalParams (good ++ p :: rest)
                   = parseAdditionalParams [p]).
  { unfold parseAdditionalParams.
    destruct (parseAdditionalParams_loop_accepted good (p :: rest) [] Hgood)
      as [acc' Hacc].
    destruct (good ++ p :: rest)%list as [|q l] eqn:El.
    - now destruct good.
    - rewrite Hacc. now apply parseAdditionalParams_loop_malformed. }
  split; [exact Hfirst|]. split.
  - unfold parseAdditionalParams, param_shape in *.
    cbn [parseAdditionalParams_loop].
    destruct (Strings.Split p ":") as [|a [|b [|c [|d l]]]]; eauto.
    destruct (ParseFloat a); [|eauto].
    destruct (ParseFloat b); [|eauto].
    destruct (ParseFloat c); [discriminate|eauto].
  - intros value weight max_threshold Hsplit Hvalue. rewrite Hfirst.
    unfold parseAdditionalParams. cbn [parseAdditionalParams_loop].
    now rewrite Hsplit, Hvalue.
Qed.

End FirstMalformed.

Lemma parseAdditionalParams_first_malformed_witness :
  @parseAdditionalParams sample_platform ["1:2:3"; "x:y:z"; "1:2"]
  = @parseAdditionalParams sample_platform ["x:y:z"].
Proof.
  apply (@parseAdditionalParams_first_malformed sample_platform
           ["1:2:3"] "x:y:z" ["1:2"]).
  - repeat constructor. vm_compute. discriminate.
  - vm_compute. reflexivity.
Defined.

(** ** Instances on the sample data *)

Lemma filterOrgName_normal_witness :
  Strings.contains_char (Strings.ToLower "Google LLC,") "g" = true /\
  Strings.is_upper "g" = false /\ "g"%char <> " "%char /\ "g"%char <> "@"%char.
Proof.
  apply (proj1 (filterOrgName_normal "Google LLC,") "g"%char).
  vm_compute. reflexivity.
Defined.

Lemma counting_providers_return_witness :
  exists g n,
    @Contributors sample_platform sample_github sample_ghr
    = ([CallListContributors "true" 1 0], Ret (g, n)) /\
    match ListContributors sample_github "true" 1 0 with
    | ApiOK _ resp => g = sample_ghr /\ @totalCount sample_platform resp = Ret n
    | ApiErr _ err => g = set_Error sample_ghr err /\ n = 0
    end.
Proof.
  exact (proj1 (@counting_providers_return sample_platform sample_github sample_ghr)).
Defined.

Lemma PrintScore_csv_one_decimal_witness :
  exists records,
    @PrintScore sample_encoder undefined_score "csv"
    = (map (fun r => CsvRecord r.1 r.2) records, Ret tt) /\
    In ("criticality_score", Fixed 1 NaN) records.
Proof.
  destruct (@PrintScore_csv_one_decimal sample_encoder undefined_score)
    as (records & Hout & _ & Hin & _).
  exists records. split; [exact Hout|exact Hin].
Defined.
